(** * CBOM validators: summary consistency and CycloneDX 1.6 conformance

    A shallow embedding of [tools/validate_cbom.py] and
    [tools/validate_cdx16_schema.py], and the properties of the two
    checkers established over it.

    Layout:
    - [Py]      the fragment of Python's value semantics both tools rely on:
                parsed JSON trees, truthiness, [str], [int], [in], [.get],
                and exceptions as an error monad;
    - [Cbom]    [count_findings], [compare_summary] and the driver of
                [validate_cbom.py];
    - [Cdx16]   the four checks, [validate_cbom_16] and the driver of
                [validate_cdx16_schema.py];
    - the theorems, grouped by tool. *)

From Stdlib Require Import ZArith List Bool Lia Ascii String.
From Stdlib Require Import DecimalString DecimalNat DecimalZ DecimalFacts.
From Stdlib Require Import SpecFloat.
Import ListNotations.

Set Warnings "-register-all".

Local Open Scope string_scope.
Local Open Scope Z_scope.

(* ================================================================= *)
(** ** Python values and builtins *)

Module Py.

(** Exceptions the two tools can meet on a parsed document. *)
Inductive exn : Type :=
| AttributeError
| TypeError
| ValueError
| OverflowError.

(** A computation either returns or raises. *)
Inductive result (A : Type) : Type :=
| Ok (a : A)
| Raise (e : exn).

Arguments Ok {A} a.
Arguments Raise {A} e.

Definition bind {A B : Type} (m : result A) (k : A -> result B) : result B :=
  match m with
  | Ok a => k a
  | Raise e => Raise e
  end.

Notation "x <- m ;; k" := (bind m (fun x => k))
  (at level 61, m at next level, right associativity).
Notation "' p <- m ;; k" := (bind m (fun x => match x with p => k end))
  (at level 61, p pattern, m at next level, right associativity).

(** What [json.load] returns.  An object is kept as an association list in
    insertion order; [json.load] leaves each key once, and lookup takes the
    first binding.  Text is a [string] of one-byte characters.  A float
    carries its IEEE value and, next to it, the text [repr] gives it (the
    shortest-digits printer is not reconstructed here). *)
Inductive json : Type :=
| JNull
| JBool (b : bool)
| JInt (z : Z)
| JFloat (v : spec_float) (text : string)
| JStr (s : string)
| JList (l : list json)
| JDict (d : list (string * json)).

(** *** Association lists as dicts *)

Fixpoint lookup {V : Type} (k : string) (d : list (string * V)) : option V :=
  match d with
  | [] => None
  | (k', v) :: d' => if String.eqb k k' then Some v else lookup k d'
  end.

Definition has_key {V : Type} (k : string) (d : list (string * V)) : bool :=
  match lookup k d with Some _ => true | None => false end.

(** [d[k] = v]: an existing key keeps its position, a new one goes last. *)
Fixpoint store {V : Type} (k : string) (v : V) (d : list (string * V))
  : list (string * V) :=
  match d with
  | [] => [(k, v)]
  | (k', v') :: d' =>
      if String.eqb k k' then (k', v) :: d' else (k', v') :: store k v d'
  end.

(** [d.get(k, 0)] on a dict of counters. *)
Definition get0 (k : string) (d : list (string * Z)) : Z :=
  match lookup k d with Some n => n | None => 0 end.

(** *** Characters and text *)

Definition code (c : ascii) : nat := nat_of_ascii c.

Definition between (lo hi : nat) (c : ascii) : bool :=
  (Nat.leb lo (code c) && Nat.leb (code c) hi)%bool.

Definition is_digit (c : ascii) : bool := between 48 57 c.

(** [str.upper] and [str.lower], on the ASCII letters. *)
Definition upper_char (c : ascii) : ascii :=
  if between 97 122 c then ascii_of_nat (code c - 32) else c.

Definition lower_char (c : ascii) : ascii :=
  if between 65 90 c then ascii_of_nat (code c + 32) else c.

Fixpoint map_string (f : ascii -> ascii) (s : string) : string :=
  match s with
  | EmptyString => EmptyString
  | String c r => String (f c) (map_string f r)
  end.

Definition upper : string -> string := map_string upper_char.
Definition lower : string -> string := map_string lower_char.

(** [s.startswith(p)]. *)
Definition startswith (p s : string) : bool := String.prefix p s.

(** [sub in s] for two strings. *)
Fixpoint str_contains (sub s : string) : bool :=
  (String.prefix sub s
   || match s with
      | EmptyString => false
      | String _ r => str_contains sub r
      end)%bool.

Fixpoint string_mem (c : ascii) (s : string) : bool :=
  match s with
  | EmptyString => false
  | String c' r => (Ascii.eqb c c' || string_mem c r)%bool
  end.

Fixpoint join (sep : string) (l : list string) : string :=
  match l with
  | [] => ""
  | [x] => x
  | x :: r => x ++ sep ++ join sep r
  end.

(** [str(n)] for an [int]. *)
Definition str_of_Z (z : Z) : string := NilZero.string_of_int (Z.to_int z).
Definition str_of_nat (n : nat) : string := NilZero.string_of_uint (Nat.to_uint n).


(** *** [repr] and [str] *)

Definition quote1 : ascii := ascii_of_nat 39.
Definition quote2 : ascii := ascii_of_nat 34.
Definition backslash : ascii := ascii_of_nat 92.

Definition hex_digit (n : nat) : ascii :=
  if Nat.ltb n 10 then ascii_of_nat (48 + n) else ascii_of_nat (87 + n).

(** One character of [repr(s)], [q] being the quote chosen for [s]. *)
Definition escape_char (q c : ascii) : string :=
  if (Ascii.eqb c q || Ascii.eqb c backslash)%bool then String backslash (String c "")
  else if Nat.eqb (code c) 9 then String backslash "t"
  else if Nat.eqb (code c) 10 then String backslash "n"
  else if Nat.eqb (code c) 13 then String backslash "r"
  else if (Nat.ltb (code c) 32 || Nat.eqb (code c) 127)%bool then
    String backslash
      (String "x" (String (hex_digit (Nat.div (code c) 16))
                     (String (hex_digit (Nat.modulo (code c) 16)) "")))
  else String c "".

Fixpoint escape (q : ascii) (s : string) : string :=
  match s with
  | EmptyString => ""
  | String c r => escape_char q c ++ escape q r
  end.

(** [repr(s)] for text: single quotes, unless [s] has a single quote and no
    double quote. *)
Definition repr_str (s : string) : string :=
  let q := if (string_mem quote1 s && negb (string_mem quote2 s))%bool
           then quote2 else quote1 in
  String q (escape q s ++ String q "").

Fixpoint repr (v : json) : string :=
  match v with
  | JNull => "None"
  | JBool true => "True"
  | JBool false => "False"
  | JInt z => str_of_Z z
  | JFloat _ text => text
  | JStr s => repr_str s
  | JList l => "[" ++ join ", " (map repr l) ++ "]"
  | JDict d =>
      "{" ++ join ", " (map (fun kv => repr_str (fst kv) ++ ": " ++ repr (snd kv)) d)
          ++ "}"
  end.

(** [str(v)], also what an f-string field [{v}] prints. *)
Definition str (v : json) : string :=
  match v with
  | JStr s => s
  | _ => repr v
  end.

(** *** Truthiness, [or], [isinstance] *)

Definition truthy (v : json) : bool :=
  match v with
  | JNull => false
  | JBool b => b
  | JInt z => negb (Z.eqb z 0)
  | JFloat (S754_zero _) _ => false
  | JFloat _ _ => true
  | JStr s => negb (String.eqb s "")
  | JList l => match l with [] => false | _ => true end
  | JDict d => match d with [] => false | _ => true end
  end.

(** [v or dflt]. *)
Definition py_or (v dflt : json) : json := if truthy v then v else dflt.

Definition is_list (v : json) : bool :=
  match v with JList _ => true | _ => false end.

Definition is_dict (v : json) : bool :=
  match v with JDict _ => true | _ => false end.

Definition is_none (v : json) : bool :=
  match v with JNull => true | _ => false end.

(** [v == s] for a text literal [s]. *)
Definition eq_str (v : json) (s : string) : bool :=
  match v with JStr s' => String.eqb s' s | _ => false end.

(** *** Attribute access and membership *)

(** [x.get(k, dflt)]: only a dict has [get]. *)
Definition py_get_d (x : json) (k : string) (dflt : json) : result json :=
  match x with
  | JDict d => Ok (match lookup k d with Some v => v | None => dflt end)
  | _ => Raise AttributeError
  end.

(** [x.get(k)]. *)
Definition py_get (x : json) (k : string) : result json := py_get_d x k JNull.

(** [k in x] for a text literal [k]: key membership on a dict, element
    membership on a list, substring on text, and a [TypeError] on the rest. *)
Definition py_in (k : string) (x : json) : result bool :=
  match x with
  | JDict d => Ok (has_key k d)
  | JList l => Ok (existsb (fun e => eq_str e k) l)
  | JStr s => Ok (str_contains k s)
  | _ => Raise TypeError
  end.

(** [x.startswith(p)]: only text has it. *)
Definition py_startswith (x : json) (p : string) : result bool :=
  match x with
  | JStr s => Ok (startswith p s)
  | _ => Raise AttributeError
  end.

Fixpoint chars (s : string) : list json :=
  match s with
  | EmptyString => []
  | String c r => JStr (String c "") :: chars r
  end.

(** What a [for] loop (or [enumerate]) walks over. *)
Definition py_iter (x : json) : result (list json) :=
  match x with
  | JList l => Ok l
  | JDict d => Ok (map (fun kv => JStr (fst kv)) d)
  | JStr s => Ok (chars s)
  | _ => Raise TypeError
  end.

(** *** [int] *)

Definition is_space (c : ascii) : bool :=
  (between 9 13 c || between 28 32 c)%bool.

Fixpoint lstrip (s : string) : string :=
  match s with
  | EmptyString => ""
  | String c r => if is_space c then lstrip r else s
  end.

Fixpoint rev_string (acc s : string) : string :=
  match s with
  | EmptyString => acc
  | String c r => rev_string (String c acc) r
  end.

Definition strip (s : string) : string :=
  rev_string "" (lstrip (rev_string "" (lstrip s))).

(** Decimal digits with single underscores between digits; [after_digit]
    says the previous character was a digit. *)
Fixpoint digits_value (acc : Z) (after_digit : bool) (s : string) : option Z :=
  match s with
  | EmptyString => if after_digit then Some acc else None
  | String c r =>
      if is_digit c then digits_value (10 * acc + Z.of_nat (code c - 48)) true r
      else if (Ascii.eqb c "_" && after_digit)%bool then digits_value acc false r
      else None
  end.

(** [int(s)] for text: blanks around, an optional sign, then the digits.
    (The digit-count limit of recent interpreters is left out.) *)
Definition int_of_text (s : string) : option Z :=
  match strip s with
  | String "-" r => option_map Z.opp (digits_value 0 false r)
  | String "+" r => digits_value 0 false r
  | r => digits_value 0 false r
  end.

(** [int(x)] for a float: towards zero. *)
Definition int_of_float (f : spec_float) : result Z :=
  match f with
  | S754_zero _ => Ok 0
  | S754_infinity _ => Raise OverflowError
  | S754_nan => Raise ValueError
  | S754_finite s m e =>
      let mag := if Z.leb 0 e then Zpos m * 2 ^ e else Zpos m / 2 ^ (- e) in
      Ok (if s then - mag else mag)
  end.

Definition py_int (x : json) : result Z :=
  match x with
  | JNull => Raise TypeError
  | JBool b => Ok (if b then 1 else 0)
  | JInt z => Ok z
  | JFloat v _ => int_of_float v
  | JStr s => match int_of_text s with Some z => Ok z | None => Raise ValueError end
  | JList _ => Raise TypeError
  | JDict _ => Raise TypeError
  end.

End Py.

(* ================================================================= *)
(** ** [validate_cbom.py]: summary against findings *)

Module Cbom.
Import Py.

Definition VULN_SEVERITIES : list string := ["CRITICAL"; "HIGH"; "MEDIUM"].

(** The four values [count_findings] builds and returns. *)
Record counts : Type := mkCounts {
  risk_counts : list (string * Z);
  algo_counts : list (string * Z);
  vuln_assets : Z;
  quantum_safe : Z
}.

Definition no_counts : counts := mkCounts [] [] 0 0.

(** One turn of the loop of [count_findings]. *)
Definition count_finding (st : counts) (finding : json) : result counts :=
  r <- py_get_d finding "risk" (JStr "UNKNOWN") ;;
  let risk := upper (str r) in
  let risk_counts' := store risk (get0 risk (risk_counts st) + 1) (risk_counts st) in
  a <- py_get_d finding "algorithm" (JStr "unknown") ;;
  let algo := str a in
  let algo_counts' := store algo (get0 algo (algo_counts st) + 1) (algo_counts st) in
  q <- py_get_d finding "quantum_resistant" (JBool false) ;;
  let quantum_resistant := truthy q in
  let quantum_safe' :=
    if quantum_resistant then quantum_safe st + 1 else quantum_safe st in
  let vuln_assets' :=
    if (existsb (String.eqb risk) VULN_SEVERITIES && negb quantum_resistant)%bool
    then vuln_assets st + 1 else vuln_assets st in
  Ok (mkCounts risk_counts' algo_counts' vuln_assets' quantum_safe').

Fixpoint count_from (st : counts) (findings : list json) : result counts :=
  match findings with
  | [] => Ok st
  | finding :: rest => st' <- count_finding st finding ;; count_from st' rest
  end.

Definition count_findings (findings : list json) : result counts :=
  count_from no_counts findings.

(** The running pair [(ok, errors)] of [compare_summary]. *)
Definition verdict : Type := (bool * list string)%type.

(** [errors.append(msg)]. *)
Definition append (errors : list string) (msg : string) : list string :=
  (errors ++ [msg])%list.

(** The two blocks "Compare quantum_safe_assets" and "Compare
    vulnerable_assets", which differ in the key and the computed value. *)
Definition compare_total (key : string) (summary : json) (computed : Z)
  (acc : verdict) : result verdict :=
  present <- py_in key summary ;;
  if present then
    v <- py_get_d summary key (JInt (-1)) ;;
    n <- py_int v ;;
    if negb (Z.eqb n computed) then
      shown <- py_get summary key ;;
      Ok (false,
          append (snd acc)
            ("summary." ++ key ++ "=" ++ str shown
               ++ " != computed " ++ str_of_Z computed))
    else Ok acc
  else Ok acc.

(** [(summary.get(field) or {}) if isinstance(summary, dict) else {}]. *)
Definition breakdown_of (summary : json) (field : string) : result json :=
  if is_dict summary then
    b <- py_get summary field ;; Ok (py_or b (JDict []))
  else Ok (JDict []).

(** The loops "Compare risk_breakdown" and "Compare algorithm_breakdown":
    they walk the computed dict, in its insertion order.  The source reads
    [reported.get(key)] again for [int] and for the message; a read has no
    effect, so it is made once.  ([int(count)] is [count].) *)
Fixpoint compare_breakdown (field : string) (reported : json)
  (computed : list (string * Z)) (acc : verdict) : result verdict :=
  match computed with
  | [] => Ok acc
  | (key, count) :: rest =>
      v <- py_get reported key ;;
      differs <- (if is_none v then Ok false
                  else n <- py_int v ;; Ok (negb (Z.eqb n count))) ;;
      if differs then
        compare_breakdown field reported rest
          (false,
           append (snd acc)
             ("summary." ++ field ++ "[" ++ key ++ "]=" ++ str v
                ++ " != computed " ++ str_of_Z count))
      else compare_breakdown field reported rest acc
  end.

Definition compare_summary (doc : json) : result verdict :=
  f <- py_get doc "findings" ;;
  match py_or f (JList []) with
  | JList findings =>
      c <- count_findings findings ;;
      s <- py_get doc "summary" ;;
      let summary := py_or s (JDict []) in
      acc <- compare_total "quantum_safe_assets" summary (quantum_safe c) (true, []) ;;
      acc <- compare_total "vulnerable_assets" summary (vuln_assets c) acc ;;
      s_risk <- breakdown_of summary "risk_breakdown" ;;
      acc <- compare_breakdown "risk_breakdown" s_risk (risk_counts c) acc ;;
      s_algo <- breakdown_of summary "algorithm_breakdown" ;;
      compare_breakdown "algorithm_breakdown" s_algo (algo_counts c) acc
  | _ => Ok (false, ["findings is not an array"])
  end.

(** What [load_json] gives for one path: the document, or the text of the
    exception caught by [main]. *)
Inductive loaded : Type :=
| Unreadable (why : string)
| Loaded (doc : json).

(** The loop of [main]: the lines printed so far, and either the exit status
    or the exception that ends the process. *)
Fixpoint report (files : list (string * loaded)) (all_ok : bool)
  (out : list string) : list string * result Z :=
  match files with
  | [] => (out, Ok (if all_ok then 0 else 1))
  | (path, Unreadable why) :: rest =>
      report rest false (append out ("[FAIL] " ++ path ++ ": invalid JSON: " ++ why))
  | (path, Loaded doc) :: rest =>
      match compare_summary doc with
      | Raise e => (out, Raise e)
      | Ok (true, _) =>
          report rest all_ok (append out ("[OK] " ++ path ++ ": summary matches findings"))
      | Ok (false, errors) =>
          report rest false
            (List.app (append out ("[FAIL] " ++ path ++ ":"))
                      (map (fun err => "  - " ++ err) errors))
      end
  end.

Definition main (files : list (string * loaded)) : list string * result Z :=
  report files true [].

End Cbom.

(* ================================================================= *)
(** ** [validate_cdx16_schema.py]: CycloneDX 1.6 conformance *)

Module Cdx16.
Import Py.

Definition verdict : Type := (bool * list string)%type.

Definition append (errors : list string) (msg : string) : list string :=
  (errors ++ [msg])%list.

Definition validate_spec_version (doc : json) : result verdict :=
  spec_version <- py_get doc "specVersion" ;;
  if negb (truthy spec_version) then
    Ok (false, ["Missing required field: specVersion"])
  else if negb (eq_str spec_version "1.6") then
    Ok (false, ["Expected specVersion '1.6', got '" ++ str spec_version ++ "'"])
  else Ok (true, []).

Definition validate_bom_format (doc : json) : result verdict :=
  bom_format <- py_get doc "bomFormat" ;;
  if negb (truthy bom_format) then
    Ok (false, ["Missing required field: bomFormat"])
  else if negb (eq_str bom_format "CycloneDX") then
    Ok (false, ["Expected bomFormat 'CycloneDX', got '" ++ str bom_format ++ "'"])
  else Ok (true, []).

(** The messages of [validate_component_properties]. *)
Definition msg_crypto (idx : nat) (name : json) : string :=
  "Component " ++ str_of_nat idx ++ " (" ++ str name ++ ") "
    ++ "has .crypto field (should use .properties in 1.6)".

Definition msg_not_array (idx : nat) : string :=
  "Component " ++ str_of_nat idx ++ ": properties must be an array".

Definition msg_not_object (idx : nat) : string :=
  "Component " ++ str_of_nat idx ++ ": property must be an object".

Definition msg_no_name (idx : nat) : string :=
  "Component " ++ str_of_nat idx ++ ": property missing 'name' field".

Definition msg_no_value (idx : nat) : string :=
  "Component " ++ str_of_nat idx ++ ": property missing 'value' field".

(** [[p for p in properties if p.get("name", "").startswith("cbom:")]]. *)
Fixpoint cbom_props (properties : list json) : result (list json) :=
  match properties with
  | [] => Ok []
  | p :: rest =>
      name <- py_get_d p "name" (JStr "") ;;
      keep <- py_startswith name "cbom:" ;;
      kept <- cbom_props rest ;;
      Ok (if keep then p :: kept else kept)
  end.

(** The body of [for prop in cbom_props]. *)
Definition check_prop (idx : nat) (errors : list string) (prop : json)
  : result (list string) :=
  if negb (is_dict prop) then Ok (append errors (msg_not_object idx))
  else
    has_name <- py_in "name" prop ;;
    let errors := if negb has_name then append errors (msg_no_name idx) else errors in
    has_value <- py_in "value" prop ;;
    let errors := if negb has_value then append errors (msg_no_value idx) else errors in
    Ok errors.

Fixpoint check_props (idx : nat) (errors : list string) (props : list json)
  : result (list string) :=
  match props with
  | [] => Ok errors
  | prop :: rest => errors' <- check_prop idx errors prop ;; check_props idx errors' rest
  end.

(** The body of [for idx, component in enumerate(components)], on the pair
    [(errors, warnings)].  (The two counters the source keeps next to them
    are never read.) *)
Definition check_component (idx : nat) (component : json)
  (st : list string * list string) : result (list string * list string) :=
  let (errors, warnings) := st in
  has_crypto <- py_in "crypto" component ;;
  warnings <- (if has_crypto then
                 name <- py_get_d component "name" (JStr "unnamed") ;;
                 Ok (append warnings (msg_crypto idx name))
               else Ok warnings) ;;
  properties <- py_get_d component "properties" (JList []) ;;
  match properties with
  | JList props =>
      kept <- cbom_props props ;;
      errors <- check_props idx errors kept ;;
      Ok (errors, warnings)
  | _ => Ok (append errors (msg_not_array idx), warnings)
  end.

Fixpoint check_components (idx : nat) (components : list json)
  (st : list string * list string) : result (list string * list string) :=
  match components with
  | [] => Ok st
  | component :: rest =>
      st' <- check_component idx component st ;;
      check_components (S idx) rest st'
  end.

Definition validate_component_properties (components : json) : result verdict :=
  items <- py_iter components ;;
  '(errors, warnings) <- check_components 0 items ([], []) ;;
  Ok (Nat.eqb (List.length errors) 0, (errors ++ warnings)%list).

Definition validate_metadata (doc : json) : result verdict :=
  metadata <- py_get_d doc "metadata" (JDict []) ;;
  if negb (truthy metadata) then Ok (false, ["Missing metadata section"])
  else
    tools <- py_get_d metadata "tools" (JList []) ;;
    let errors :=
      if negb (truthy tools) then ["metadata.tools array is empty or missing"] else [] in
    has_timestamp <- py_in "timestamp" metadata ;;
    let errors :=
      if negb has_timestamp then append errors "metadata.timestamp is missing" else errors in
    Ok (Nat.eqb (List.length errors) 0, errors).

Definition validate_cbom_16 (doc : json) : result verdict :=
  '(ok, errors) <- validate_bom_format doc ;;
  let all_ok := ok in
  let all_errors := errors in
  '(ok, errors) <- validate_spec_version doc ;;
  let all_ok := (all_ok && ok)%bool in
  let all_errors := (all_errors ++ errors)%list in
  '(ok, errors) <- validate_metadata doc ;;
  let all_ok := (all_ok && ok)%bool in
  let all_errors := (all_errors ++ errors)%list in
  components <- py_get_d doc "components" (JList []) ;;
  if truthy components then
    '(ok, errors) <- validate_component_properties components ;;
    Ok ((all_ok && ok)%bool, (all_errors ++ errors)%list)
  else Ok (all_ok, all_errors).

Inductive loaded : Type :=
| Unreadable (why : string)
| Loaded (doc : json).

(** The test "Distinguish errors from warnings" of [main]. *)
Definition looks_like_warning (msg : string) : bool :=
  (str_contains "warning" (lower msg) || str_contains "should" (lower msg))%bool.

(** [for msg in messages] under [FAIL]: the flag [all_ok] and the lines. *)
Fixpoint print_messages (strict : bool) (messages : list string)
  (all_ok : bool) (out : list string) : bool * list string :=
  match messages with
  | [] => (all_ok, out)
  | msg :: rest =>
      if looks_like_warning msg then
        let prefix := if negb strict then "[WARN]" else "[ERROR]" in
        print_messages strict rest (if strict then false else all_ok)
          (append out ("  " ++ prefix ++ " " ++ msg))
      else
        print_messages strict rest all_ok (append out ("  [ERROR] " ++ msg))
  end.

(** The loop of [main]: lines printed, then the exit status, or the
    exception that ends the process. *)
Fixpoint report (strict : bool) (files : list (string * loaded)) (all_ok : bool)
  (out : list string) : list string * result Z :=
  match files with
  | [] => (out, Ok (if all_ok then 0 else 1))
  | (path, Unreadable why) :: rest =>
      report strict rest false
        (append out ("[FAIL] " ++ path ++ ": Invalid JSON: " ++ why))
  | (path, Loaded doc) :: rest =>
      match validate_cbom_16 doc with
      | Raise e => (out, Raise e)
      | Ok (true, _) =>
          report strict rest all_ok
            (append out ("[OK] " ++ path ++ ": Valid CycloneDX 1.6 CBOM"))
      | Ok (false, messages) =>
          let (all_ok', out') :=
            print_messages strict messages false
              (append out ("[FAIL] " ++ path ++ ":")) in
          report strict rest all_ok' out'
      end
  end.

(** [main], given [args.strict] and what each path of [args.files] loads to. *)
Definition main (strict : bool) (files : list (string * loaded))
  : list string * result Z :=
  report strict files true [].

End Cdx16.

(* ================================================================= *)
(** ** Facts about counter dicts *)

Module DictFacts.
Import Py.

Lemma lookup_store {V : Type} (k k' : string) (v : V) (d : list (string * V)) :
  lookup k (store k' v d) = if String.eqb k k' then Some v else lookup k d.
Proof.
  induction d as [|[k0 v0] d IH]; simpl.
  - reflexivity.
  - destruct (String.eqb_spec k' k0) as [->|Hne]; simpl.
    + destruct (String.eqb k k0); reflexivity.
    + rewrite IH.
      destruct (String.eqb_spec k k0) as [->|Hne'].
      * destruct (String.eqb_spec k0 k') as [->|_]; [contradiction Hne|]; reflexivity.
      * reflexivity.
Qed.

Lemma get0_store (k k' : string) (n : Z) (d : list (string * Z)) :
  get0 k (store k' n d) = if String.eqb k k' then n else get0 k d.
Proof.
  unfold get0. rewrite lookup_store. destruct (String.eqb k k'); reflexivity.
Qed.

End DictFacts.

(* ================================================================= *)
(** ** The findings aggregator *)

Module CountFacts.
Import Py Cbom DictFacts.

(** A finding that is an object, as its list of fields. *)
Definition finding : Type := list (string * json).

Definition field (name : string) (dflt : json) (f : finding) : json :=
  match lookup name f with Some v => v | None => dflt end.

(** The severity a finding is filed under: its risk, uppercased, "UNKNOWN"
    when the key is absent. *)
Definition risk_of (f : finding) : string :=
  upper (str (field "risk" (JStr "UNKNOWN") f)).

Definition algo_of (f : finding) : string :=
  str (field "algorithm" (JStr "unknown") f).

Definition resistant (f : finding) : bool :=
  truthy (field "quantum_resistant" (JBool false) f).

Definition severe (f : finding) : bool :=
  (String.eqb (risk_of f) "CRITICAL" || String.eqb (risk_of f) "HIGH"
   || String.eqb (risk_of f) "MEDIUM")%bool.

Definition vulnerable (f : finding) : bool := (severe f && negb (resistant f))%bool.

(** How many elements of [l] satisfy [p], as a Python [int]. *)
Definition tally {A : Type} (p : A -> bool) (l : list A) : Z :=
  Z.of_nat (List.length (filter p l)).

Lemma tally_nil {A : Type} (p : A -> bool) : tally p [] = 0.
Proof. reflexivity. Qed.

Lemma tally_cons {A : Type} (p : A -> bool) (a : A) (l : list A) :
  tally p (a :: l) = (if p a then 1 else 0) + tally p l.
Proof.
  unfold tally. simpl. destruct (p a); simpl List.length; lia.
Qed.

Lemma tally_app {A : Type} (p : A -> bool) (l l' : list A) :
  tally p (l ++ l')%list = tally p l + tally p l'.
Proof.
  induction l as [|a l IH]; [reflexivity|].
  simpl app. rewrite !tally_cons, IH. lia.
Qed.

(** One turn of the loop on an object: it always returns, and moves each of
    the four values by that finding's share. *)
Lemma count_finding_object (st : counts) (f : finding) :
  count_finding st (JDict f) =
  Ok (mkCounts
        (store (risk_of f) (get0 (risk_of f) (risk_counts st) + 1) (risk_counts st))
        (store (algo_of f) (get0 (algo_of f) (algo_counts st) + 1) (algo_counts st))
        (if vulnerable f then vuln_assets st + 1 else vuln_assets st)
        (if resistant f then quantum_safe st + 1 else quantum_safe st)).
Proof.
  unfold count_finding, py_get_d, bind.
  fold (field "risk" (JStr "UNKNOWN") f).
  fold (field "algorithm" (JStr "unknown") f).
  fold (field "quantum_resistant" (JBool false) f).
  fold (risk_of f) (algo_of f) (resistant f).
  unfold vulnerable, severe, VULN_SEVERITIES. simpl existsb.
  rewrite orb_false_r, orb_assoc. reflexivity.
Qed.

(** The whole loop, from any state. *)
Lemma count_from_objects (fs : list finding) :
  forall st : counts,
  exists c : counts,
    count_from st (map JDict fs) = Ok c
    /\ vuln_assets c = vuln_assets st + tally vulnerable fs
    /\ quantum_safe c = quantum_safe st + tally resistant fs
    /\ (forall k, get0 k (risk_counts c)
                  = get0 k (risk_counts st) + tally (fun f => String.eqb k (risk_of f)) fs)
    /\ (forall k, get0 k (algo_counts c)
                  = get0 k (algo_counts st) + tally (fun f => String.eqb k (algo_of f)) fs).
Proof.
  induction fs as [|f fs IH]; intros st.
  - exists st. simpl.
    repeat split; intros; rewrite tally_nil; lia.
  - cbn [map count_from]. rewrite count_finding_object. cbn [bind].
    destruct (IH (mkCounts
        (store (risk_of f) (get0 (risk_of f) (risk_counts st) + 1) (risk_counts st))
        (store (algo_of f) (get0 (algo_of f) (algo_counts st) + 1) (algo_counts st))
        (if vulnerable f then vuln_assets st + 1 else vuln_assets st)
        (if resistant f then quantum_safe st + 1 else quantum_safe st)))
      as (c & Hc & Hv & Hq & Hr & Ha).
    exists c. simpl in Hv, Hq, Hr, Ha.
    split; [exact Hc|]. rewrite !tally_cons.
    split; [destruct (vulnerable f); lia|].
    split; [destruct (resistant f); lia|].
    split; intros k.
    + rewrite Hr, get0_store, tally_cons.
      destruct (String.eqb_spec k (risk_of f)) as [->|_]; lia.
    + rewrite Ha, get0_store, tally_cons.
      destruct (String.eqb_spec k (algo_of f)) as [->|_]; lia.
Qed.

(** C5. On every array of finding objects the aggregator returns, its
    vulnerable count is the number of findings whose uppercased risk is
    CRITICAL, HIGH or MEDIUM and whose [quantum_resistant] is falsy, and its
    quantum-safe count is the number of findings whose [quantum_resistant] is
    truthy; the single finding [{risk: "CRITICAL", quantum_resistant: true}]
    gives 0 and 1. *)
Theorem count_findings_vulnerable_and_quantum_safe (fs : list finding) :
  (exists c : counts,
     count_findings (map JDict fs) = Ok c
     /\ vuln_assets c = tally vulnerable fs
     /\ quantum_safe c = tally resistant fs)
  /\ (exists c : counts,
        count_findings
          [JDict [("risk", JStr "CRITICAL"); ("quantum_resistant", JBool true)]] = Ok c
        /\ vuln_assets c = 0 /\ quantum_safe c = 1).
Proof.
  split.
  - destruct (count_from_objects fs no_counts) as (c & Hc & Hv & Hq & _).
    exists c. split; [exact Hc|]. simpl in Hv, Hq. lia.
  - eexists. split; [reflexivity|]. split; reflexivity.
Qed.

(** C9. A finding whose [risk] is present with value null is filed under
    "NONE" (the text of [None], uppercased) and not under "UNKNOWN", and one
    whose [algorithm] is present with value null under "None" and not under
    "unknown": adding such a finding anywhere in the array raises that bucket
    by one and leaves the default's bucket as it was.  The defaults are for an
    absent key: a finding without [risk] raises "UNKNOWN", one without
    [algorithm] raises "unknown". *)
Theorem null_risk_and_algorithm_buckets (pre post : list finding) (f : finding) :
  exists c c' : counts,
    count_findings (map JDict (pre ++ f :: post)) = Ok c
    /\ count_findings (map JDict (pre ++ post)) = Ok c'
    /\ (lookup "risk" f = Some JNull ->
        get0 "NONE" (risk_counts c) = get0 "NONE" (risk_counts c') + 1
        /\ get0 "UNKNOWN" (risk_counts c) = get0 "UNKNOWN" (risk_counts c'))
    /\ (lookup "algorithm" f = Some JNull ->
        get0 "None" (algo_counts c) = get0 "None" (algo_counts c') + 1
        /\ get0 "unknown" (algo_counts c) = get0 "unknown" (algo_counts c'))
    /\ (lookup "risk" f = None ->
        get0 "UNKNOWN" (risk_counts c) = get0 "UNKNOWN" (risk_counts c') + 1)
    /\ (lookup "algorithm" f = None ->
        get0 "unknown" (algo_counts c) = get0 "unknown" (algo_counts c') + 1).
Proof.
  destruct (count_from_objects (pre ++ f :: post) no_counts) as (c & Hc & _ & _ & Hr & Ha).
  destruct (count_from_objects (pre ++ post) no_counts) as (c' & Hc' & _ & _ & Hr' & Ha').
  exists c, c'. split; [exact Hc|]. split; [exact Hc'|].
  assert (Hrisk : forall k, get0 k (risk_counts c)
            = get0 k (risk_counts c') + (if String.eqb k (risk_of f) then 1 else 0)).
  { intros k. rewrite Hr, Hr', !tally_app, tally_cons. lia. }
  assert (Halgo : forall k, get0 k (algo_counts c)
            = get0 k (algo_counts c') + (if String.eqb k (algo_of f) then 1 else 0)).
  { intros k. rewrite Ha, Ha', !tally_app, tally_cons. lia. }
  split; [intros H; split|split; [intros H; split|split; intros H]].
  - rewrite Hrisk. unfold risk_of, field. rewrite H. reflexivity.
  - rewrite Hrisk. unfold risk_of, field. rewrite H. simpl. lia.
  - rewrite Halgo. unfold algo_of, field. rewrite H. reflexivity.
  - rewrite Halgo. unfold algo_of, field. rewrite H. simpl. lia.
  - rewrite Hrisk. unfold risk_of, field. rewrite H. reflexivity.
  - rewrite Halgo. unfold algo_of, field. rewrite H. reflexivity.
Qed.

Lemma null_risk_and_algorithm_buckets_witness :
  exists c c' : counts,
    count_findings [JDict [("risk", JNull); ("algorithm", JNull)]] = Ok c
    /\ count_findings [] = Ok c'
    /\ get0 "NONE" (risk_counts c) = get0 "NONE" (risk_counts c') + 1
    /\ get0 "UNKNOWN" (risk_counts c) = get0 "UNKNOWN" (risk_counts c')
    /\ get0 "None" (algo_counts c) = get0 "None" (algo_counts c') + 1
    /\ get0 "unknown" (algo_counts c) = get0 "unknown" (algo_counts c').
Proof.
  destruct (null_risk_and_algorithm_buckets [] [] [("risk", JNull); ("algorithm", JNull)])
    as (c & c' & Hc & Hc' & Hr & Ha & _).
  exists c, c'.
  destruct (Hr eq_refl) as [Hr1 Hr2].
  destruct (Ha eq_refl) as [Ha1 Ha2].
  repeat split; assumption.
Defined.

End CountFacts.

(* ================================================================= *)
(** ** The summary comparator *)

Module CompareFacts.
Import Py Cbom DictFacts CountFacts.

(** *** The guard on [findings] *)

(** [{"findings": {}, "summary": {"vulnerable_assets": 3}}] *)
Definition doc_findings_object : list (string * json) :=
  [("findings", JDict []); ("summary", JDict [("vulnerable_assets", JInt 3)])].

(** C4 as stated fails there: [findings] is present and is not an array, yet
    the guard does not fire, the findings are counted (as none) and the
    summary is compared. *)
Lemma falsy_findings_pass_the_guard :
  lookup "findings" doc_findings_object = Some (JDict [])
  /\ is_list (JDict []) = false
  /\ compare_summary (JDict doc_findings_object)
     = Ok (false, ["summary.vulnerable_assets=3 != computed 0"])
  /\ compare_summary (JDict doc_findings_object)
     <> Ok (false, ["findings is not an array"]).
Proof.
  repeat split. discriminate.
Qed.

(** A falsy [findings] is read as an empty array. *)
Lemma falsy_findings_as_empty (d : list (string * json)) (v : json) :
  lookup "findings" d = Some v ->
  truthy v = false ->
  compare_summary (JDict d) = compare_summary (JDict (("findings", JList []) :: d)).
Proof.
  intros Hv Hf. unfold compare_summary, py_get, py_get_d.
  cbn [lookup String.eqb Ascii.eqb Bool.eqb bind]. rewrite Hv.
  unfold py_or. rewrite Hf. reflexivity.
Qed.

(** C4, amended. When [findings] is present with a value that is not an array
    and is truthy (true, a number other than zero, non-empty text, a non-empty
    object), the comparator returns the single error "findings is not an
    array" and nothing else, and the driver prints the file as failed and
    exits with status 1. *)
Theorem truthy_non_array_findings_rejected
  (d : list (string * json)) (v : json) (path : string) :
  lookup "findings" d = Some v ->
  is_list v = false ->
  truthy v = true ->
  compare_summary (JDict d) = Ok (false, ["findings is not an array"])
  /\ main [(path, Loaded (JDict d))]
     = (["[FAIL] " ++ path ++ ":"; "  - findings is not an array"], Ok 1).
Proof.
  intros Hv Hl Ht.
  assert (H : compare_summary (JDict d) = Ok (false, ["findings is not an array"])).
  { unfold compare_summary, py_get, py_get_d. cbn [bind]. rewrite Hv.
    unfold py_or. rewrite Ht. destruct v; try reflexivity. discriminate Hl. }
  split; [exact H|].
  unfold main. cbn [report]. rewrite H. reflexivity.
Qed.

Lemma truthy_non_array_findings_rejected_witness :
  compare_summary (JDict [("findings", JStr "none")])
  = Ok (false, ["findings is not an array"])
  /\ main [("a.json", Loaded (JDict [("findings", JStr "none")]))]
     = (["[FAIL] a.json:"; "  - findings is not an array"], Ok 1).
Proof.
  apply (truthy_non_array_findings_rejected
           [("findings", JStr "none")] (JStr "none") "a.json");
    reflexivity.
Defined.

(** *** Breakdown keys no finding falls under *)

(** [{"findings": [], "summary": {"risk_breakdown": {"CRITICAL": 5},
                                     "algorithm_breakdown": {"RSA": 5}}}] *)
Definition doc_unseen_keys : json :=
  JDict [("findings", JList []);
         ("summary",
          JDict [("risk_breakdown", JDict [("CRITICAL", JInt 5)]);
                 ("algorithm_breakdown", JDict [("RSA", JInt 5)])])].

(** [{"findings": [], "summary": {"quantum_safe_assets": 5}}] *)
Definition doc_unseen_total : json :=
  JDict [("findings", JList []); ("summary", JDict [("quantum_safe_assets", JInt 5)])].

(** C2, at a summary that reports five CRITICAL findings (and five uses of
    RSA) over an empty findings array: the loop walks the computed dict, which
    has no such key, so nothing is compared and the verdict is ok,
    where a total that is off over the same findings is reported. *)
Theorem unseen_breakdown_key_not_compared :
  compare_summary doc_unseen_keys = Ok (true, [])
  /\ main [("a.json", Loaded doc_unseen_keys)]
     = (["[OK] a.json: summary matches findings"], Ok 0)
  /\ tally (fun f => String.eqb "CRITICAL" (risk_of f)) [] <> 5
  /\ tally (fun f => String.eqb "RSA" (algo_of f)) [] <> 5
  /\ compare_summary doc_unseen_total
     = Ok (false, ["summary.quantum_safe_assets=5 != computed 0"]).
Proof.
  repeat split; discriminate.
Qed.

(** *** Keys the summary leaves out *)

(** Where each message of [compare_total] comes from. *)
Lemma compare_total_messages (key : string) (summary : json) (computed : Z)
  (acc acc' : verdict) :
  compare_total key summary computed acc = Ok acc' ->
  forall e, In e (snd acc') ->
    In e (snd acc)
    \/ (py_in key summary = Ok true
        /\ exists shown, e = "summary." ++ key ++ "=" ++ str shown
                              ++ " != computed " ++ str_of_Z computed).
Proof.
  unfold compare_total. intros H e He.
  destruct (py_in key summary) as [[|]|x]; cbn [bind] in H; try discriminate.
  - destruct (py_get_d summary key (JInt (-1))) as [v|x]; cbn [bind] in H; try discriminate.
    destruct (py_int v) as [n|x]; cbn [bind] in H; try discriminate.
    destruct (negb (n =? computed)).
    + destruct (py_get summary key) as [shown|x]; cbn [bind] in H; try discriminate.
      injection H as <-. cbn [snd] in He. unfold append in He.
      apply in_app_or in He. destruct He as [He|[<-|[]]].
      * left; exact He.
      * right. split; [reflexivity|]. exists shown. reflexivity.
    + injection H as <-. left; exact He.
  - injection H as <-. left; exact He.
Qed.

(** Where each message of [compare_breakdown] comes from. *)
Lemma compare_breakdown_messages (field : string) (reported : json)
  (computed : list (string * Z)) :
  forall acc acc' : verdict,
  compare_breakdown field reported computed acc = Ok acc' ->
  forall e, In e (snd acc') ->
    In e (snd acc)
    \/ exists key v count,
         py_get reported key = Ok v /\ is_none v = false
         /\ e = "summary." ++ field ++ "[" ++ key ++ "]=" ++ str v
                  ++ " != computed " ++ str_of_Z count.
Proof.
  induction computed as [|[key count] rest IH]; intros acc acc' H e He.
  - injection H as <-. left; exact He.
  - cbn [compare_breakdown] in H.
    destruct (py_get reported key) as [v|x] eqn:Hv; cbn [bind] in H; try discriminate.
    destruct (is_none v) eqn:Hn; cbn [bind] in H.
    + exact (IH _ _ H e He).
    + destruct (py_int v) as [n|x]; cbn [bind] in H; try discriminate.
      destruct (negb (n =? count)).
      * destruct (IH _ _ H e He) as [Hin|Hnew]; [|right; exact Hnew].
        cbn [snd] in Hin. unfold append in Hin.
        apply in_app_or in Hin. destruct Hin as [Hin|[<-|[]]].
        -- left; exact Hin.
        -- right. exists key, v, count. repeat split; assumption.
      * exact (IH _ _ H e He).
Qed.

(** An empty reported breakdown lets every computed count through. *)
Lemma compare_breakdown_nothing_reported (field : string)
  (computed : list (string * Z)) (acc : verdict) :
  compare_breakdown field (JDict []) computed acc = Ok acc.
Proof.
  induction computed as [|[key count] rest IH]; [reflexivity|].
  cbn [compare_breakdown py_get py_get_d lookup bind is_none]. exact IH.
Qed.

(** What [compare_summary] does once the findings are counted. *)
Definition compare_counts (c : counts) (summary : json) : result verdict :=
  acc <- compare_total "quantum_safe_assets" summary (quantum_safe c) (true, []) ;;
  acc <- compare_total "vulnerable_assets" summary (vuln_assets c) acc ;;
  s_risk <- breakdown_of summary "risk_breakdown" ;;
  acc <- compare_breakdown "risk_breakdown" s_risk (risk_counts c) acc ;;
  s_algo <- breakdown_of summary "algorithm_breakdown" ;;
  compare_breakdown "algorithm_breakdown" s_algo (algo_counts c) acc.

(** With [findings] absent or an array of objects, the counting returns and
    the comparison goes on with the summary, or with [{}] in its place. *)
Lemma compare_summary_counted (d : list (string * json)) (fs : list finding) :
  lookup "findings" d = None \/ lookup "findings" d = Some (JList (map JDict fs)) ->
  exists c : counts,
    compare_summary (JDict d)
    = compare_counts c
        (py_or (match lookup "summary" d with Some v => v | None => JNull end)
               (JDict [])).
Proof.
  intros Hf.
  assert (Hfl : exists fs' : list finding,
             py_or (match lookup "findings" d with Some v => v | None => JNull end)
                   (JList [])
             = JList (map JDict fs')).
  { destruct Hf as [-> | ->].
    - exists []. reflexivity.
    - exists fs. destruct fs; reflexivity. }
  destruct Hfl as (fs' & Hfl).
  destruct (count_from_objects fs' no_counts) as (c & Hc & _).
  exists c. unfold compare_summary, py_get, py_get_d. cbn [bind].
  rewrite Hfl. fold (count_findings (map JDict fs')) in Hc. rewrite Hc. reflexivity.
Qed.

Lemma breakdown_of_absent (s : list (string * json)) (field : string) :
  has_key field s = false -> breakdown_of (JDict s) field = Ok (JDict []).
Proof.
  unfold has_key, breakdown_of, py_get, py_get_d. cbn [is_dict bind].
  destruct (lookup field s); [discriminate|reflexivity].
Qed.

Lemma py_or_object (s : list (string * json)) : py_or (JDict s) (JDict []) = JDict s.
Proof. destruct s; reflexivity. Qed.

(** C6. With [findings] an array of objects (or absent), a key the summary
    does not have is never the subject of a message: no message on
    [summary.quantum_safe_assets], [summary.vulnerable_assets],
    [summary.risk_breakdown] or [summary.algorithm_breakdown] is returned
    unless the summary has that key.  With [summary: {}], or no summary, the
    comparator returns ok and no message, whatever the findings. *)
Theorem absent_summary_keys_never_reported
  (d : list (string * json)) (fs : list finding) :
  lookup "findings" d = None \/ lookup "findings" d = Some (JList (map JDict fs)) ->
  (lookup "summary" d = None \/ lookup "summary" d = Some (JDict []) ->
   compare_summary (JDict d) = Ok (true, []))
  /\ (forall (s : list (string * json)) (ok : bool) (errors : list string),
      lookup "summary" d = Some (JDict s) ->
      compare_summary (JDict d) = Ok (ok, errors) ->
      forall e, In e errors ->
        (has_key "quantum_safe_assets" s = false ->
         String.prefix "summary.quantum_safe_assets=" e = false)
        /\ (has_key "vulnerable_assets" s = false ->
            String.prefix "summary.vulnerable_assets=" e = false)
        /\ (has_key "risk_breakdown" s = false ->
            String.prefix "summary.risk_breakdown[" e = false)
        /\ (has_key "algorithm_breakdown" s = false ->
            String.prefix "summary.algorithm_breakdown[" e = false)).
Proof.
  intros Hf. destruct (compare_summary_counted d fs Hf) as (c & Hcmp).
  split.
  - intros Hs. rewrite Hcmp.
    assert (Hsum : py_or (match lookup "summary" d with Some v => v | None => JNull end)
                         (JDict []) = JDict []).
    { destruct Hs as [-> | ->]; reflexivity. }
    rewrite Hsum. unfold compare_counts.
    cbn [compare_total py_in has_key lookup bind breakdown_of is_dict py_get py_get_d py_or truthy].
    rewrite compare_breakdown_nothing_reported. cbn [bind].
    apply compare_breakdown_nothing_reported.
  - intros s ok errors Hs Hres e He.
    rewrite Hcmp, Hs, py_or_object in Hres. unfold compare_counts in Hres.
    destruct (compare_total "quantum_safe_assets" (JDict s) (quantum_safe c) (true, []))
      as [acc1|x] eqn:H1; cbn [bind] in Hres; try discriminate.
    destruct (compare_total "vulnerable_assets" (JDict s) (vuln_assets c) acc1)
      as [acc2|x] eqn:H2; cbn [bind] in Hres; try discriminate.
    destruct (breakdown_of (JDict s) "risk_breakdown")
      as [s_risk|x] eqn:Hbr; cbn [bind] in Hres; try discriminate.
    destruct (compare_breakdown "risk_breakdown" s_risk (risk_counts c) acc2)
      as [acc3|x] eqn:H3; cbn [bind] in Hres; try discriminate.
    destruct (breakdown_of (JDict s) "algorithm_breakdown")
      as [s_algo|x] eqn:Hba; cbn [bind] in Hres; try discriminate.
    destruct (compare_breakdown_messages _ _ _ _ _ Hres e He)
      as [He3 | (key & v & count & Hget & Hnone & ->)].
    2:{ repeat split; try (intros _; reflexivity).
        intros Habs. rewrite (breakdown_of_absent s _ Habs) in Hba.
        injection Hba as <-. injection Hget as <-. discriminate Hnone. }
    destruct (compare_breakdown_messages _ _ _ _ _ H3 e He3)
      as [He2 | (key & v & count & Hget & Hnone & ->)].
    2:{ repeat split; try (intros _; reflexivity).
        intros Habs. rewrite (breakdown_of_absent s _ Habs) in Hbr.
        injection Hbr as <-. injection Hget as <-. discriminate Hnone. }
    destruct (compare_total_messages _ _ _ _ _ H2 e He2)
      as [He1 | (Hin & shown & ->)].
    2:{ repeat split; try (intros _; reflexivity).
        intros Habs. cbn [py_in] in Hin. rewrite Habs in Hin. discriminate Hin. }
    destruct (compare_total_messages _ _ _ _ _ H1 e He1)
      as [[] | (Hin & shown & ->)].
    repeat split; try (intros _; reflexivity).
    intros Habs. cbn [py_in] in Hin. rewrite Habs in Hin. discriminate Hin.
Qed.

Lemma absent_summary_keys_never_reported_witness :
  compare_summary (JDict [("findings", JList [JDict [("risk", JStr "HIGH")]]);
                          ("summary", JDict [])])
  = Ok (true, [])
  /\ compare_summary
       (JDict [("findings", JList [JDict [("risk", JStr "HIGH")]]);
               ("summary", JDict [("vulnerable_assets", JInt 9)])])
     = Ok (false, ["summary.vulnerable_assets=9 != computed 1"])
  /\ String.prefix "summary.quantum_safe_assets="
       "summary.vulnerable_assets=9 != computed 1" = false.
Proof.
  split; [|split; [reflexivity|]].
  - apply (absent_summary_keys_never_reported
             [("findings", JList [JDict [("risk", JStr "HIGH")]]); ("summary", JDict [])]
             [[("risk", JStr "HIGH")]]).
    + right. reflexivity.
    + right. reflexivity.
  - apply (absent_summary_keys_never_reported
             [("findings", JList [JDict [("risk", JStr "HIGH")]]);
              ("summary", JDict [("vulnerable_assets", JInt 9)])]
             [[("risk", JStr "HIGH")]] (or_intror eq_refl))
      with (s := [("vulnerable_assets", JInt 9)]) (ok := false)
           (errors := ["summary.vulnerable_assets=9 != computed 1"]).
    + reflexivity.
    + reflexivity.
    + left. reflexivity.
    + reflexivity.
Defined.

End CompareFacts.

(* ================================================================= *)
(** ** Facts about message text *)

Module TextFacts.
Import Py.

Fixpoint all_digits (s : string) : bool :=
  match s with
  | EmptyString => true
  | String c r => (is_digit c && all_digits r)%bool
  end.

Lemma uint_text_digits (d : Decimal.uint) :
  all_digits (NilEmpty.string_of_uint d) = true.
Proof.
  induction d; simpl; try reflexivity; exact IHd.
Qed.

Lemma str_of_nat_digits (n : nat) : all_digits (str_of_nat n) = true.
Proof.
  unfold str_of_nat, NilZero.string_of_uint.
  destruct (Nat.to_uint n) eqn:E; try reflexivity; rewrite <- E; apply uint_text_digits.
Qed.

Lemma to_uint_not_nil (n : nat) : Nat.to_uint n <> Decimal.Nil.
Proof.
  rewrite <- (Unsigned.of_to n) at 1. rewrite Unsigned.to_of.
  unfold Decimal.unorm. destruct (Decimal.nzhead (Nat.to_uint n)); discriminate.
Qed.

Lemma str_of_nat_inj (i j : nat) : str_of_nat i = str_of_nat j -> i = j.
Proof.
  unfold str_of_nat. intros H.
  apply Unsigned.to_uint_inj.
  assert (Hi := NilZero.usu _ (to_uint_not_nil i)).
  assert (Hj := NilZero.usu _ (to_uint_not_nil j)).
  rewrite H in Hi. rewrite Hi in Hj. injection Hj as Hj. exact Hj.
Qed.

(** A run of digits followed by something that is not a digit can be read
    back in one way only. *)
Lemma digit_run_unique (a : string) :
  forall (b : string) (c1 c2 : ascii) (r1 r2 : string),
  all_digits a = true -> all_digits b = true ->
  is_digit c1 = false -> is_digit c2 = false ->
  a ++ String c1 r1 = b ++ String c2 r2 ->
  a = b /\ String c1 r1 = String c2 r2.
Proof.
  induction a as [|x a IH]; intros b c1 c2 r1 r2 Ha Hb H1 H2 E.
  - destruct b as [|y b]; simpl in E.
    + split; [reflexivity|exact E].
    + injection E as -> _. simpl in Hb. rewrite H1 in Hb. discriminate Hb.
  - destruct b as [|y b]; simpl in E.
    + injection E as -> _. simpl in Ha. rewrite H2 in Ha. discriminate Ha.
    + injection E as -> E. simpl in Ha, Hb.
      apply andb_true_iff in Ha as [_ Ha]. apply andb_true_iff in Hb as [_ Hb].
      destruct (IH b c1 c2 r1 r2 Ha Hb H1 H2 E) as [-> E'].
      split; [reflexivity|exact E'].
Qed.

(** Two messages that open with "Component <idx>" agree only on the same
    index and the same remainder. *)
Lemma component_text_unique (i j : nat) (c1 c2 : ascii) (r1 r2 : string) :
  is_digit c1 = false -> is_digit c2 = false ->
  "Component " ++ str_of_nat i ++ String c1 r1
  = "Component " ++ str_of_nat j ++ String c2 r2 ->
  i = j /\ String c1 r1 = String c2 r2.
Proof.
  intros H1 H2 E. cbn [String.append] in E. injection E as E.
  destruct (digit_run_unique _ _ _ _ _ _
              (str_of_nat_digits i) (str_of_nat_digits j) H1 H2 E) as [Hij Hr].
  split; [exact (str_of_nat_inj _ _ Hij)|exact Hr].
Qed.

(** [sub in s] holds when [s] has [sub] after some prefix. *)
Lemma prefix_append (sub rest : string) : String.prefix sub (sub ++ rest) = true.
Proof.
  induction sub as [|c sub IH]; simpl.
  - destruct rest; reflexivity.
  - destruct (ascii_dec c c) as [_|Hne]; [exact IH|contradiction Hne; reflexivity].
Qed.

Lemma str_contains_middle (before sub rest : string) :
  str_contains sub (before ++ sub ++ rest) = true.
Proof.
  induction before as [|c before IH].
  - simpl String.append. destruct (sub ++ rest) eqn:E; cbn [str_contains];
      rewrite <- E, prefix_append; reflexivity.
  - simpl String.append. cbn [str_contains]. rewrite IH. apply orb_true_r.
Qed.

End TextFacts.

(* ================================================================= *)
(** ** [bomFormat] and [specVersion] *)

Module HeaderFacts.
Import Py Cdx16 TextFacts.

Lemma eq_str_false (v : json) (s : string) : v <> JStr s -> eq_str v s = false.
Proof.
  intros Hne. destruct v; try reflexivity. simpl.
  destruct (String.eqb_spec s0 s) as [->|_]; [contradiction Hne|]; reflexivity.
Qed.

(** [{"bomFormat": 0, "specVersion": false}] *)
Definition doc_falsy_header : list (string * json) :=
  [("bomFormat", JInt 0); ("specVersion", JBool false)].

(** C7 as stated fails there: each field is present and is not the expected
    literal, yet the one error reported for it is the missing-field error,
    which does not show the value found. *)
Lemma falsy_header_reported_missing :
  lookup "bomFormat" doc_falsy_header = Some (JInt 0)
  /\ validate_bom_format (JDict doc_falsy_header)
     = Ok (false, ["Missing required field: bomFormat"])
  /\ str_contains (str (JInt 0)) "Missing required field: bomFormat" = false
  /\ lookup "specVersion" doc_falsy_header = Some (JBool false)
  /\ validate_spec_version (JDict doc_falsy_header)
     = Ok (false, ["Missing required field: specVersion"])
  /\ str_contains (str (JBool false)) "Missing required field: specVersion" = false.
Proof.
  repeat split.
Qed.

(** The two checks have the same shape; [check] is either of them, [key] its
    field, [literal] the value it expects. *)
Definition header_check_spec (check : json -> result verdict)
  (key literal : string) (d : list (string * json)) : Prop :=
  (lookup key d = None ->
   check (JDict d) = Ok (false, ["Missing required field: " ++ key]))
  /\ (forall v, lookup key d = Some v -> truthy v = false ->
      check (JDict d) = Ok (false, ["Missing required field: " ++ key]))
  /\ (forall v, lookup key d = Some v -> truthy v = true -> v <> JStr literal ->
      check (JDict d)
      = Ok (false, ["Expected " ++ key ++ " '" ++ literal ++ "', got '" ++ str v ++ "'"])
      /\ str_contains (str v)
           ("Expected " ++ key ++ " '" ++ literal ++ "', got '" ++ str v ++ "'") = true)
  /\ (lookup key d = Some (JStr literal) -> check (JDict d) = Ok (true, []))
  /\ (exists ok errors, check (JDict d) = Ok (ok, errors) /\ (List.length errors <= 1)%nat).

Lemma validate_bom_format_spec (d : list (string * json)) :
  header_check_spec validate_bom_format "bomFormat" "CycloneDX" d.
Proof.
  unfold header_check_spec, validate_bom_format, py_get, py_get_d. cbn [bind].
  split; [|split; [|split; [|split]]].
  - intros ->. reflexivity.
  - intros v -> Hf. rewrite Hf. reflexivity.
  - intros v -> Ht Hne. rewrite Ht. cbn [negb]. rewrite (eq_str_false _ _ Hne).
    split; [reflexivity|].
    apply (str_contains_middle "Expected bomFormat 'CycloneDX', got '" (str v) "'").
  - intros ->. reflexivity.
  - destruct (lookup "bomFormat" d) as [v|]; [|eexists _, _; split; [reflexivity|simpl; lia]].
    destruct (truthy v); cbn [negb];
      [destruct (eq_str v "CycloneDX"); cbn [negb]|];
      eexists _, _; (split; [reflexivity|simpl; lia]).
Qed.

Lemma validate_spec_version_spec (d : list (string * json)) :
  header_check_spec validate_spec_version "specVersion" "1.6" d.
Proof.
  unfold header_check_spec, validate_spec_version, py_get, py_get_d. cbn [bind].
  split; [|split; [|split; [|split]]].
  - intros ->. reflexivity.
  - intros v -> Hf. rewrite Hf. reflexivity.
  - intros v -> Ht Hne. rewrite Ht. cbn [negb]. rewrite (eq_str_false _ _ Hne).
    split; [reflexivity|].
    apply (str_contains_middle "Expected specVersion '1.6', got '" (str v) "'").
  - intros ->. reflexivity.
  - destruct (lookup "specVersion" d) as [v|]; [|eexists _, _; split; [reflexivity|simpl; lia]].
    destruct (truthy v); cbn [negb];
      [destruct (eq_str v "1.6"); cbn [negb]|];
      eexists _, _; (split; [reflexivity|simpl; lia]).
Qed.

(** What [validate_cbom_16] returns opens with the messages of the two
    header checks, and it is ok only if both were. *)
Lemma validate_cbom_16_header (doc : json) (ok : bool) (msgs : list string) :
  validate_cbom_16 doc = Ok (ok, msgs) ->
  exists ok1 e1 ok2 e2 rest,
    validate_bom_format doc = Ok (ok1, e1)
    /\ validate_spec_version doc = Ok (ok2, e2)
    /\ msgs = (e1 ++ e2 ++ rest)%list
    /\ (ok = true -> ok1 = true /\ ok2 = true).
Proof.
  unfold validate_cbom_16. intros H.
  destruct (validate_bom_format doc) as [[ok1 e1]|x]; cbn [bind] in H; try discriminate.
  destruct (validate_spec_version doc) as [[ok2 e2]|x]; cbn [bind] in H; try discriminate.
  destruct (validate_metadata doc) as [[ok3 e3]|x]; cbn [bind] in H; try discriminate.
  destruct (py_get_d doc "components" (JList [])) as [comps|x]; cbn [bind] in H;
    try discriminate.
  exists ok1, e1, ok2, e2.
  destruct (truthy comps).
  - destruct (validate_component_properties comps) as [[ok4 e4]|x]; cbn [bind] in H;
      try discriminate.
    injection H as <- <-. exists (e3 ++ e4)%list.
    repeat split; try reflexivity.
    + rewrite <- !List.app_assoc. reflexivity.
    + destruct ok1; [reflexivity|discriminate].
    + destruct ok1, ok2; try reflexivity; discriminate.
  - injection H as <- <-. exists e3.
    repeat split; try reflexivity.
    + rewrite <- !List.app_assoc. reflexivity.
    + destruct ok1; [reflexivity|discriminate].
    + destruct ok1, ok2; try reflexivity; discriminate.
Qed.

(** C7, amended. [bomFormat] absent, or present with a falsy value (null,
    false, 0, empty text, [[]], [{}]): the missing-field error.  Present with
    a truthy value other than "CycloneDX": the error that shows the value
    found.  The same for [specVersion] and "1.6".  Each check returns at most
    one message, and the messages of [validate_cbom_16] open with theirs. *)
Theorem header_errors_by_field (d : list (string * json)) :
  header_check_spec validate_bom_format "bomFormat" "CycloneDX" d
  /\ header_check_spec validate_spec_version "specVersion" "1.6" d
  /\ (forall ok msgs, validate_cbom_16 (JDict d) = Ok (ok, msgs) ->
      exists ok1 e1 ok2 e2 rest,
        validate_bom_format (JDict d) = Ok (ok1, e1)
        /\ validate_spec_version (JDict d) = Ok (ok2, e2)
        /\ msgs = (e1 ++ e2 ++ rest)%list
        /\ (ok = true -> ok1 = true /\ ok2 = true)).
Proof.
  split; [apply validate_bom_format_spec|].
  split; [apply validate_spec_version_spec|].
  intros ok msgs. apply validate_cbom_16_header.
Qed.

Lemma header_errors_by_field_witness :
  validate_bom_format (JDict [("bomFormat", JStr "SPDX")])
  = Ok (false, ["Expected bomFormat 'CycloneDX', got 'SPDX'"])
  /\ validate_spec_version (JDict [("bomFormat", JStr "SPDX")])
     = Ok (false, ["Missing required field: specVersion"]).
Proof.
  destruct (header_errors_by_field [("bomFormat", JStr "SPDX")])
    as ((_ & _ & Hbom & _) & (Hspec & _) & _).
  split.
  - apply (Hbom (JStr "SPDX")); [reflexivity|reflexivity|discriminate].
  - apply Hspec. reflexivity.
Defined.

End HeaderFacts.

(* ================================================================= *)
(** ** Component properties *)

Module ComponentFacts.
Import Py Cdx16 TextFacts.

(** *** Telling the messages apart *)

Lemma no_name_is_not_no_value (i j : nat) : msg_no_name i <> msg_no_value j.
Proof.
  unfold msg_no_name, msg_no_value. intros E.
  apply component_text_unique in E as [_ E]; [discriminate E|reflexivity|reflexivity].
Qed.

Lemma no_name_is_not_not_array (i j : nat) : msg_no_name i <> msg_not_array j.
Proof.
  unfold msg_no_name, msg_not_array. intros E.
  apply component_text_unique in E as [_ E]; [discriminate E|reflexivity|reflexivity].
Qed.

Lemma crypto_is_not_an_error (i j : nat) (name : json) (tail : string) :
  msg_crypto i name <> "Component " ++ str_of_nat j ++ String ":" tail.
Proof.
  unfold msg_crypto. intros E.
  change (" (" ++ str name ++ ") " ++ "has .crypto field (should use .properties in 1.6)")
    with (String " " (String "("
            (str name ++ ") " ++ "has .crypto field (should use .properties in 1.6)")))
    in E.
  apply component_text_unique in E as [_ E]; [discriminate E|reflexivity|reflexivity].
Qed.

Lemma no_value_inj (i j : nat) : msg_no_value i = msg_no_value j -> i = j.
Proof.
  unfold msg_no_value. intros E.
  apply component_text_unique in E as [E _]; [exact E|reflexivity|reflexivity].
Qed.

Lemma no_value_is_not_not_array (i j : nat) : msg_no_value i <> msg_not_array j.
Proof.
  unfold msg_no_value, msg_not_array. intros E.
  apply component_text_unique in E as [_ E]; [discriminate E|reflexivity|reflexivity].
Qed.

(** *** What the loops can append *)

(** A property the filter keeps is an object that has a [name]. *)
Definition named (p : json) : Prop :=
  exists pd, p = JDict pd /\ has_key "name" pd = true.

Lemma cbom_props_named (props : list json) :
  forall kept, cbom_props props = Ok kept -> Forall named kept.
Proof.
  induction props as [|p rest IH]; intros kept H.
  - injection H as <-. constructor.
  - cbn [cbom_props] in H.
    destruct (py_get_d p "name" (JStr "")) as [name|x] eqn:Hn; cbn [bind] in H;
      try discriminate.
    destruct (py_startswith name "cbom:") as [keep|x] eqn:Hk; cbn [bind] in H;
      try discriminate.
    destruct (cbom_props rest) as [kept'|x]; cbn [bind] in H; try discriminate.
    injection H as <-. specialize (IH _ eq_refl).
    destruct keep; [|exact IH]. constructor; [|exact IH].
    destruct p; try discriminate Hn. exists d. split; [reflexivity|].
    unfold py_get_d in Hn. unfold has_key.
    destruct (lookup "name" d); [reflexivity|].
    injection Hn as <-. discriminate Hk.
Qed.

Lemma check_props_messages (idx : nat) (kept : list json) :
  Forall named kept ->
  forall errors errors', check_props idx errors kept = Ok errors' ->
  forall e, In e errors' -> In e errors \/ e = msg_no_value idx.
Proof.
  induction 1 as [|p kept (pd & -> & Hname) _ IH]; intros errors errors' H e He.
  - injection H as <-. left; exact He.
  - cbn [check_props check_prop is_dict negb py_in bind] in H.
    rewrite Hname in H. cbn [negb] in H.
    destruct (IH _ _ H e He) as [Hin|Hnew]; [|right; exact Hnew].
    destruct (has_key "value" pd); cbn [negb] in Hin; [left; exact Hin|].
    unfold append in Hin. apply in_app_or in Hin.
    destruct Hin as [Hin|[<-|[]]]; [left; exact Hin|right; reflexivity].
Qed.

(** The shapes of the messages [validate_component_properties] can return:
    errors first, then warnings. *)
Definition error_text (e : string) : Prop :=
  exists idx, e = msg_no_value idx \/ e = msg_not_array idx.

Definition warning_text (w : string) : Prop :=
  exists idx name, w = msg_crypto idx name.

Lemma check_component_messages (idx : nat) (component : json)
  (errors warnings errors' warnings' : list string) :
  check_component idx component (errors, warnings) = Ok (errors', warnings') ->
  (forall e, In e errors' -> In e errors \/ error_text e)
  /\ (forall w, In w warnings' -> In w warnings \/ warning_text w).
Proof.
  unfold check_component. intros H.
  destruct (py_in "crypto" component) as [has_crypto|x]; cbn [bind] in H; try discriminate.
  assert (Hw : forall ws, (if has_crypto
                then name <- py_get_d component "name" (JStr "unnamed") ;;
                     Ok (append warnings (msg_crypto idx name))
                else Ok warnings) = Ok ws ->
              forall w, In w ws -> In w warnings \/ warning_text w).
  { intros ws Hws w Hin. destruct has_crypto.
    - destruct (py_get_d component "name" (JStr "unnamed")) as [name|x];
        cbn [bind] in Hws; try discriminate.
      injection Hws as <-. unfold append in Hin. apply in_app_or in Hin.
      destruct Hin as [Hin|[<-|[]]]; [left; exact Hin|right].
      exists idx, name. reflexivity.
    - injection Hws as <-. left; exact Hin. }
  destruct (if has_crypto then _ else _) as [ws|x]; cbn [bind] in H; try discriminate.
  specialize (Hw ws eq_refl).
  destruct (py_get_d component "properties" (JList [])) as [properties|x];
    cbn [bind] in H; try discriminate.
  assert (Hother : Ok (append errors (msg_not_array idx), ws) = Ok (errors', warnings') ->
            (forall e, In e errors' -> In e errors \/ error_text e)
            /\ (forall w, In w warnings' -> In w warnings \/ warning_text w)).
  { intros E. injection E as <- <-. split; [|exact Hw].
    intros e Hin. unfold append in Hin. apply in_app_or in Hin.
    destruct Hin as [Hin|[<-|[]]]; [left; exact Hin|right].
    exists idx. right; reflexivity. }
  destruct properties as [| | | | |props|]; try exact (Hother H).
  destruct (cbom_props props) as [kept|x] eqn:Hk; cbn [bind] in H; try discriminate.
  destruct (check_props idx errors kept) as [es|x] eqn:He; cbn [bind] in H;
    try discriminate.
  injection H as <- <-. split; [|exact Hw].
  intros e Hin.
  destruct (check_props_messages idx kept (cbom_props_named _ _ Hk) _ _ He e Hin)
    as [Hold| ->]; [left; exact Hold|right].
  exists idx. left; reflexivity.
Qed.

Lemma check_components_messages (components : list json) :
  forall (idx : nat) (errors warnings errors' warnings' : list string),
  check_components idx components (errors, warnings) = Ok (errors', warnings') ->
  (forall e, In e errors' -> In e errors \/ error_text e)
  /\ (forall w, In w warnings' -> In w warnings \/ warning_text w).
Proof.
  induction components as [|c rest IH]; intros idx errors warnings errors' warnings' H.
  - injection H as <- <-. split; intros; left; assumption.
  - cbn [check_components] in H.
    destruct (check_component idx c (errors, warnings)) as [[es ws]|x] eqn:Hc;
      cbn [bind] in H; try discriminate.
    destruct (check_component_messages _ _ _ _ _ _ Hc) as [He Hw].
    destruct (IH _ _ _ _ _ H) as [He' Hw'].
    split.
    + intros e Hin. destruct (He' e Hin) as [Hin'|Hnew]; [exact (He e Hin')|right; exact Hnew].
    + intros w Hin. destruct (Hw' w Hin) as [Hin'|Hnew]; [exact (Hw w Hin')|right; exact Hnew].
Qed.

(** C10. Whatever [components] holds, no message returned by
    [validate_component_properties] is the error "property missing 'name'
    field" of any component index: the filter keeps a property only if it has
    a [name] that starts with "cbom:", so the test for a missing [name] on the
    kept ones never succeeds. *)
Theorem missing_name_error_never_returned
  (components : json) (ok : bool) (msgs : list string) :
  validate_component_properties components = Ok (ok, msgs) ->
  forall idx, ~ In (msg_no_name idx) msgs.
Proof.
  unfold validate_component_properties. intros H idx Hin.
  destruct (py_iter components) as [items|x]; cbn [bind] in H; try discriminate.
  destruct (check_components 0 items ([], [])) as [[errors warnings]|x] eqn:Hc;
    cbn [bind] in H; try discriminate.
  injection H as _ <-.
  destruct (check_components_messages _ _ _ _ _ _ Hc) as [He Hw].
  apply in_app_or in Hin. destruct Hin as [Hin|Hin].
  - destruct (He _ Hin) as [[]|(j & [E|E])].
    + exact (no_name_is_not_no_value _ _ E).
    + exact (no_name_is_not_not_array _ _ E).
  - destruct (Hw _ Hin) as [[]|(j & name & E)].
    symmetry in E. exact (crypto_is_not_an_error _ _ _ _ E).
Qed.

Lemma missing_name_error_never_returned_witness :
  validate_component_properties
    (JList [JDict [("properties",
                    JList [JDict [("name", JStr "cbom:algorithm")];
                           JDict [("value", JInt 1)]])]])
  = Ok (false, ["Component 0: property missing 'value' field"])
  /\ ~ In (msg_no_name 0) ["Component 0: property missing 'value' field"].
Proof.
  split; [reflexivity|].
  apply (missing_name_error_never_returned
           (JList [JDict [("properties",
                           JList [JDict [("name", JStr "cbom:algorithm")];
                                  JDict [("value", JInt 1)]])]])
           false).
  reflexivity.
Defined.

(** *** Components and properties of the expected shape *)

(** The [properties] array of a component, empty when there is none. *)
Definition props_of (component : json) : list json :=
  match component with
  | JDict cd => match lookup "properties" cd with Some (JList ps) => ps | _ => [] end
  | _ => []
  end.

(** A property object whose [name], if it has one, is text. *)
Definition property_object (p : json) : bool :=
  match p with
  | JDict pd => match lookup "name" pd with
                | None | Some (JStr _) => true
                | Some _ => false
                end
  | _ => false
  end.

(** A component object whose properties are property objects. *)
Definition component_object (component : json) : bool :=
  match component with
  | JDict _ => forallb property_object (props_of component)
  | _ => false
  end.

(** The property has a [name] that starts with "cbom:". *)
Definition cbom_named (p : json) : bool :=
  match p with
  | JDict pd => match lookup "name" pd with
                | Some (JStr n) => startswith "cbom:" n
                | _ => false
                end
  | _ => false
  end.

Definition lacks_value (p : json) : bool :=
  match p with
  | JDict pd => negb (has_key "value" pd)
  | _ => false
  end.

Definition flagged (p : json) : bool := (cbom_named p && lacks_value p)%bool.

(** The filter and the loop over what it keeps, on property objects. *)
Lemma check_kept_props (idx : nat) (props : list json) :
  forallb property_object props = true ->
  forall errors,
    (kept <- cbom_props props ;; check_props idx errors kept)
    = Ok (errors ++ repeat (msg_no_value idx) (List.length (filter flagged props)))%list.
Proof.
  induction props as [|p rest IH]; intros Hok errors.
  - cbn. rewrite List.app_nil_r. reflexivity.
  - cbn [forallb] in Hok. apply andb_true_iff in Hok as [Hp Hrest].
    specialize (IH Hrest).
    cbn [cbom_props].
    destruct (cbom_props rest) as [kept|x] eqn:Hk;
      [|specialize (IH []); cbn [bind] in IH; discriminate IH].
    cbn [bind] in IH.
    destruct p as [| | | | | |pd]; try discriminate Hp.
    unfold flagged. cbn [property_object cbom_named lacks_value py_get_d filter] in *.
    destruct (lookup "name" pd) as [[| | | |n| |]|] eqn:Hn; try discriminate Hp;
      cbn [py_startswith bind].
    + destruct (startswith "cbom:" n) eqn:Hs; cbn [andb].
      * cbn [check_props check_prop is_dict negb py_in bind].
        assert (Hname : has_key "name" pd = true)
          by (unfold has_key; rewrite Hn; reflexivity).
        rewrite Hname. cbn [negb].
        destruct (has_key "value" pd); cbn [negb].
        -- apply IH.
        -- rewrite IH. unfold append. cbn [List.length repeat].
           rewrite <- List.app_assoc. reflexivity.
      * apply IH.
    + apply IH.
Qed.

Lemma check_kept_props_steps (idx : nat) (props : list json) :
  forallb property_object props = true ->
  exists kept,
    cbom_props props = Ok kept
    /\ forall errors,
         check_props idx errors kept
         = Ok (errors ++ repeat (msg_no_value idx) (List.length (filter flagged props)))%list.
Proof.
  intros Hok. assert (H := check_kept_props idx props Hok).
  destruct (cbom_props props) as [kept|x].
  - exists kept. split; [reflexivity|]. intros errors. exact (H errors).
  - specialize (H []). discriminate H.
Qed.

(** What one component adds to the errors and to the warnings. *)
Definition component_errors (idx : nat) (component : json) : list string :=
  match component with
  | JDict cd =>
      match lookup "properties" cd with
      | None => []
      | Some (JList ps) => repeat (msg_no_value idx) (List.length (filter flagged ps))
      | Some _ => [msg_not_array idx]
      end
  | _ => []
  end.

Definition component_warnings (idx : nat) (component : json) : list string :=
  match component with
  | JDict cd =>
      if has_key "crypto" cd
      then [msg_crypto idx (match lookup "name" cd with
                            | Some v => v
                            | None => JStr "unnamed"
                            end)]
      else []
  | _ => []
  end.

Lemma check_component_object (idx : nat) (component : json)
  (errors warnings : list string) :
  component_object component = true ->
  check_component idx component (errors, warnings)
  = Ok ((errors ++ component_errors idx component)%list,
        (warnings ++ component_warnings idx component)%list).
Proof.
  destruct component as [| | | | | |cd]; try discriminate.
  unfold component_object, props_of, check_component, component_errors,
    component_warnings.
  cbn [py_in py_get_d bind]. intros Hok.
  destruct (has_key "crypto" cd); cbn [bind];
    destruct (lookup "properties" cd) as [[| | | | |ps|]|];
    cbn [bind cbom_props check_props];
    rewrite ?List.app_nil_r; try reflexivity;
    destruct (check_kept_props_steps idx ps Hok) as (kept & -> & Hk);
    cbn [bind]; rewrite Hk; reflexivity.
Qed.

Fixpoint all_errors (idx : nat) (components : list json) : list string :=
  match components with
  | [] => []
  | c :: rest => (component_errors idx c ++ all_errors (S idx) rest)%list
  end.

Fixpoint all_warnings (idx : nat) (components : list json) : list string :=
  match components with
  | [] => []
  | c :: rest => (component_warnings idx c ++ all_warnings (S idx) rest)%list
  end.

Lemma check_component_objects (components : list json) :
  forallb component_object components = true ->
  forall (idx : nat) (errors warnings : list string),
    check_components idx components (errors, warnings)
    = Ok ((errors ++ all_errors idx components)%list,
          (warnings ++ all_warnings idx components)%list).
Proof.
  induction components as [|c rest IH]; intros Hok idx errors warnings.
  - cbn. rewrite !List.app_nil_r. reflexivity.
  - cbn [forallb] in Hok. apply andb_true_iff in Hok as [Hc Hrest].
    cbn [check_components all_errors all_warnings].
    rewrite (check_component_object idx c errors warnings Hc). cbn [bind].
    rewrite (IH Hrest). rewrite <- !List.app_assoc. reflexivity.
Qed.

(** *** Counting the missing-value errors *)

Lemma count_component_errors (i idx : nat) (component : json) :
  count_occ string_dec (component_errors i component) (msg_no_value idx)
  = if Nat.eqb i idx then List.length (filter flagged (props_of component)) else 0%nat.
Proof.
  destruct component as [| | | | | |cd]; cbn [component_errors props_of];
    try (destruct (Nat.eqb i idx); reflexivity).
  assert (Hna : count_occ string_dec [msg_not_array i] (msg_no_value idx)
                = if Nat.eqb i idx then 0%nat else 0%nat).
  { rewrite count_occ_cons_neq.
    - destruct (Nat.eqb i idx); reflexivity.
    - intros E. symmetry in E. exact (no_value_is_not_not_array _ _ E). }
  destruct (lookup "properties" cd) as [[| | | | |ps|]|]; try exact Hna.
  - destruct (Nat.eqb_spec i idx) as [->|Hne].
    + apply count_occ_repeat_eq. reflexivity.
    + apply count_occ_repeat_neq. intros E. apply no_value_inj in E.
      symmetry in E. contradiction.
  - destruct (Nat.eqb i idx); reflexivity.
Qed.

Lemma count_all_errors (idx : nat) (components : list json) :
  forall i : nat,
    count_occ string_dec (all_errors i components) (msg_no_value idx)
    = if Nat.leb i idx
      then List.length (filter flagged (props_of (nth (idx - i) components JNull)))
      else 0%nat.
Proof.
  induction components as [|c rest IH]; intros i.
  - cbn [all_errors count_occ]. destruct (idx - i)%nat; destruct (Nat.leb i idx); reflexivity.
  - cbn [all_errors]. rewrite count_occ_app, count_component_errors, IH.
    destruct (Nat.eqb_spec i idx) as [->|Hne].
    + rewrite Nat.leb_refl, Nat.sub_diag.
      replace (Nat.leb (S idx) idx) with false
        by (symmetry; apply Nat.leb_gt; apply Nat.lt_succ_diag_r).
      cbn [nth]. apply Nat.add_0_r.
    + destruct (Nat.leb_spec i idx) as [Hle|Hgt].
      * replace (Nat.leb (S i) idx) with true
          by (symmetry; apply Nat.leb_le; lia).
        replace (idx - i)%nat with (S (idx - S i)) by lia. reflexivity.
      * replace (Nat.leb (S i) idx) with false
          by (symmetry; apply Nat.leb_gt; lia).
        reflexivity.
Qed.

Lemma all_warnings_text (components : list json) :
  forall (i : nat) (w : string), In w (all_warnings i components) -> warning_text w.
Proof.
  induction components as [|c rest IH]; intros i w Hin; [destruct Hin|].
  cbn [all_warnings] in Hin. apply in_app_or in Hin. destruct Hin as [Hin|Hin].
  - destruct c as [| | | | | |cd]; try destruct Hin. cbn [component_warnings] in Hin.
    destruct (has_key "crypto" cd); [|destruct Hin].
    destruct Hin as [<-|[]]. eexists _, _. reflexivity.
  - exact (IH _ _ Hin).
Qed.

(** C8. On components that are objects whose properties are property objects
    (with a text [name], if any), the checker returns, and for every index the
    error "property missing 'value' field" of that component comes once per
    property of the component whose [name] starts with "cbom:" and which has
    no [value] key.  So a component none of whose properties is both
    "cbom:"-named and without [value] never gets that error. *)
Theorem missing_value_flagged_once_per_cbom_property (components : list json) :
  forallb component_object components = true ->
  exists (ok : bool) (msgs : list string),
    validate_component_properties (JList components) = Ok (ok, msgs)
    /\ (forall idx : nat,
          count_occ string_dec msgs (msg_no_value idx)
          = List.length (filter flagged (props_of (nth idx components JNull))))
    /\ (forall idx : nat,
          (forall p, In p (props_of (nth idx components JNull)) ->
                     cbom_named p = false \/ lacks_value p = false) ->
          ~ In (msg_no_value idx) msgs).
Proof.
  intros Hok.
  unfold validate_component_properties. cbn [py_iter bind].
  rewrite (check_component_objects components Hok 0 [] []). cbn [bind app].
  eexists _, _. split; [reflexivity|].
  assert (Hcount : forall idx : nat,
            count_occ string_dec (all_errors 0 components ++ all_warnings 0 components)
              (msg_no_value idx)
            = List.length (filter flagged (props_of (nth idx components JNull)))).
  { intros idx. rewrite count_occ_app, count_all_errors.
    cbn [Nat.leb]. rewrite Nat.sub_0_r.
    replace (count_occ string_dec (all_warnings 0 components) (msg_no_value idx))
      with 0%nat; [apply Nat.add_0_r|].
    symmetry. apply count_occ_not_In. intros Hin.
    destruct (all_warnings_text _ _ _ Hin) as (j & name & E).
    symmetry in E. exact (crypto_is_not_an_error _ _ _ _ E). }
  split; [exact Hcount|].
  intros idx Hnone. apply (count_occ_not_In string_dec). rewrite Hcount.
  induction (props_of (nth idx components JNull)) as [|p ps IH]; [reflexivity|].
  cbn [filter]. unfold flagged at 1.
  destruct (Hnone p (or_introl eq_refl)) as [-> | ->]; rewrite ?andb_false_r;
    cbn [andb]; apply IH; intros q Hq; apply Hnone; right; exact Hq.
Qed.

(** [[{"properties": [{"name": "cbom:algorithm"},
                      {"name": "vendor:tag"},
                      {"value": "x"}]},
      {"crypto": {}, "properties": [{"name": "cbom:purpose", "value": "tls"}]}]] *)
Definition components_sample : list json :=
  [JDict [("properties",
           JList [JDict [("name", JStr "cbom:algorithm")];
                  JDict [("name", JStr "vendor:tag")];
                  JDict [("value", JStr "x")]])];
   JDict [("crypto", JDict []);
          ("properties",
           JList [JDict [("name", JStr "cbom:purpose"); ("value", JStr "tls")]])]].

Lemma missing_value_flagged_once_per_cbom_property_witness :
  exists (ok : bool) (msgs : list string),
    validate_component_properties (JList components_sample) = Ok (ok, msgs)
    /\ count_occ string_dec msgs (msg_no_value 0) = 1%nat
    /\ count_occ string_dec msgs (msg_no_value 1) = 0%nat.
Proof.
  destruct (missing_value_flagged_once_per_cbom_property components_sample eq_refl)
    as (ok & msgs & Hrun & Hcount & _).
  exists ok, msgs. split; [exact Hrun|].
  split; [exact (Hcount 0%nat)|exact (Hcount 1%nat)].
Defined.

End ComponentFacts.

(* ================================================================= *)
(** ** The drivers: warnings, strict mode and exceptions *)

Module DriverFacts.
Import Py.

Definition metadata_sample : json :=
  JDict [("tools", JList [JDict [("name", JStr "x")]]);
         ("timestamp", JStr "2024-01-01T00:00:00Z")].

(** A conforming document around the given [components]. *)
Definition cdx_doc (components : list json) : json :=
  JDict [("bomFormat", JStr "CycloneDX"); ("specVersion", JStr "1.6");
         ("metadata", metadata_sample); ("components", JList components)].

(** One component, [{"name": "libssl", "crypto": {"algorithm": "RSA"}}]. *)
Definition doc_legacy_crypto : json :=
  cdx_doc [JDict [("name", JStr "libssl");
                  ("crypto", JDict [("algorithm", JStr "RSA")])]].

(** A file whose check is ok is printed as [OK] and leaves the exit status
    alone, strict or not: the messages are read only under [FAIL]. *)
Lemma ok_file_is_not_inspected (strict : bool) (path : string) (doc : json)
  (msgs : list string) :
  Cdx16.validate_cbom_16 doc = Ok (true, msgs) ->
  Cdx16.main strict [(path, Cdx16.Loaded doc)]
  = ([("[OK] " ++ path ++ ": Valid CycloneDX 1.6 CBOM")%string], Ok 0).
Proof.
  intros H. unfold Cdx16.main. cbn [Cdx16.report]. rewrite H. reflexivity.
Qed.

(** Under [FAIL] the flag is already false when the messages are read. *)
Lemma print_messages_keeps_failure (strict : bool) (messages : list string) :
  forall out, fst (Cdx16.print_messages strict messages false out) = false.
Proof.
  induction messages as [|msg rest IH]; intros out; [reflexivity|].
  cbn [Cdx16.print_messages].
  destruct (Cdx16.looks_like_warning msg); [|apply IH].
  destruct strict; apply IH.
Qed.

(** So [--strict] never changes how a run ends. *)
Lemma strict_never_changes_status (files : list (string * Cdx16.loaded)) :
  forall (all_ok : bool) (out out' : list string),
    snd (Cdx16.report true files all_ok out) = snd (Cdx16.report false files all_ok out').
Proof.
  induction files as [|[path [why|doc]] rest IH]; intros all_ok out out'.
  - reflexivity.
  - cbn [Cdx16.report]. apply IH.
  - cbn [Cdx16.report].
    destruct (Cdx16.validate_cbom_16 doc) as [[[|] messages]|e]; [apply IH| |reflexivity].
    assert (Ht := print_messages_keeps_failure true messages
                    (Cdx16.append out ("[FAIL] " ++ path ++ ":")%string)).
    assert (Hf := print_messages_keeps_failure false messages
                    (Cdx16.append out' ("[FAIL] " ++ path ++ ":")%string)).
    destruct (Cdx16.print_messages true messages false _) as [a o].
    destruct (Cdx16.print_messages false messages false _) as [a' o'].
    cbn [fst] in Ht, Hf. subst a a'. apply IH.
Qed.

(** C1, at a document whose only message is the legacy-field warning: the
    check is ok and carries the warning, the warning is of the kind [main]
    would print as [WARN], and with or without [--strict] the run prints the
    [OK] line alone and exits with status 0.  On any list of files the run
    ends the same way with and without [--strict]. *)
Theorem warnings_only_run_ignores_strict :
  Cdx16.validate_cbom_16 doc_legacy_crypto
  = Ok (true, ["Component 0 (libssl) has .crypto field (should use .properties in 1.6)"])
  /\ Cdx16.looks_like_warning
       "Component 0 (libssl) has .crypto field (should use .properties in 1.6)" = true
  /\ Cdx16.main false [("a.json", Cdx16.Loaded doc_legacy_crypto)]
     = (["[OK] a.json: Valid CycloneDX 1.6 CBOM"], Ok 0)
  /\ Cdx16.main true [("a.json", Cdx16.Loaded doc_legacy_crypto)]
     = (["[OK] a.json: Valid CycloneDX 1.6 CBOM"], Ok 0)
  /\ (forall files, snd (Cdx16.main true files) = snd (Cdx16.main false files)).
Proof.
  repeat split. intros files.
  exact (strict_never_changes_status files true [] []).
Qed.

(** A property that is text where an object is expected:
    [{"properties": ["cbom:algorithm"]}]. *)
Definition doc_bare_property : json :=
  cdx_doc [JDict [("properties", JList [JStr "cbom:algorithm"])]].

(** C3, at malformed entries.  Schema checker: a property that is not an
    object raises in the filter, before the loop that would report "property
    must be an object", and the exception ends the run before the next file.
    Comparator: a finding that is not an object, a total that is not a
    number, and a summary that is a number each raise, and the run ends
    there. *)
Theorem malformed_entries_raise :
  Cdx16.validate_component_properties
    (JList [JDict [("properties", JList [JStr "cbom:algorithm"])]])
  = Raise AttributeError
  /\ Cdx16.validate_cbom_16 doc_bare_property = Raise AttributeError
  /\ Cdx16.main false [("a.json", Cdx16.Loaded doc_bare_property);
                       ("b.json", Cdx16.Loaded (cdx_doc []))]
     = ([], Raise AttributeError)
  /\ Cbom.compare_summary (JDict [("findings", JList [JStr "RSA"])])
     = Raise AttributeError
  /\ Cbom.compare_summary
       (JDict [("summary", JDict [("quantum_safe_assets", JStr "many")])])
     = Raise ValueError
  /\ Cbom.compare_summary (JDict [("summary", JInt 5)]) = Raise TypeError
  /\ Cbom.main [("a.json", Cbom.Loaded (JDict [("findings", JList [JStr "RSA"])]));
                ("b.json", Cbom.Loaded (JDict []))]
     = ([], Raise AttributeError).
Proof.
  repeat split.
Qed.

End DriverFacts.

(* ================================================================= *)
(** ** The two histograms of [count_findings] *)

Module HistogramFacts.
Import Py Cbom DictFacts CountFacts.

(** The keys of a dict, in insertion order. *)
Definition keys {V : Type} (d : list (string * V)) : list string := map fst d.

Definition total (d : list (string * Z)) : Z := fold_right (fun kv acc => snd kv + acc) 0 d.

(** The distinct elements of [l] in the order of their first occurrence,
    skipping those already in [seen]. *)
Fixpoint first_seen (seen l : list string) : list string :=
  match l with
  | [] => []
  | x :: rest =>
      if existsb (String.eqb x) seen then first_seen seen rest
      else x :: first_seen (seen ++ [x]) rest
  end.

Lemma has_key_keys {V : Type} (k : string) (d : list (string * V)) :
  has_key k d = existsb (String.eqb k) (keys d).
Proof.
  unfold has_key. induction d as [|[k' v] d IH]; [reflexivity|].
  cbn [lookup keys map fst existsb]. destruct (String.eqb k k'); [reflexivity|exact IH].
Qed.

Lemma keys_store {V : Type} (k : string) (v : V) (d : list (string * V)) :
  keys (store k v d) = (keys d ++ (if has_key k d then [] else [k]))%list.
Proof.
  unfold has_key. induction d as [|[k' v'] d IH]; [reflexivity|].
  cbn [store lookup]. destruct (String.eqb k k').
  - cbn [keys map fst]. rewrite List.app_nil_r. reflexivity.
  - cbn [keys map fst app]. f_equal. exact IH.
Qed.

Lemma total_store_bump (k : string) (d : list (string * Z)) :
  total (store k (get0 k d + 1) d) = total d + 1.
Proof.
  unfold get0. induction d as [|[k' v'] d IH]; [reflexivity|].
  cbn [store lookup]. destruct (String.eqb k k').
  - cbn [total fold_right snd]. lia.
  - cbn [total fold_right snd]. fold (total d).
    fold (total (store k (match lookup k d with Some n => n | None => 0 end + 1) d)).
    rewrite IH. lia.
Qed.

Lemma positive_store_bump (k : string) (d : list (string * Z)) :
  Forall (fun kv => 1 <= snd kv) d ->
  Forall (fun kv => 1 <= snd kv) (store k (get0 k d + 1) d).
Proof.
  unfold get0. induction 1 as [|[k' v'] d Hv Hd IH]; cbn [store lookup].
  - constructor; [cbn; lia|constructor].
  - destruct (String.eqb k k').
    + constructor; [cbn [snd] in *; lia|exact Hd].
    + constructor; [exact Hv|exact IH].
Qed.

Lemma first_seen_fresh (seen l : list string) :
  NoDup seen -> NoDup (seen ++ first_seen seen l).
Proof.
  revert seen. induction l as [|x rest IH]; intros seen Hnd.
  - cbn. rewrite List.app_nil_r. exact Hnd.
  - cbn [first_seen]. destruct (existsb (String.eqb x) seen) eqn:Hx; [apply IH; exact Hnd|].
    replace (seen ++ x :: first_seen (seen ++ [x]) rest)%list
      with ((seen ++ [x]) ++ first_seen (seen ++ [x]) rest)%list
      by (rewrite <- List.app_assoc; reflexivity).
    apply IH. apply NoDup_app; [exact Hnd|repeat constructor; intros []|].
    intros a Ha [E|[]]. subst a.
    assert (existsb (String.eqb x) seen = true).
    { apply existsb_exists. exists x. split; [exact Ha|apply String.eqb_refl]. }
    congruence.
Qed.

(** The loop keeps: the keys in first-seen order, every count at least 1,
    and the counts adding up to the findings read. *)
Lemma count_from_shape (fs : list finding) :
  forall st c : counts,
    count_from st (map JDict fs) = Ok c ->
    keys (risk_counts c)
    = (keys (risk_counts st) ++ first_seen (keys (risk_counts st)) (map risk_of fs))%list
    /\ keys (algo_counts c)
       = (keys (algo_counts st) ++ first_seen (keys (algo_counts st)) (map algo_of fs))%list
    /\ total (risk_counts c) = total (risk_counts st) + Z.of_nat (List.length fs)
    /\ total (algo_counts c) = total (algo_counts st) + Z.of_nat (List.length fs)
    /\ (Forall (fun kv => 1 <= snd kv) (risk_counts st) ->
        Forall (fun kv => 1 <= snd kv) (risk_counts c))
    /\ (Forall (fun kv => 1 <= snd kv) (algo_counts st) ->
        Forall (fun kv => 1 <= snd kv) (algo_counts c)).
Proof.
  induction fs as [|f fs IH]; intros st c H.
  - injection H as <-. cbn [map first_seen List.length]. rewrite !List.app_nil_r.
    repeat split; try lia; auto.
  - cbn [map count_from] in H. rewrite count_finding_object in H. cbn [bind] in H.
    destruct (IH _ _ H) as (Hkr & Hka & Htr & Hta & Hpr & Hpa).
    cbn [risk_counts algo_counts] in Hkr, Hka, Htr, Hta, Hpr, Hpa.
    rewrite keys_store in Hkr, Hka. rewrite total_store_bump in Htr, Hta.
    cbn [map first_seen List.length].
    rewrite <- !has_key_keys.
    split; [|split; [|split; [|split; [|split]]]].
    + rewrite Hkr. destruct (has_key (risk_of f) (risk_counts st)).
      * rewrite List.app_nil_r. reflexivity.
      * rewrite <- List.app_assoc. reflexivity.
    + rewrite Hka. destruct (has_key (algo_of f) (algo_counts st)).
      * rewrite List.app_nil_r. reflexivity.
      * rewrite <- List.app_assoc. reflexivity.
    + lia.
    + lia.
    + intros Hp. apply Hpr, positive_store_bump, Hp.
    + intros Hp. apply Hpa, positive_store_bump, Hp.
Qed.

Lemma lookup_In {V : Type} (k : string) (v : V) (d : list (string * V)) :
  lookup k d = Some v -> In (k, v) d.
Proof.
  induction d as [|[k' v'] d IH]; [discriminate|].
  cbn [lookup]. destruct (String.eqb_spec k k') as [->|_].
  - intros [= ->]. left; reflexivity.
  - intros H. right. exact (IH H).
Qed.

Lemma In_lookup {V : Type} (k : string) (v : V) (d : list (string * V)) :
  NoDup (keys d) -> In (k, v) d -> lookup k d = Some v.
Proof.
  induction d as [|[k' v'] d IH]; [intros _ []|].
  cbn [keys map fst lookup]. intros Hnd [[= -> ->]|Hin].
  - rewrite String.eqb_refl. reflexivity.
  - inversion Hnd as [|? ? Hnot Hnd']; subst.
    destruct (String.eqb_spec k k') as [->|_]; [|exact (IH Hnd' Hin)].
    contradiction Hnot. change (In (fst (k', v)) (map fst d)). apply in_map. exact Hin.
Qed.

Lemma tally_bounds {A : Type} (p : A -> bool) (l : list A) :
  0 <= tally p l <= Z.of_nat (List.length l).
Proof.
  induction l as [|a l IH]; [cbn; lia|].
  rewrite tally_cons. cbn [List.length]. destruct (p a); lia.
Qed.

Lemma tally_positive {A : Type} (p : A -> bool) (a : A) (l : list A) :
  In a l -> p a = true -> 1 <= tally p l.
Proof.
  induction l as [|b l IH]; [intros []|].
  rewrite tally_cons. intros [->|Hin] Hp.
  - rewrite Hp. pose proof (tally_bounds p l). lia.
  - specialize (IH Hin Hp). destruct (p b); lia.
Qed.

(** X1. On every array of finding objects, [risk_counts] gives each label the
    number of findings filed under it (uppercased risk, "UNKNOWN" when the key
    is absent) and [algo_counts] does the same for the algorithm as written
    ("unknown" when absent); a label no finding has reads as 0. *)
Theorem count_findings_histograms (fs : list finding) :
  exists c : counts,
    count_findings (map JDict fs) = Ok c
    /\ (forall k, get0 k (risk_counts c) = tally (fun f => String.eqb k (risk_of f)) fs)
    /\ (forall k, get0 k (algo_counts c) = tally (fun f => String.eqb k (algo_of f)) fs).
Proof.
  destruct (count_from_objects fs no_counts) as (c & Hc & _ & _ & Hr & Ha).
  exists c. split; [exact Hc|]. split; intros k.
  - rewrite Hr. reflexivity.
  - rewrite Ha. reflexivity.
Qed.

(** X2. The keys of both dicts come in the order in which the labels first
    occur in the findings, each once: the order the comparator later walks
    and reports in. *)
Theorem count_findings_first_seen_order (fs : list finding) :
  exists c : counts,
    count_findings (map JDict fs) = Ok c
    /\ keys (risk_counts c) = first_seen [] (map risk_of fs)
    /\ keys (algo_counts c) = first_seen [] (map algo_of fs)
    /\ NoDup (keys (risk_counts c))
    /\ NoDup (keys (algo_counts c)).
Proof.
  destruct (count_from_objects fs no_counts) as (c & Hc & _).
  destruct (count_from_shape fs no_counts c Hc) as (Hkr & Hka & _).
  cbn [no_counts risk_counts algo_counts keys map app] in Hkr, Hka.
  exists c. split; [exact Hc|]. split; [exact Hkr|]. split; [exact Hka|].
  rewrite Hkr, Hka.
  split; apply (first_seen_fresh []); constructor.
Qed.

(** X3. Every finding is counted once in each histogram and no bucket is
    empty: the risk counts add up to the number of findings, so do the
    algorithm counts, and every stored count is at least 1.  A finding is
    never both vulnerable and quantum-safe, so the two totals are not
    negative and together do not exceed the number of findings. *)
Theorem count_findings_totals (fs : list finding) :
  exists c : counts,
    count_findings (map JDict fs) = Ok c
    /\ total (risk_counts c) = Z.of_nat (List.length fs)
    /\ total (algo_counts c) = Z.of_nat (List.length fs)
    /\ Forall (fun kv => 1 <= snd kv) (risk_counts c)
    /\ Forall (fun kv => 1 <= snd kv) (algo_counts c)
    /\ 0 <= vuln_assets c
    /\ 0 <= quantum_safe c
    /\ vuln_assets c + quantum_safe c <= Z.of_nat (List.length fs).
Proof.
  destruct (count_from_objects fs no_counts) as (c & Hc & Hv & Hq & _).
  destruct (count_from_shape fs no_counts c Hc) as (_ & _ & Htr & Hta & Hpr & Hpa).
  cbn [no_counts risk_counts algo_counts vuln_assets quantum_safe total fold_right]
    in Htr, Hta, Hpr, Hpa, Hv, Hq.
  exists c. split; [exact Hc|].
  split; [lia|]. split; [lia|].
  split; [apply Hpr; constructor|]. split; [apply Hpa; constructor|].
  pose proof (tally_bounds vulnerable fs). pose proof (tally_bounds resistant fs).
  split; [lia|]. split; [lia|].
  rewrite Hv, Hq. clear.
  induction fs as [|f fs IH]; [cbn; lia|].
  rewrite !tally_cons. cbn [List.length]. unfold vulnerable at 1.
  destruct (resistant f); rewrite ?andb_false_r; cbn [negb andb]; [lia|].
  destruct (severe f); cbn [andb]; lia.
Qed.

End HistogramFacts.

(* ================================================================= *)
(** ** What the comparator reports, and what it accepts *)

Module VerdictFacts.
Import Py Cbom DictFacts CountFacts CompareFacts HistogramFacts.

(** The running verdict is ok exactly while no message has been appended. *)
Definition coherent (acc : verdict) : Prop := fst acc = true <-> snd acc = [].

(** A step only appends, never turns a failed verdict ok again, and keeps
    the verdict coherent. *)
Definition extends (acc acc' : verdict) : Prop :=
  (exists extra, snd acc' = (snd acc ++ extra)%list)
  /\ (fst acc = false -> fst acc' = false)
  /\ (coherent acc -> coherent acc').

Lemma extends_refl (acc : verdict) : extends acc acc.
Proof.
  split; [exists []; rewrite List.app_nil_r; reflexivity|]. split; auto.
Qed.

Lemma extends_trans (a b c : verdict) : extends a b -> extends b c -> extends a c.
Proof.
  intros ((x & Hx) & Hf & Hc) ((y & Hy) & Hf' & Hc').
  split; [exists (x ++ y)%list; rewrite Hy, Hx, List.app_assoc; reflexivity|].
  split; auto.
Qed.

Lemma extends_append (acc : verdict) (msg : string) :
  extends acc (false, append (snd acc) msg).
Proof.
  split; [exists [msg]; reflexivity|]. split; [reflexivity|].
  intros _. unfold coherent, append. cbn [fst snd]. split; [discriminate|].
  intros E. apply app_eq_nil in E. destruct E; discriminate.
Qed.

Lemma compare_total_extends (key : string) (summary : json) (computed : Z)
  (acc acc' : verdict) :
  compare_total key summary computed acc = Ok acc' -> extends acc acc'.
Proof.
  unfold compare_total. intros H.
  destruct (py_in key summary) as [[|]|x]; cbn [bind] in H; try discriminate.
  - destruct (py_get_d summary key (JInt (-1))) as [v|x]; cbn [bind] in H; try discriminate.
    destruct (py_int v) as [n|x]; cbn [bind] in H; try discriminate.
    destruct (negb (n =? computed)).
    + destruct (py_get summary key) as [shown|x]; cbn [bind] in H; try discriminate.
      injection H as <-. apply extends_append.
    + injection H as <-. apply extends_refl.
  - injection H as <-. apply extends_refl.
Qed.

Lemma compare_breakdown_extends (field : string) (reported : json)
  (computed : list (string * Z)) :
  forall acc acc' : verdict,
    compare_breakdown field reported computed acc = Ok acc' -> extends acc acc'.
Proof.
  induction computed as [|[key count] rest IH]; intros acc acc' H.
  - injection H as <-. apply extends_refl.
  - cbn [compare_breakdown] in H.
    destruct (py_get reported key) as [v|x]; cbn [bind] in H; try discriminate.
    destruct (is_none v); cbn [bind] in H; [exact (IH _ _ H)|].
    destruct (py_int v) as [n|x]; cbn [bind] in H; try discriminate.
    destruct (negb (n =? count)); [|exact (IH _ _ H)].
    eapply extends_trans; [apply extends_append|exact (IH _ _ H)].
Qed.

Lemma compare_counts_coherent (c : counts) (summary : json) (acc : verdict) :
  compare_counts c summary = Ok acc -> coherent acc.
Proof.
  unfold compare_counts. intros H.
  destruct (compare_total "quantum_safe_assets" summary (quantum_safe c) (true, []))
    as [acc1|x] eqn:H1; cbn [bind] in H; try discriminate.
  destruct (compare_total "vulnerable_assets" summary (vuln_assets c) acc1)
    as [acc2|x] eqn:H2; cbn [bind] in H; try discriminate.
  destruct (breakdown_of summary "risk_breakdown") as [s_risk|x]; cbn [bind] in H;
    try discriminate.
  destruct (compare_breakdown "risk_breakdown" s_risk (risk_counts c) acc2)
    as [acc3|x] eqn:H3; cbn [bind] in H; try discriminate.
  destruct (breakdown_of summary "algorithm_breakdown") as [s_algo|x]; cbn [bind] in H;
    try discriminate.
  apply compare_total_extends in H1 as (_ & _ & C1).
  apply compare_total_extends in H2 as (_ & _ & C2).
  apply compare_breakdown_extends in H3 as (_ & _ & C3).
  apply compare_breakdown_extends in H as (_ & _ & C4).
  apply C4, C3, C2, C1. split; reflexivity.
Qed.

(** X4. Whatever the document, when [compare_summary] returns, its flag and
    its messages agree: ok exactly when the list of messages is empty. *)
Theorem compare_summary_ok_iff_no_message (doc : json) (ok : bool) (errors : list string) :
  compare_summary doc = Ok (ok, errors) -> (ok = true <-> errors = []).
Proof.
  unfold compare_summary. intros H.
  destruct (py_get doc "findings") as [f|x]; cbn [bind] in H; try discriminate.
  assert (Hbad : Ok (false, ["findings is not an array"]) = Ok (ok, errors) ->
                 (ok = true <-> errors = [])).
  { intros [= <- <-]. split; discriminate. }
  destruct (py_or f (JList [])) as [| | | | |findings|]; try exact (Hbad H).
  destruct (count_findings findings) as [c|x]; cbn [bind] in H; try discriminate.
  destruct (py_get doc "summary") as [s|x]; cbn [bind] in H; try discriminate.
  exact (compare_counts_coherent c _ _ H).
Qed.

Lemma compare_summary_ok_iff_no_message_witness :
  compare_summary (JDict [("findings", JList [JDict [("risk", JStr "low")]]);
                          ("summary", JDict [("risk_breakdown", JDict [("LOW", JInt 2)])])])
  = Ok (false, ["summary.risk_breakdown[LOW]=2 != computed 1"])
  /\ (false = true <-> ["summary.risk_breakdown[LOW]=2 != computed 1"] = []).
Proof.
  split; [reflexivity|].
  apply (compare_summary_ok_iff_no_message
           (JDict [("findings", JList [JDict [("risk", JStr "low")]]);
                   ("summary", JDict [("risk_breakdown", JDict [("LOW", JInt 2)])])])).
  reflexivity.
Defined.

(** *** A summary written from the counts *)

(** A dict of counts as the JSON object a producer would write. *)
Definition boxed (d : list (string * Z)) : list (string * json) :=
  map (fun kv => (fst kv, JInt (snd kv))) d.

(** The summary that reports exactly what [count_findings] computed. *)
Definition summary_of (c : counts) : json :=
  JDict [("quantum_safe_assets", JInt (quantum_safe c));
         ("vulnerable_assets", JInt (vuln_assets c));
         ("risk_breakdown", JDict (boxed (risk_counts c)));
         ("algorithm_breakdown", JDict (boxed (algo_counts c)))].

Lemma lookup_boxed (k : string) (d : list (string * Z)) :
  lookup k (boxed d) = option_map JInt (lookup k d).
Proof.
  induction d as [|[k' n] d IH]; [reflexivity|].
  cbn [boxed map lookup fst snd]. destruct (String.eqb k k'); [reflexivity|exact IH].
Qed.

Lemma compare_breakdown_same (field : string) (d sub : list (string * Z))
  (acc : verdict) :
  NoDup (keys d) -> incl sub d ->
  compare_breakdown field (JDict (boxed d)) sub acc = Ok acc.
Proof.
  intros Hnd. induction sub as [|[key count] rest IH]; intros Hincl; [reflexivity|].
  cbn [compare_breakdown py_get py_get_d bind].
  rewrite lookup_boxed, (In_lookup key count d Hnd (Hincl _ (or_introl eq_refl))).
  cbn [option_map is_none py_int bind]. rewrite Z.eqb_refl. cbn [negb].
  apply IH. intros x Hx. apply Hincl. right; exact Hx.
Qed.

(** X5. Round trip: the summary written from the computed counts (both totals
    and both breakdowns) is accepted against the findings it was computed
    from, with no message. *)
Theorem computed_summary_accepted (fs : list finding) :
  exists c : counts,
    count_findings (map JDict fs) = Ok c
    /\ compare_summary
         (JDict [("findings", JList (map JDict fs)); ("summary", summary_of c)])
       = Ok (true, []).
Proof.
  destruct (count_from_objects fs no_counts) as (c & Hc & _).
  destruct (count_from_shape fs no_counts c Hc) as (Hkr & Hka & _).
  cbn [no_counts risk_counts algo_counts keys map app] in Hkr, Hka.
  assert (Hnr : NoDup (keys (risk_counts c)))
    by (rewrite Hkr; apply (first_seen_fresh []); constructor).
  assert (Hna : NoDup (keys (algo_counts c)))
    by (rewrite Hka; apply (first_seen_fresh []); constructor).
  exists c. split; [exact Hc|].
  unfold compare_summary.
  cbn [py_get py_get_d lookup String.eqb Ascii.eqb Bool.eqb bind].
  assert (Hfl : py_or (JList (map JDict fs)) (JList []) = JList (map JDict fs))
    by (destruct fs; reflexivity).
  rewrite Hfl. fold (count_findings (map JDict fs)) in Hc. rewrite Hc. cbn [bind].
  assert (Hs : py_or (summary_of c) (JDict []) = summary_of c) by reflexivity.
  rewrite Hs. unfold summary_of, compare_total, breakdown_of.
  cbn [py_in has_key py_get py_get_d lookup String.eqb Ascii.eqb Bool.eqb bind
         py_int is_dict].
  rewrite !Z.eqb_refl. cbn [negb bind]. rewrite !py_or_object.
  rewrite (compare_breakdown_same _ _ _ _ Hnr (incl_refl _)). cbn [bind].
  apply (compare_breakdown_same _ _ _ _ Hna (incl_refl _)).
Qed.

(** *** A total or a count that is off *)

Lemma compare_summary_on_objects (d s : list (string * json)) (fs : list finding) :
  lookup "findings" d = Some (JList (map JDict fs)) ->
  lookup "summary" d = Some (JDict s) ->
  exists c : counts,
    count_findings (map JDict fs) = Ok c
    /\ vuln_assets c = tally vulnerable fs
    /\ quantum_safe c = tally resistant fs
    /\ compare_summary (JDict d) = compare_counts c (JDict s).
Proof.
  intros Hf Hs.
  destruct (count_from_objects fs no_counts) as (c & Hc & Hv & Hq & _).
  exists c. split; [exact Hc|]. split; [exact Hv|]. split; [exact Hq|].
  unfold compare_summary, py_get, py_get_d. cbn [bind]. rewrite Hf, Hs.
  assert (Hfl : py_or (JList (map JDict fs)) (JList []) = JList (map JDict fs))
    by (destruct fs; reflexivity).
  rewrite Hfl. fold (count_findings (map JDict fs)) in Hc. rewrite Hc. cbn [bind].
  rewrite py_or_object. reflexivity.
Qed.

(** The message of a total that is off. *)
Definition msg_total (key : string) (n computed : Z) : string :=
  "summary." ++ key ++ "=" ++ str_of_Z n ++ " != computed " ++ str_of_Z computed.

Lemma compare_total_int (key : string) (s : list (string * json)) (n computed : Z)
  (acc : verdict) :
  lookup key s = Some (JInt n) ->
  compare_total key (JDict s) computed acc
  = Ok (if Z.eqb n computed then acc
        else (false, append (snd acc) (msg_total key n computed))).
Proof.
  intros Hk. unfold compare_total, py_in, has_key, py_get, py_get_d.
  rewrite Hk. cbn [bind py_int]. destruct (Z.eqb n computed); reflexivity.
Qed.

(** What is in the list once stays in it. *)
Lemma extends_In (acc acc' : verdict) (e : string) :
  extends acc acc' -> In e (snd acc) -> In e (snd acc').
Proof.
  intros ((extra & ->) & _) Hin. apply in_or_app. left; exact Hin.
Qed.

(** X6. With findings an array of objects and a summary object: a
    [quantum_safe_assets] given as an integer other than the number of
    findings with a truthy [quantum_resistant] makes the verdict fail with the
    message that shows both numbers, and so does a [vulnerable_assets] other
    than the number of CRITICAL/HIGH/MEDIUM findings that are not
    quantum-resistant. *)
Theorem wrong_total_reported
  (d s : list (string * json)) (fs : list finding) (ok : bool) (errors : list string) :
  lookup "findings" d = Some (JList (map JDict fs)) ->
  lookup "summary" d = Some (JDict s) ->
  compare_summary (JDict d) = Ok (ok, errors) ->
  (forall n, lookup "quantum_safe_assets" s = Some (JInt n) ->
             n <> tally resistant fs ->
             ok = false
             /\ In (msg_total "quantum_safe_assets" n (tally resistant fs)) errors)
  /\ (forall n, lookup "vulnerable_assets" s = Some (JInt n) ->
                n <> tally vulnerable fs ->
                ok = false
                /\ In (msg_total "vulnerable_assets" n (tally vulnerable fs)) errors).
Proof.
  intros Hf Hs Hres.
  destruct (compare_summary_on_objects d s fs Hf Hs) as (c & _ & Hv & Hq & Hcmp).
  rewrite Hcmp in Hres. unfold compare_counts in Hres.
  destruct (compare_total "quantum_safe_assets" (JDict s) (quantum_safe c) (true, []))
    as [acc1|x] eqn:H1; cbn [bind] in Hres; try discriminate.
  destruct (compare_total "vulnerable_assets" (JDict s) (vuln_assets c) acc1)
    as [acc2|x] eqn:H2; cbn [bind] in Hres; try discriminate.
  destruct (breakdown_of (JDict s) "risk_breakdown") as [s_risk|x]; cbn [bind] in Hres;
    try discriminate.
  destruct (compare_breakdown "risk_breakdown" s_risk (risk_counts c) acc2)
    as [acc3|x] eqn:H3; cbn [bind] in Hres; try discriminate.
  destruct (breakdown_of (JDict s) "algorithm_breakdown") as [s_algo|x];
    cbn [bind] in Hres; try discriminate.
  assert (E12 := compare_total_extends _ _ _ _ _ H2).
  assert (E23 := compare_breakdown_extends _ _ _ _ _ H3).
  assert (E34 := compare_breakdown_extends _ _ _ _ _ Hres).
  assert (E24 := extends_trans _ _ _ E23 E34).
  split; intros n Hn Hne.
  - rewrite (compare_total_int _ _ n _ _ Hn), Hq in H1.
    destruct (Z.eqb_spec n (tally resistant fs)) as [E|_]; [contradiction|].
    injection H1 as <-.
    assert (E14 := extends_trans _ _ _ E12 E24).
    split; [exact (proj1 (proj2 E14) eq_refl)|].
    apply (extends_In _ _ _ E14). left; reflexivity.
  - rewrite (compare_total_int _ _ n _ _ Hn), Hv in H2.
    destruct (Z.eqb_spec n (tally vulnerable fs)) as [E|_]; [contradiction|].
    injection H2 as <-.
    split; [exact (proj1 (proj2 E24) eq_refl)|].
    apply (extends_In _ _ _ E24). unfold append. apply in_or_app. right; left; reflexivity.
Qed.

Lemma wrong_total_reported_witness :
  compare_summary
    (JDict [("findings",
             JList [JDict [("risk", JStr "high")];
                    JDict [("risk", JStr "LOW"); ("quantum_resistant", JBool true)]]);
            ("summary",
             JDict [("quantum_safe_assets", JInt 2); ("vulnerable_assets", JInt 0)])])
  = Ok (false, ["summary.quantum_safe_assets=2 != computed 1";
                "summary.vulnerable_assets=0 != computed 1"])
  /\ In (msg_total "quantum_safe_assets" 2 1)
        ["summary.quantum_safe_assets=2 != computed 1";
         "summary.vulnerable_assets=0 != computed 1"]
  /\ In (msg_total "vulnerable_assets" 0 1)
        ["summary.quantum_safe_assets=2 != computed 1";
         "summary.vulnerable_assets=0 != computed 1"].
Proof.
  destruct (wrong_total_reported
              [("findings",
                JList [JDict [("risk", JStr "high")];
                       JDict [("risk", JStr "LOW"); ("quantum_resistant", JBool true)]]);
               ("summary",
                JDict [("quantum_safe_assets", JInt 2); ("vulnerable_assets", JInt 0)])]
              [("quantum_safe_assets", JInt 2); ("vulnerable_assets", JInt 0)]
              [[("risk", JStr "high")];
               [("risk", JStr "LOW"); ("quantum_resistant", JBool true)]]
              false
              ["summary.quantum_safe_assets=2 != computed 1";
               "summary.vulnerable_assets=0 != computed 1"]
              eq_refl eq_refl eq_refl) as [Hq Hv].
  split; [reflexivity|]. split.
  - apply (Hq 2); [reflexivity|discriminate].
  - apply (Hv 0); [reflexivity|discriminate].
Defined.

(** The message of a breakdown count that is off. *)
Definition msg_breakdown (field key : string) (n count : Z) : string :=
  "summary." ++ field ++ "[" ++ key ++ "]=" ++ str_of_Z n
    ++ " != computed " ++ str_of_Z count.

Lemma compare_breakdown_reports (field : string) (reported : json)
  (key : string) (n count : Z) (computed : list (string * Z)) :
  py_get reported key = Ok (JInt n) ->
  n <> count ->
  In (key, count) computed ->
  forall acc acc' : verdict,
    compare_breakdown field reported computed acc = Ok acc' ->
    fst acc' = false /\ In (msg_breakdown field key n count) (snd acc').
Proof.
  intros Hget Hne. induction computed as [|[k0 c0] rest IH]; intros Hin acc acc' H;
    [destruct Hin|].
  cbn [compare_breakdown] in H.
  destruct Hin as [[= -> ->]|Hin].
  - rewrite Hget in H. cbn [bind is_none py_int] in H.
    destruct (Z.eqb_spec n count) as [E|_]; [contradiction|]. cbn [negb] in H.
    apply compare_breakdown_extends in H.
    split; [exact (proj1 (proj2 H) eq_refl)|].
    apply (extends_In _ _ _ H). unfold append. apply in_or_app. right; left; reflexivity.
  - destruct (py_get reported k0) as [v|x]; cbn [bind] in H; try discriminate.
    destruct (is_none v); cbn [bind] in H; [exact (IH Hin _ _ H)|].
    destruct (py_int v) as [m|x]; cbn [bind] in H; try discriminate.
    destruct (negb (m =? c0)); exact (IH Hin _ _ H).
Qed.

Lemma positive_count_stored (k : string) (d : list (string * Z)) :
  1 <= get0 k d -> In (k, get0 k d) d.
Proof.
  unfold get0. intros H. apply lookup_In.
  destruct (lookup k d); [reflexivity|lia].
Qed.

(** X7. With findings an array of objects and a summary object: when
    [risk_breakdown] gives, for the label of some finding, an integer other
    than the number of findings filed under that label, the verdict fails with
    the message that shows the label and both numbers; the same for
    [algorithm_breakdown] and the algorithm of some finding. *)
Theorem wrong_breakdown_count_reported
  (d s : list (string * json)) (fs : list finding) (ok : bool) (errors : list string) :
  lookup "findings" d = Some (JList (map JDict fs)) ->
  lookup "summary" d = Some (JDict s) ->
  compare_summary (JDict d) = Ok (ok, errors) ->
  (forall f r n,
      In f fs ->
      lookup "risk_breakdown" s = Some (JDict r) ->
      lookup (risk_of f) r = Some (JInt n) ->
      n <> tally (fun g => String.eqb (risk_of f) (risk_of g)) fs ->
      ok = false
      /\ In (msg_breakdown "risk_breakdown" (risk_of f) n
               (tally (fun g => String.eqb (risk_of f) (risk_of g)) fs)) errors)
  /\ (forall f r n,
      In f fs ->
      lookup "algorithm_breakdown" s = Some (JDict r) ->
      lookup (algo_of f) r = Some (JInt n) ->
      n <> tally (fun g => String.eqb (algo_of f) (algo_of g)) fs ->
      ok = false
      /\ In (msg_breakdown "algorithm_breakdown" (algo_of f) n
               (tally (fun g => String.eqb (algo_of f) (algo_of g)) fs)) errors).
Proof.
  intros Hf Hs Hres.
  destruct (compare_summary_on_objects d s fs Hf Hs) as (c & Hc & _ & _ & Hcmp).
  destruct (count_from_objects fs no_counts) as (c' & Hc' & _ & _ & Hr & Ha).
  unfold count_findings in Hc. rewrite Hc in Hc'. injection Hc' as <-.
  cbn [no_counts risk_counts algo_counts get0 lookup] in Hr, Ha.
  rewrite Hcmp in Hres. unfold compare_counts in Hres.
  destruct (compare_total "quantum_safe_assets" (JDict s) (quantum_safe c) (true, []))
    as [acc1|x]; cbn [bind] in Hres; try discriminate.
  destruct (compare_total "vulnerable_assets" (JDict s) (vuln_assets c) acc1)
    as [acc2|x]; cbn [bind] in Hres; try discriminate.
  unfold breakdown_of, py_get, py_get_d in Hres. cbn [is_dict bind] in Hres.
  split; intros f r n Hin Hb Hk Hne.
  - rewrite Hb, py_or_object in Hres.
    destruct (compare_breakdown "risk_breakdown" (JDict r) (risk_counts c) acc2)
      as [acc3|x] eqn:H3; cbn [bind] in Hres; try discriminate.
    assert (Hstored : In (risk_of f, tally (fun g => String.eqb (risk_of f) (risk_of g)) fs)
                         (risk_counts c)).
    { rewrite <- (Z.add_0_l (tally _ fs)), <- Hr. apply positive_count_stored.
      rewrite Hr. apply (tally_positive _ f); [exact Hin|apply String.eqb_refl]. }
    assert (Hget : py_get (JDict r) (risk_of f) = Ok (JInt n))
      by (unfold py_get, py_get_d; rewrite Hk; reflexivity).
    destruct (compare_breakdown_reports _ _ _ _ _ _ Hget Hne Hstored _ _ H3) as [Hok Hmsg].
    apply compare_breakdown_extends in Hres.
    split; [exact (proj1 (proj2 Hres) Hok)|exact (extends_In _ _ _ Hres Hmsg)].
  - destruct (compare_breakdown "risk_breakdown" _ (risk_counts c) acc2)
      as [acc3|x]; cbn [bind] in Hres; try discriminate.
    rewrite Hb, py_or_object in Hres.
    assert (Hstored : In (algo_of f, tally (fun g => String.eqb (algo_of f) (algo_of g)) fs)
                         (algo_counts c)).
    { rewrite <- (Z.add_0_l (tally _ fs)), <- Ha. apply positive_count_stored.
      rewrite Ha. apply (tally_positive _ f); [exact Hin|apply String.eqb_refl]. }
    assert (Hget : py_get (JDict r) (algo_of f) = Ok (JInt n))
      by (unfold py_get, py_get_d; rewrite Hk; reflexivity).
    exact (compare_breakdown_reports _ _ _ _ _ _ Hget Hne Hstored _ _ Hres).
Qed.

Lemma wrong_breakdown_count_reported_witness :
  compare_summary
    (JDict [("findings",
             JList [JDict [("risk", JStr "high"); ("algorithm", JStr "RSA")];
                    JDict [("risk", JStr "High"); ("algorithm", JStr "AES")]]);
            ("summary",
             JDict [("risk_breakdown", JDict [("HIGH", JInt 1)]);
                    ("algorithm_breakdown", JDict [("AES", JInt 3)])])])
  = Ok (false, ["summary.risk_breakdown[HIGH]=1 != computed 2";
                "summary.algorithm_breakdown[AES]=3 != computed 1"])
  /\ In (msg_breakdown "risk_breakdown" "HIGH" 1 2)
        ["summary.risk_breakdown[HIGH]=1 != computed 2";
         "summary.algorithm_breakdown[AES]=3 != computed 1"]
  /\ In (msg_breakdown "algorithm_breakdown" "AES" 3 1)
        ["summary.risk_breakdown[HIGH]=1 != computed 2";
         "summary.algorithm_breakdown[AES]=3 != computed 1"].
Proof.
  destruct (wrong_breakdown_count_reported
              [("findings",
                JList [JDict [("risk", JStr "high"); ("algorithm", JStr "RSA")];
                       JDict [("risk", JStr "High"); ("algorithm", JStr "AES")]]);
               ("summary",
                JDict [("risk_breakdown", JDict [("HIGH", JInt 1)]);
                       ("algorithm_breakdown", JDict [("AES", JInt 3)])])]
              [("risk_breakdown", JDict [("HIGH", JInt 1)]);
               ("algorithm_breakdown", JDict [("AES", JInt 3)])]
              [[("risk", JStr "high"); ("algorithm", JStr "RSA")];
               [("risk", JStr "High"); ("algorithm", JStr "AES")]]
              false
              ["summary.risk_breakdown[HIGH]=1 != computed 2";
               "summary.algorithm_breakdown[AES]=3 != computed 1"]
              eq_refl eq_refl eq_refl) as [Hr Ha].
  split; [reflexivity|]. split.
  - apply (Hr [("risk", JStr "High"); ("algorithm", JStr "AES")]
              [("HIGH", JInt 1)] 1);
      [right; left; reflexivity|reflexivity|reflexivity|discriminate].
  - apply (Ha [("risk", JStr "High"); ("algorithm", JStr "AES")]
              [("AES", JInt 3)] 3);
      [right; left; reflexivity|reflexivity|reflexivity|discriminate].
Defined.

(** *** Falsy values in place of the findings and the summary *)

(** X8. A [findings] that is present but falsy (null, false, 0, empty text,
    [{}]) is compared as [[]], and a [summary] that is present but falsy
    (null, false, 0, empty text, [[]]) is compared as [{}]. *)
Theorem falsy_findings_and_summary_read_as_empty (d : list (string * json)) :
  (forall v, lookup "findings" d = Some v -> truthy v = false ->
     compare_summary (JDict d) = compare_summary (JDict (("findings", JList []) :: d)))
  /\ (forall v, lookup "summary" d = Some v -> truthy v = false ->
        compare_summary (JDict d) = compare_summary (JDict (("summary", JDict []) :: d))).
Proof.
  split; intros v Hv Hfalsy.
  - exact (falsy_findings_as_empty d v Hv Hfalsy).
  - unfold compare_summary, py_get, py_get_d.
    cbn [lookup String.eqb Ascii.eqb Bool.eqb bind]. rewrite Hv.
    assert (E : py_or v (JDict []) = py_or (JDict []) (JDict []))
      by (unfold py_or; rewrite Hfalsy; reflexivity).
    rewrite E. reflexivity.
Qed.

Lemma falsy_findings_and_summary_read_as_empty_witness :
  compare_summary (JDict [("findings", JInt 0); ("summary", JStr "")])
  = compare_summary (JDict [("findings", JList []); ("findings", JInt 0); ("summary", JStr "")])
  /\ compare_summary (JDict [("findings", JInt 0); ("summary", JStr "")])
     = compare_summary (JDict [("summary", JDict []); ("findings", JInt 0); ("summary", JStr "")]).
Proof.
  destruct (falsy_findings_and_summary_read_as_empty
              [("findings", JInt 0); ("summary", JStr "")]) as [Hf Hs].
  split.
  - apply (Hf (JInt 0)); reflexivity.
  - apply (Hs (JStr "")); reflexivity.
Defined.

End VerdictFacts.

(* ================================================================= *)
(** ** The metadata check and whole documents *)

Module SchemaFacts.
Import Py Cdx16 TextFacts HeaderFacts ComponentFacts.

(** [metadata.get("tools", [])] on the fields of a metadata object. *)
Definition tools_of (md : list (string * json)) : json :=
  match lookup "tools" md with Some v => v | None => JList [] end.

(** X9. [validate_metadata]: with [metadata] absent or falsy the only message
    is "Missing metadata section" (tools and timestamp are not looked at);
    with a non-empty metadata object the check is ok exactly when [tools] is
    truthy and the key [timestamp] is there (whatever its value), and each of
    the two messages is returned exactly when its condition fails; a truthy
    metadata that is not an object raises [AttributeError]. *)
Theorem validate_metadata_cases (d : list (string * json)) :
  (lookup "metadata" d = None ->
   validate_metadata (JDict d) = Ok (false, ["Missing metadata section"]))
  /\ (forall v, lookup "metadata" d = Some v -> truthy v = false ->
      validate_metadata (JDict d) = Ok (false, ["Missing metadata section"]))
  /\ (forall md, lookup "metadata" d = Some (JDict md) -> md <> [] ->
      exists ok errors,
        validate_metadata (JDict d) = Ok (ok, errors)
        /\ (ok = true <-> truthy (tools_of md) = true /\ has_key "timestamp" md = true)
        /\ (In "metadata.tools array is empty or missing" errors
            <-> truthy (tools_of md) = false)
        /\ (In "metadata.timestamp is missing" errors
            <-> has_key "timestamp" md = false))
  /\ (forall v, lookup "metadata" d = Some v -> truthy v = true -> is_dict v = false ->
      validate_metadata (JDict d) = Raise AttributeError).
Proof.
  unfold validate_metadata, py_get_d. cbn [bind].
  split; [|split; [|split]].
  - intros ->. reflexivity.
  - intros v -> Hf. rewrite Hf. reflexivity.
  - intros md -> Hne.
    assert (Ht : truthy (JDict md) = true) by (destruct md; [contradiction|reflexivity]).
    rewrite Ht. cbn [negb bind py_in]. fold (tools_of md).
    destruct (truthy (tools_of md)), (has_key "timestamp" md); cbn [negb];
      eexists _, _; (split; [reflexivity|]); cbn;
      repeat split; try tauto; try discriminate;
      intros; intuition discriminate.
  - intros v -> Ht Hd. rewrite Ht. cbn [negb].
    destruct v; try reflexivity. discriminate Hd.
Qed.

Lemma validate_metadata_cases_witness :
  validate_metadata (JDict [("metadata", JNull)])
  = Ok (false, ["Missing metadata section"])
  /\ validate_metadata (JDict [("metadata", JStr "none")]) = Raise AttributeError
  /\ exists ok errors,
       validate_metadata
         (JDict [("metadata", JDict [("tools", JList []); ("timestamp", JNull)])])
       = Ok (ok, errors)
       /\ (In "metadata.tools array is empty or missing" errors
           <-> truthy (tools_of [("tools", JList []); ("timestamp", JNull)]) = false).
Proof.
  split; [|split].
  - apply (proj1 (proj2 (validate_metadata_cases [("metadata", JNull)])) JNull);
      reflexivity.
  - apply (proj2 (proj2 (proj2 (validate_metadata_cases [("metadata", JStr "none")])))
             (JStr "none")); reflexivity.
  - destruct (proj1 (proj2 (proj2 (validate_metadata_cases
                [("metadata", JDict [("tools", JList []); ("timestamp", JNull)])])))
              [("tools", JList []); ("timestamp", JNull)] eq_refl)
      as (ok & errors & Hrun & _ & Htools & _); [discriminate|].
    exists ok, errors. split; [exact Hrun|exact Htools].
Defined.

(** *** What an accepted document looks like *)

Lemma eq_str_true (v : json) (s : string) : eq_str v s = true -> v = JStr s.
Proof.
  destruct v; try discriminate. cbn [eq_str]. intros H.
  apply String.eqb_eq in H. subst. reflexivity.
Qed.

Lemma validate_bom_format_ok (d : list (string * json)) (e : list string) :
  validate_bom_format (JDict d) = Ok (true, e) ->
  lookup "bomFormat" d = Some (JStr "CycloneDX") /\ e = [].
Proof.
  unfold validate_bom_format, py_get, py_get_d. cbn [bind].
  destruct (lookup "bomFormat" d) as [v|]; [|discriminate].
  destruct (truthy v); cbn [negb]; [|discriminate].
  destruct (eq_str v "CycloneDX") eqn:E; cbn [negb]; [|discriminate].
  intros [= <-]. apply eq_str_true in E. subst. split; reflexivity.
Qed.

Lemma validate_spec_version_ok (d : list (string * json)) (e : list string) :
  validate_spec_version (JDict d) = Ok (true, e) ->
  lookup "specVersion" d = Some (JStr "1.6") /\ e = [].
Proof.
  unfold validate_spec_version, py_get, py_get_d. cbn [bind].
  destruct (lookup "specVersion" d) as [v|]; [|discriminate].
  destruct (truthy v); cbn [negb]; [|discriminate].
  destruct (eq_str v "1.6") eqn:E; cbn [negb]; [|discriminate].
  intros [= <-]. apply eq_str_true in E. subst. split; reflexivity.
Qed.

Lemma validate_metadata_ok (d : list (string * json)) (e : list string) :
  validate_metadata (JDict d) = Ok (true, e) ->
  (exists md, lookup "metadata" d = Some (JDict md)
              /\ truthy (tools_of md) = true
              /\ has_key "timestamp" md = true)
  /\ e = [].
Proof.
  unfold validate_metadata, py_get_d. cbn [bind].
  destruct (lookup "metadata" d) as [v|]; [|discriminate].
  destruct (truthy v); cbn [negb]; [|discriminate].
  destruct v as [| | | | | |md]; try discriminate.
  cbn [bind py_in]. fold (tools_of md).
  destruct (truthy (tools_of md)) eqn:Ht; destruct (has_key "timestamp" md) eqn:Hk;
    cbn; try discriminate.
  intros [= <-]. split; [|reflexivity]. exists md. repeat split; assumption.
Qed.

Lemma validate_component_properties_ok (components : json) (msgs : list string) :
  validate_component_properties components = Ok (true, msgs) ->
  Forall warning_text msgs.
Proof.
  unfold validate_component_properties. intros H.
  destruct (py_iter components) as [items|x]; cbn [bind] in H; try discriminate.
  destruct (check_components 0 items ([], [])) as [[errors warnings]|x] eqn:Hc;
    cbn [bind] in H; try discriminate.
  injection H as Hlen <-.
  destruct errors; [|discriminate Hlen]. cbn [app].
  destruct (check_components_messages _ _ _ _ _ _ Hc) as [_ Hw].
  apply Forall_forall. intros w Hin. destruct (Hw w Hin) as [[]|Hw']. exact Hw'.
Qed.

(** X10. A document the schema checker accepts has [bomFormat] equal to
    "CycloneDX" and [specVersion] equal to "1.6", a metadata object with a
    truthy [tools] and a [timestamp] key, and every message returned with the
    ok verdict is a legacy-[crypto] warning. *)
Theorem accepted_document_shape (d : list (string * json)) (msgs : list string) :
  validate_cbom_16 (JDict d) = Ok (true, msgs) ->
  lookup "bomFormat" d = Some (JStr "CycloneDX")
  /\ lookup "specVersion" d = Some (JStr "1.6")
  /\ (exists md, lookup "metadata" d = Some (JDict md)
                 /\ truthy (tools_of md) = true
                 /\ has_key "timestamp" md = true)
  /\ Forall warning_text msgs.
Proof.
  unfold validate_cbom_16. intros H.
  destruct (validate_bom_format (JDict d)) as [[ok1 e1]|x] eqn:H1; cbn [bind] in H;
    try discriminate.
  destruct (validate_spec_version (JDict d)) as [[ok2 e2]|x] eqn:H2; cbn [bind] in H;
    try discriminate.
  destruct (validate_metadata (JDict d)) as [[ok3 e3]|x] eqn:H3; cbn [bind] in H;
    try discriminate.
  destruct (py_get_d (JDict d) "components" (JList [])) as [comps|x]; cbn [bind] in H;
    try discriminate.
  assert (Hall : ok1 = true /\ ok2 = true /\ ok3 = true
                 /\ exists e4, msgs = (((e1 ++ e2) ++ e3) ++ e4)%list
                               /\ Forall warning_text e4).
  { destruct (truthy comps).
    - destruct (validate_component_properties comps) as [[ok4 e4]|x] eqn:H4;
        cbn [bind] in H; try discriminate.
      injection H as Hok <-.
      destruct ok1, ok2, ok3, ok4; try discriminate Hok.
      repeat split. exists e4. split; [reflexivity|].
      exact (validate_component_properties_ok _ _ H4).
    - injection H as Hok <-.
      destruct ok1, ok2, ok3; try discriminate Hok.
      repeat split. exists []. split; [rewrite List.app_nil_r; reflexivity|constructor]. }
  destruct Hall as (-> & -> & -> & e4 & -> & Hw).
  destruct (validate_bom_format_ok _ _ H1) as [Hb ->].
  destruct (validate_spec_version_ok _ _ H2) as [Hv ->].
  destruct (validate_metadata_ok _ _ H3) as [Hm ->].
  repeat split; assumption.
Qed.

Lemma accepted_document_shape_witness :
  validate_cbom_16 DriverFacts.doc_legacy_crypto
  = Ok (true, ["Component 0 (libssl) has .crypto field (should use .properties in 1.6)"])
  /\ Forall warning_text
       ["Component 0 (libssl) has .crypto field (should use .properties in 1.6)"].
Proof.
  split; [reflexivity|].
  apply (accepted_document_shape
           [("bomFormat", JStr "CycloneDX"); ("specVersion", JStr "1.6");
            ("metadata", DriverFacts.metadata_sample);
            ("components",
             JList [JDict [("name", JStr "libssl");
                           ("crypto", JDict [("algorithm", JStr "RSA")])]])]).
  reflexivity.
Defined.

(** *** The verdict on the components *)

(** The component has a [crypto] key. *)
Definition has_crypto (component : json) : bool :=
  match component with
  | JDict cd => has_key "crypto" cd
  | _ => false
  end.

(** [properties] is present and is not an array (null counts). *)
Definition bad_properties (component : json) : bool :=
  match component with
  | JDict cd => match lookup "properties" cd with
                | None | Some (JList _) => false
                | Some _ => true
                end
  | _ => false
  end.

(** Nothing to report on the component: [properties] absent or an array, and
    no "cbom:"-named property without [value]. *)
Definition clean (component : json) : bool :=
  (negb (bad_properties component)
   && forallb (fun p => negb (flagged p)) (props_of component))%bool.

Lemma no_flagged_length (ps : list json) :
  List.length (filter flagged ps) = 0%nat <-> forallb (fun p => negb (flagged p)) ps = true.
Proof.
  induction ps as [|p ps IH]; [split; reflexivity|].
  cbn [filter forallb]. destruct (flagged p); cbn [negb andb List.length].
  - split; discriminate.
  - exact IH.
Qed.

Lemma component_errors_nil (idx : nat) (component : json) :
  component_errors idx component = [] <-> clean component = true.
Proof.
  unfold clean. destruct component as [| | | | | |cd];
    cbn [component_errors bad_properties props_of negb andb forallb];
    try (split; reflexivity).
  destruct (lookup "properties" cd) as [[| | | | |ps|]|];
    cbn [negb andb forallb]; try (split; [discriminate|discriminate]);
    try (split; reflexivity).
  rewrite <- no_flagged_length.
  destruct (List.length (filter flagged ps)); cbn [repeat]; split;
    try reflexivity; discriminate.
Qed.

Lemma all_errors_nil (components : list json) :
  forall idx, all_errors idx components = [] <-> forallb clean components = true.
Proof.
  induction components as [|c rest IH]; intros idx; [split; reflexivity|].
  cbn [all_errors forallb]. rewrite andb_true_iff, <- (IH (S idx)),
    <- (component_errors_nil idx c).
  split.
  - intros E. apply app_eq_nil in E. exact E.
  - intros [-> ->]. reflexivity.
Qed.

Lemma all_errors_text (components : list json) :
  forall (idx : nat) (e : string), In e (all_errors idx components) -> error_text e.
Proof.
  induction components as [|c rest IH]; intros idx e Hin; [destruct Hin|].
  cbn [all_errors] in Hin. apply in_app_or in Hin. destruct Hin as [Hin|Hin];
    [|exact (IH _ _ Hin)].
  destruct c as [| | | | | |cd]; try destruct Hin. cbn [component_errors] in Hin.
  assert (Hone : In e [msg_not_array idx] -> error_text e)
    by (intros [<-|[]]; exists idx; right; reflexivity).
  destruct (lookup "properties" cd) as [[| | | | |ps|]|]; try exact (Hone Hin);
    [|destruct Hin].
  apply repeat_spec in Hin. subst. exists idx. left; reflexivity.
Qed.

Lemma all_warnings_length (components : list json) :
  forall idx,
    List.length (all_warnings idx components) = List.length (filter has_crypto components).
Proof.
  induction components as [|c rest IH]; intros idx; [reflexivity|].
  cbn [all_warnings filter]. rewrite length_app, (IH (S idx)).
  destruct c as [| | | | | |cd]; cbn [component_warnings has_crypto]; try reflexivity.
  destruct (has_key "crypto" cd); reflexivity.
Qed.

(** The run over component objects, as errors then warnings. *)
Lemma components_run (components : list json) :
  forallb component_object components = true ->
  exists errors warnings : list string,
    validate_component_properties (JList components)
    = Ok (forallb clean components, (errors ++ warnings)%list)
    /\ Forall error_text errors
    /\ Forall warning_text warnings
    /\ List.length warnings = List.length (filter has_crypto components)
    /\ (errors = [] <-> forallb clean components = true).
Proof.
  intros Hok. exists (all_errors 0 components), (all_warnings 0 components).
  split; [|split; [|split; [|split]]].
  - unfold validate_component_properties. cbn [py_iter bind].
    rewrite (check_component_objects components Hok 0 [] []). cbn [bind app].
    f_equal. f_equal.
    destruct (forallb clean components) eqn:Hc.
    + apply (all_errors_nil components 0) in Hc. rewrite Hc. reflexivity.
    + destruct (all_errors 0 components) eqn:He; [|reflexivity].
      apply (all_errors_nil components 0) in He. congruence.
  - apply Forall_forall. intros e. apply all_errors_text.
  - apply Forall_forall. intros w. apply all_warnings_text.
  - apply all_warnings_length.
  - apply all_errors_nil.
Qed.

(** X11. On components that are objects with property objects, the check on
    the components is ok exactly when every component has [properties] absent
    or an array and no "cbom:"-named property without [value] (the name after
    the prefix is not looked at).  What it returns is the errors followed by
    the warnings, one warning per component that has a [crypto] key. *)
Theorem components_verdict (components : list json) :
  forallb component_object components = true ->
  exists errors warnings : list string,
    validate_component_properties (JList components)
    = Ok (forallb clean components, (errors ++ warnings)%list)
    /\ Forall error_text errors
    /\ Forall warning_text warnings
    /\ List.length warnings = List.length (filter has_crypto components)
    /\ (errors = [] <-> forallb clean components = true).
Proof.
  exact (components_run components).
Qed.

Lemma components_verdict_witness :
  exists errors warnings : list string,
    validate_component_properties (JList components_sample)
    = Ok (false, (errors ++ warnings)%list)
    /\ List.length warnings = 1%nat
    /\ Forall warning_text warnings.
Proof.
  destruct (components_verdict components_sample eq_refl)
    as (errors & warnings & Hrun & _ & Hw & Hlen & _).
  exists errors, warnings. split; [exact Hrun|]. split; [exact Hlen|exact Hw].
Defined.

(** X12. A document with the two header literals, a metadata object with a
    truthy [tools] and a [timestamp] key, and components that are absent or an
    array of component objects with nothing to report, is accepted; the
    messages returned with the verdict are the legacy-[crypto] warnings, one
    per component that has the key. *)
Theorem conforming_document_accepted
  (d md : list (string * json)) (components : list json) :
  lookup "bomFormat" d = Some (JStr "CycloneDX") ->
  lookup "specVersion" d = Some (JStr "1.6") ->
  lookup "metadata" d = Some (JDict md) ->
  truthy (tools_of md) = true ->
  has_key "timestamp" md = true ->
  (lookup "components" d = None /\ components = []
   \/ lookup "components" d = Some (JList components)) ->
  forallb component_object components = true ->
  forallb clean components = true ->
  exists warnings : list string,
    validate_cbom_16 (JDict d) = Ok (true, warnings)
    /\ Forall warning_text warnings
    /\ List.length warnings = List.length (filter has_crypto components).
Proof.
  intros Hb Hv Hm Ht Hk Hc Hobj Hclean.
  destruct (components_run components Hobj)
    as (errors & warnings & Hrun & _ & Hw & Hlen & Hnil).
  rewrite Hclean in Hrun. apply Hnil in Hclean. subst errors. cbn [app] in Hrun.
  assert (Hmd : truthy (JDict md) = true).
  { destruct md; [discriminate Hk|reflexivity]. }
  assert (H1 : validate_bom_format (JDict d) = Ok (true, [])).
  { unfold validate_bom_format, py_get, py_get_d. cbn [bind]. rewrite Hb. reflexivity. }
  assert (H2 : validate_spec_version (JDict d) = Ok (true, [])).
  { unfold validate_spec_version, py_get, py_get_d. cbn [bind]. rewrite Hv. reflexivity. }
  assert (H3 : validate_metadata (JDict d) = Ok (true, [])).
  { unfold validate_metadata, py_get_d. cbn [bind]. rewrite Hm, Hmd.
    cbn [negb bind py_in]. fold (tools_of md). rewrite Ht, Hk. reflexivity. }
  unfold validate_cbom_16. rewrite H1. cbn [bind]. rewrite H2. cbn [bind].
  rewrite H3.
  cbn [py_get_d bind fst snd andb app].
  destruct Hc as [[Hnone Hnil']|Hsome].
  - subst components. rewrite Hnone. exists []. repeat split. constructor.
  - rewrite Hsome. exists warnings. split; [|split; [exact Hw|exact Hlen]].
    destruct components as [|c rest].
    + cbn in Hrun. injection Hrun as <-. reflexivity.
    + cbn [truthy]. rewrite Hrun. reflexivity.
Qed.

Lemma conforming_document_accepted_witness :
  exists warnings : list string,
    validate_cbom_16 DriverFacts.doc_legacy_crypto = Ok (true, warnings)
    /\ List.length warnings = 1%nat.
Proof.
  destruct (conforming_document_accepted
              [("bomFormat", JStr "CycloneDX"); ("specVersion", JStr "1.6");
               ("metadata", DriverFacts.metadata_sample);
               ("components",
                JList [JDict [("name", JStr "libssl");
                              ("crypto", JDict [("algorithm", JStr "RSA")])]])]
              [("tools", JList [JDict [("name", JStr "x")]]);
               ("timestamp", JStr "2024-01-01T00:00:00Z")]
              [JDict [("name", JStr "libssl");
                      ("crypto", JDict [("algorithm", JStr "RSA")])]]
              eq_refl eq_refl eq_refl eq_refl eq_refl (or_intror eq_refl)
              eq_refl eq_refl) as (warnings & Hrun & _ & Hlen).
  exists warnings. split; [exact Hrun|exact Hlen].
Defined.

(** *** Properties that are not an array, components that are not an array *)

Lemma not_array_inj (i j : nat) : msg_not_array i = msg_not_array j -> i = j.
Proof.
  unfold msg_not_array. intros E.
  apply component_text_unique in E as [E _]; [exact E|reflexivity|reflexivity].
Qed.

Lemma count_component_not_array (i idx : nat) (component : json) :
  count_occ string_dec (component_errors i component) (msg_not_array idx)
  = if (Nat.eqb i idx && bad_properties component)%bool then 1%nat else 0%nat.
Proof.
  destruct component as [| | | | | |cd]; cbn [component_errors bad_properties];
    try (rewrite andb_false_r; reflexivity).
  assert (Hbad : count_occ string_dec [msg_not_array i] (msg_not_array idx)
                 = if (Nat.eqb i idx && true)%bool then 1%nat else 0%nat).
  { rewrite andb_true_r. destruct (Nat.eqb_spec i idx) as [->|Hne].
    - apply count_occ_cons_eq. reflexivity.
    - apply count_occ_cons_neq. intros E. apply not_array_inj in E. contradiction. }
  destruct (lookup "properties" cd) as [[| | | | |ps|]|]; try exact Hbad;
    rewrite andb_false_r; [|reflexivity].
  apply count_occ_repeat_neq. intros E. symmetry in E.
  exact (no_value_is_not_not_array _ _ E).
Qed.

Lemma count_all_not_array (idx : nat) (components : list json) :
  forall i : nat,
    count_occ string_dec (all_errors i components) (msg_not_array idx)
    = if (Nat.leb i idx && bad_properties (nth (idx - i) components JNull))%bool
      then 1%nat else 0%nat.
Proof.
  induction components as [|c rest IH]; intros i.
  - cbn [all_errors count_occ]. destruct (idx - i)%nat; rewrite andb_false_r; reflexivity.
  - cbn [all_errors]. rewrite count_occ_app, count_component_not_array, IH.
    destruct (Nat.eqb_spec i idx) as [->|Hne].
    + rewrite Nat.leb_refl, Nat.sub_diag.
      replace (Nat.leb (S idx) idx) with false
        by (symmetry; apply Nat.leb_gt; apply Nat.lt_succ_diag_r).
      cbn [nth andb]. apply Nat.add_0_r.
    + destruct (Nat.leb_spec i idx) as [Hle|Hgt].
      * replace (Nat.leb (S i) idx) with true
          by (symmetry; apply Nat.leb_le; lia).
        replace (idx - i)%nat with (S (idx - S i)) by lia. reflexivity.
      * replace (Nat.leb (S i) idx) with false
          by (symmetry; apply Nat.leb_gt; lia).
        reflexivity.
Qed.

(** X13. On components that are objects with property objects: a component
    whose [properties] is present and not an array (null included) gets the
    error "properties must be an array" exactly once and no error on a missing
    [value]; every other component gets no such error. *)
Theorem non_array_properties_reported_once (components : list json) :
  forallb component_object components = true ->
  exists (ok : bool) (msgs : list string),
    validate_component_properties (JList components) = Ok (ok, msgs)
    /\ (forall idx : nat,
          count_occ string_dec msgs (msg_not_array idx)
          = if bad_properties (nth idx components JNull) then 1%nat else 0%nat)
    /\ (forall idx : nat,
          bad_properties (nth idx components JNull) = true ->
          ~ In (msg_no_value idx) msgs).
Proof.
  intros Hok.
  unfold validate_component_properties. cbn [py_iter bind].
  rewrite (check_component_objects components Hok 0 [] []). cbn [bind app].
  eexists _, _. split; [reflexivity|].
  assert (Hw : forall (idx : nat) (tail : string),
            count_occ string_dec (all_warnings 0 components)
              ("Component " ++ str_of_nat idx ++ String ":" tail) = 0%nat).
  { intros idx tail. apply count_occ_not_In. intros Hin.
    destruct (all_warnings_text _ _ _ Hin) as (j & name & E).
    symmetry in E. exact (crypto_is_not_an_error _ _ _ _ E). }
  split; intros idx.
  - rewrite count_occ_app, count_all_not_array.
    unfold msg_not_array. rewrite Hw.
    cbn [Nat.leb andb]. rewrite Nat.sub_0_r. apply Nat.add_0_r.
  - intros Hbad. apply (count_occ_not_In string_dec).
    rewrite count_occ_app, count_all_errors.
    unfold msg_no_value. rewrite Hw.
    cbn [Nat.leb]. rewrite Nat.sub_0_r, Nat.add_0_r.
    destruct (nth idx components JNull) as [| | | | | |cd]; try discriminate Hbad.
    cbn [bad_properties props_of] in *.
    destruct (lookup "properties" cd) as [[| | | | |ps|]|]; try reflexivity;
      discriminate Hbad.
Qed.

Lemma non_array_properties_reported_once_witness :
  exists (ok : bool) (msgs : list string),
    validate_component_properties
      (JList [JDict [("properties", JNull)]; JDict [("properties", JList [])]])
    = Ok (ok, msgs)
    /\ count_occ string_dec msgs (msg_not_array 0) = 1%nat
    /\ count_occ string_dec msgs (msg_not_array 1) = 0%nat.
Proof.
  destruct (non_array_properties_reported_once
              [JDict [("properties", JNull)]; JDict [("properties", JList [])]] eq_refl)
    as (ok & msgs & Hrun & Hcount & _).
  exists ok, msgs. split; [exact Hrun|].
  split; [exact (Hcount 0%nat)|exact (Hcount 1%nat)].
Defined.

(** X14. When [components] is present, truthy and not an array, the schema
    checker raises instead of returning a verdict: [TypeError] on a number or
    [true] (not iterable), [AttributeError] on a non-empty object or text
    (each item walked is text, which has no [get]). *)
Theorem non_array_components_raise (d : list (string * json)) (v : json) :
  lookup "components" d = Some v ->
  truthy v = true ->
  is_list v = false ->
  (exists e, validate_component_properties v = Raise e)
  /\ (exists e, validate_cbom_16 (JDict d) = Raise e).
Proof.
  intros Hc Ht Hl.
  assert (Htext : forall (s : string) (rest : list json) st,
            check_components 0 (JStr s :: rest) st = Raise AttributeError).
  { intros s rest [errors warnings]. cbn [check_components check_component py_in bind].
    destruct (str_contains "crypto" s); reflexivity. }
  assert (Hcomp : exists e, validate_component_properties v = Raise e).
  { unfold validate_component_properties.
    destruct v as [|b|z|f t|s|l|cd]; try discriminate Hl; try discriminate Ht;
      cbn [py_iter bind]; try (eexists; reflexivity).
    - destruct s as [|c s]; [discriminate Ht|]. cbn [chars]. rewrite Htext.
      eexists; reflexivity.
    - destruct cd as [|[k x] cd]; [discriminate Ht|]. cbn [map fst]. rewrite Htext.
      eexists; reflexivity. }
  split; [exact Hcomp|]. destruct Hcomp as (e & He).
  unfold validate_cbom_16.
  destruct (validate_bom_format (JDict d)) as [[ok1 e1]|x]; cbn [bind];
    [|eexists; reflexivity].
  destruct (validate_spec_version (JDict d)) as [[ok2 e2]|x]; cbn [bind];
    [|eexists; reflexivity].
  destruct (validate_metadata (JDict d)) as [[ok3 e3]|x]; cbn [bind];
    [|eexists; reflexivity].
  cbn [py_get_d bind]. rewrite Hc, Ht, He. eexists; reflexivity.
Qed.

Lemma non_array_components_raise_witness :
  (exists e, validate_component_properties (JDict [("name", JStr "libssl")]) = Raise e)
  /\ (exists e, validate_cbom_16
                  (JDict [("components", JDict [("name", JStr "libssl")])]) = Raise e).
Proof.
  apply (non_array_components_raise
           [("components", JDict [("name", JStr "libssl")])]
           (JDict [("name", JStr "libssl")])); reflexivity.
Defined.

End SchemaFacts.

(* ================================================================= *)
(** ** Batches of files *)

Module BatchFacts.
Import Py.

(** The status of a run that went through: 1 as soon as one part failed. *)
Definition worst (st1 st2 : Z) : Z := if Z.eqb st1 0 then st2 else 1.

(** *** [validate_cbom.py] *)

(** The loop from any state, in terms of the loop from the start. *)
Lemma cbom_report_from (files : list (string * Cbom.loaded)) :
  forall (all_ok : bool) (out : list string),
    Cbom.report files all_ok out
    = ((out ++ fst (Cbom.report files true []))%list,
       match snd (Cbom.report files true []) with
       | Ok st => Ok (if all_ok then st else 1)
       | Raise e => Raise e
       end).
Proof.
  induction files as [|[path [why|doc]] rest IH]; intros all_ok out.
  - cbn. rewrite List.app_nil_r. reflexivity.
  - cbn [Cbom.report]. rewrite (IH false (Cbom.append out _)), (IH false (Cbom.append [] _)).
    cbn [fst snd]. unfold Cbom.append. cbn [app]. rewrite <- List.app_assoc.
    f_equal. destruct (snd (Cbom.report rest true [])); [|reflexivity].
    destruct all_ok; reflexivity.
  - cbn [Cbom.report]. destruct (Cbom.compare_summary doc) as [[[|] errors]|e].
    + rewrite (IH all_ok (Cbom.append out _)), (IH true (Cbom.append [] _)).
      cbn [fst snd]. unfold Cbom.append. cbn [app]. rewrite <- List.app_assoc.
      f_equal. destruct (snd (Cbom.report rest true [])); reflexivity.
    + rewrite (IH false (List.app (Cbom.append out _) _)),
        (IH false (List.app (Cbom.append [] _) _)).
      cbn [fst snd]. unfold Cbom.append. cbn [app]. rewrite <- !List.app_assoc.
      f_equal. destruct (snd (Cbom.report rest true [])); [|reflexivity].
      destruct all_ok; reflexivity.
    + cbn [fst snd]. rewrite List.app_nil_r. reflexivity.
Qed.

Lemma cbom_report_app (files1 files2 : list (string * Cbom.loaded)) :
  forall (all_ok : bool) (out : list string),
    Cbom.report (files1 ++ files2) all_ok out
    = match snd (Cbom.report files1 all_ok out) with
      | Ok st => Cbom.report files2 (Z.eqb st 0) (fst (Cbom.report files1 all_ok out))
      | Raise e => Cbom.report files1 all_ok out
      end.
Proof.
  induction files1 as [|[path [why|doc]] rest IH]; intros all_ok out.
  - cbn. destruct all_ok; reflexivity.
  - cbn [app Cbom.report]. apply IH.
  - cbn [app Cbom.report]. destruct (Cbom.compare_summary doc) as [[[|] errors]|e];
      [apply IH|apply IH|reflexivity].
Qed.

(** X15. Files are reported one after the other and independently: when the
    run over a first list of files goes through, the run over that list
    followed by a second one prints the lines of the first run and then those
    of the second, and exits with 0 only if both would; when the first run
    ends in an exception, nothing of the second list is printed. *)
Theorem cbom_batch_composes (files1 files2 : list (string * Cbom.loaded)) :
  (forall st1, snd (Cbom.main files1) = Ok st1 ->
     fst (Cbom.main (files1 ++ files2))
     = (fst (Cbom.main files1) ++ fst (Cbom.main files2))%list
     /\ snd (Cbom.main (files1 ++ files2))
        = match snd (Cbom.main files2) with
          | Ok st2 => Ok (worst st1 st2)
          | Raise e => Raise e
          end)
  /\ (forall e, snd (Cbom.main files1) = Raise e ->
        Cbom.main (files1 ++ files2) = Cbom.main files1).
Proof.
  unfold Cbom.main. split.
  - intros st1 H1. rewrite cbom_report_app, H1.
    rewrite (cbom_report_from files2 (Z.eqb st1 0)). cbn [fst snd].
    split; [reflexivity|]. unfold worst.
    destruct (snd (Cbom.report files2 true [])); reflexivity.
  - intros e H1. rewrite cbom_report_app, H1. reflexivity.
Qed.

Lemma cbom_batch_composes_witness :
  fst (Cbom.main [("a.json", Cbom.Unreadable "Expecting value");
                  ("b.json", Cbom.Loaded (JDict []))])
  = ["[FAIL] a.json: invalid JSON: Expecting value";
     "[OK] b.json: summary matches findings"]
  /\ snd (Cbom.main [("a.json", Cbom.Unreadable "Expecting value");
                     ("b.json", Cbom.Loaded (JDict []))])
     = Ok 1.
Proof.
  destruct (cbom_batch_composes
              [("a.json", Cbom.Unreadable "Expecting value")]
              [("b.json", Cbom.Loaded (JDict []))]) as [H _].
  destruct (H 1 eq_refl) as [Hout Hst].
  split; [exact Hout|exact Hst].
Defined.

(** A file that loads and whose summary matches. *)
Definition cbom_passes (file : string * Cbom.loaded) : Prop :=
  exists doc errors,
    snd file = Cbom.Loaded doc /\ Cbom.compare_summary doc = Ok (true, errors).

(** X16. When the run goes through, the exit status is 0 or 1, and it is 0
    exactly when every file loaded and had its summary match; one unreadable
    or mismatching file makes it 1 wherever it stands in the list. *)
Theorem cbom_exit_status (files : list (string * Cbom.loaded)) (st : Z) :
  snd (Cbom.main files) = Ok st ->
  (st = 0 \/ st = 1) /\ (st = 0 <-> Forall cbom_passes files).
Proof.
  unfold Cbom.main. revert st.
  induction files as [|[path [why|doc]] rest IH]; intros st H.
  - injection H as <-. split; [left; reflexivity|]. split; [constructor|reflexivity].
  - cbn [Cbom.report] in H. rewrite cbom_report_from in H. cbn [snd] in H.
    destruct (snd (Cbom.report rest true [])); [|discriminate].
    injection H as <-. split; [right; reflexivity|]. split; [discriminate|].
    intros HF. inversion HF as [|? ? (doc & errs & Hl & _) _]. discriminate Hl.
  - cbn [Cbom.report] in H.
    destruct (Cbom.compare_summary doc) as [[[|] errors]|e] eqn:Hc.
    + rewrite cbom_report_from in H. cbn [snd] in H.
      destruct (snd (Cbom.report rest true [])) as [st'|]; [|discriminate].
      injection H as <-. destruct (IH st' eq_refl) as [H01 Hiff].
      split; [exact H01|]. rewrite Hiff. split.
      * intros HF. constructor; [|exact HF]. exists doc, errors. split; [reflexivity|exact Hc].
      * intros HF. inversion HF; assumption.
    + rewrite cbom_report_from in H. cbn [snd] in H.
      destruct (snd (Cbom.report rest true [])); [|discriminate].
      injection H as <-. split; [right; reflexivity|]. split; [discriminate|].
      intros HF. inversion HF as [|? ? (doc' & errs & Hl & Hc') _].
      cbn [snd] in Hl. injection Hl as <-. rewrite Hc in Hc'. discriminate Hc'.
    + discriminate H.
Qed.

Lemma cbom_exit_status_witness :
  snd (Cbom.main [("a.json", Cbom.Loaded (JDict []));
                  ("b.json", Cbom.Loaded (JDict [("findings", JStr "none")]))])
  = Ok 1
  /\ (1 = 0 <-> Forall cbom_passes
                  [("a.json", Cbom.Loaded (JDict []));
                   ("b.json", Cbom.Loaded (JDict [("findings", JStr "none")]))]).
Proof.
  split; [reflexivity|].
  apply (cbom_exit_status
           [("a.json", Cbom.Loaded (JDict []));
            ("b.json", Cbom.Loaded (JDict [("findings", JStr "none")]))] 1).
  reflexivity.
Defined.

(** *** [validate_cdx16_schema.py] *)

(** The line printed for one message under [FAIL]. *)
Definition message_line (strict : bool) (msg : string) : string :=
  if Cdx16.looks_like_warning msg
  then "  " ++ (if negb strict then "[WARN]" else "[ERROR]") ++ " " ++ msg
  else "  [ERROR] " ++ msg.

Lemma print_messages_lines (strict : bool) (messages : list string) :
  forall out,
    Cdx16.print_messages strict messages false out
    = (false, (out ++ map (message_line strict) messages)%list).
Proof.
  induction messages as [|msg rest IH]; intros out.
  - cbn. rewrite List.app_nil_r. reflexivity.
  - cbn [Cdx16.print_messages map].
    assert (L : message_line strict msg
                = if Cdx16.looks_like_warning msg
                  then ("  " ++ (if negb strict then "[WARN]" else "[ERROR]") ++ " " ++ msg)%string
                  else ("  [ERROR] " ++ msg)%string) by reflexivity.
    rewrite L. destruct (Cdx16.looks_like_warning msg).
    + replace (if strict then false else false) with false by (destruct strict; reflexivity).
      rewrite IH. unfold Cdx16.append. rewrite <- List.app_assoc. reflexivity.
    + rewrite IH. unfold Cdx16.append. rewrite <- List.app_assoc. reflexivity.
Qed.

Lemma cdx_report_from (strict : bool) (files : list (string * Cdx16.loaded)) :
  forall (all_ok : bool) (out : list string),
    Cdx16.report strict files all_ok out
    = ((out ++ fst (Cdx16.report strict files true []))%list,
       match snd (Cdx16.report strict files true []) with
       | Ok st => Ok (if all_ok then st else 1)
       | Raise e => Raise e
       end).
Proof.
  induction files as [|[path [why|doc]] rest IH]; intros all_ok out.
  - cbn. rewrite List.app_nil_r. reflexivity.
  - cbn [Cdx16.report]. rewrite (IH false (Cdx16.append out _)), (IH false (Cdx16.append [] _)).
    cbn [fst snd]. unfold Cdx16.append. cbn [app]. rewrite <- List.app_assoc.
    f_equal. destruct (snd (Cdx16.report strict rest true [])); [|reflexivity].
    destruct all_ok; reflexivity.
  - cbn [Cdx16.report]. destruct (Cdx16.validate_cbom_16 doc) as [[[|] messages]|e].
    + rewrite (IH all_ok (Cdx16.append out _)), (IH true (Cdx16.append [] _)).
      cbn [fst snd]. unfold Cdx16.append. cbn [app]. rewrite <- List.app_assoc.
      f_equal. destruct (snd (Cdx16.report strict rest true [])); reflexivity.
    + rewrite !print_messages_lines.
      rewrite (IH false (List.app (Cdx16.append out _) _)),
        (IH false (List.app (Cdx16.append [] _) _)).
      cbn [fst snd]. unfold Cdx16.append. cbn [app]. rewrite <- !List.app_assoc.
      f_equal. destruct (snd (Cdx16.report strict rest true [])); [|reflexivity].
      destruct all_ok; reflexivity.
    + cbn [fst snd]. rewrite List.app_nil_r. reflexivity.
Qed.

Lemma cdx_report_app (strict : bool) (files1 files2 : list (string * Cdx16.loaded)) :
  forall (all_ok : bool) (out : list string),
    Cdx16.report strict (files1 ++ files2) all_ok out
    = match snd (Cdx16.report strict files1 all_ok out) with
      | Ok st => Cdx16.report strict files2 (Z.eqb st 0)
                   (fst (Cdx16.report strict files1 all_ok out))
      | Raise e => Cdx16.report strict files1 all_ok out
      end.
Proof.
  induction files1 as [|[path [why|doc]] rest IH]; intros all_ok out.
  - cbn. destruct all_ok; reflexivity.
  - cbn [app Cdx16.report]. apply IH.
  - cbn [app Cdx16.report]. destruct (Cdx16.validate_cbom_16 doc) as [[[|] messages]|e];
      [apply IH| |reflexivity].
    destruct (Cdx16.print_messages strict messages false _). apply IH.
Qed.

(** X17. The schema checker's run over a list of files followed by another
    prints the lines of the first run and then those of the second, and exits
    with 0 only if both would; when the first run ends in an exception,
    nothing of the second list is printed.  This holds with and without
    [--strict]. *)
Theorem cdx_batch_composes (strict : bool) (files1 files2 : list (string * Cdx16.loaded)) :
  (forall st1, snd (Cdx16.main strict files1) = Ok st1 ->
     fst (Cdx16.main strict (files1 ++ files2))
     = (fst (Cdx16.main strict files1) ++ fst (Cdx16.main strict files2))%list
     /\ snd (Cdx16.main strict (files1 ++ files2))
        = match snd (Cdx16.main strict files2) with
          | Ok st2 => Ok (worst st1 st2)
          | Raise e => Raise e
          end)
  /\ (forall e, snd (Cdx16.main strict files1) = Raise e ->
        Cdx16.main strict (files1 ++ files2) = Cdx16.main strict files1).
Proof.
  unfold Cdx16.main. split.
  - intros st1 H1. rewrite cdx_report_app, H1.
    rewrite (cdx_report_from strict files2 (Z.eqb st1 0)). cbn [fst snd].
    split; [reflexivity|]. unfold worst.
    destruct (snd (Cdx16.report strict files2 true [])); reflexivity.
  - intros e H1. rewrite cdx_report_app, H1. reflexivity.
Qed.

Lemma cdx_batch_composes_witness :
  fst (Cdx16.main true [("a.json", Cdx16.Unreadable "Expecting value");
                        ("b.json", Cdx16.Loaded (DriverFacts.cdx_doc []))])
  = ["[FAIL] a.json: Invalid JSON: Expecting value";
     "[OK] b.json: Valid CycloneDX 1.6 CBOM"]
  /\ snd (Cdx16.main true [("a.json", Cdx16.Unreadable "Expecting value");
                           ("b.json", Cdx16.Loaded (DriverFacts.cdx_doc []))])
     = Ok 1.
Proof.
  destruct (cdx_batch_composes true
              [("a.json", Cdx16.Unreadable "Expecting value")]
              [("b.json", Cdx16.Loaded (DriverFacts.cdx_doc []))]) as [H _].
  destruct (H 1 eq_refl) as [Hout Hst].
  split; [exact Hout|exact Hst].
Defined.

(** A file that loads and that the schema check finds ok. *)
Definition cdx_passes (file : string * Cdx16.loaded) : Prop :=
  exists doc messages,
    snd file = Cdx16.Loaded doc /\ Cdx16.validate_cbom_16 doc = Ok (true, messages).

(** X18. When the schema checker's run goes through, the exit status is 0 or
    1, and it is 0 exactly when every file loaded and was found ok by
    [validate_cbom_16], warnings or not, with and without [--strict]. *)
Theorem cdx_exit_status (strict : bool) (files : list (string * Cdx16.loaded)) (st : Z) :
  snd (Cdx16.main strict files) = Ok st ->
  (st = 0 \/ st = 1) /\ (st = 0 <-> Forall cdx_passes files).
Proof.
  unfold Cdx16.main. revert st.
  induction files as [|[path [why|doc]] rest IH]; intros st H.
  - injection H as <-. split; [left; reflexivity|]. split; [constructor|reflexivity].
  - cbn [Cdx16.report] in H. rewrite cdx_report_from in H. cbn [snd] in H.
    destruct (snd (Cdx16.report strict rest true [])); [|discriminate].
    injection H as <-. split; [right; reflexivity|]. split; [discriminate|].
    intros HF. inversion HF as [|? ? (doc & msgs & Hl & _) _]. discriminate Hl.
  - cbn [Cdx16.report] in H.
    destruct (Cdx16.validate_cbom_16 doc) as [[[|] messages]|e] eqn:Hc.
    + rewrite cdx_report_from in H. cbn [snd] in H.
      destruct (snd (Cdx16.report strict rest true [])) as [st'|]; [|discriminate].
      injection H as <-. destruct (IH st' eq_refl) as [H01 Hiff].
      split; [exact H01|]. rewrite Hiff. split.
      * intros HF. constructor; [|exact HF].
        exists doc, messages. split; [reflexivity|exact Hc].
      * intros HF. inversion HF; assumption.
    + rewrite print_messages_lines, cdx_report_from in H. cbn [snd] in H.
      destruct (snd (Cdx16.report strict rest true [])); [|discriminate].
      injection H as <-. split; [right; reflexivity|]. split; [discriminate|].
      intros HF. inversion HF as [|? ? (doc' & msgs & Hl & Hc') _].
      cbn [snd] in Hl. injection Hl as <-. rewrite Hc in Hc'. discriminate Hc'.
    + discriminate H.
Qed.

Lemma cdx_exit_status_witness :
  snd (Cdx16.main true [("a.json", Cdx16.Loaded DriverFacts.doc_legacy_crypto);
                        ("b.json", Cdx16.Loaded (JDict []))])
  = Ok 1
  /\ (1 = 0 <-> Forall cdx_passes
                  [("a.json", Cdx16.Loaded DriverFacts.doc_legacy_crypto);
                   ("b.json", Cdx16.Loaded (JDict []))]).
Proof.
  split; [reflexivity|].
  apply (cdx_exit_status true
           [("a.json", Cdx16.Loaded DriverFacts.doc_legacy_crypto);
            ("b.json", Cdx16.Loaded (JDict []))] 1).
  reflexivity.
Defined.

(** X19. A file the schema check fails is printed as the [FAIL] line followed
    by one line per message, in the order returned, and the run exits with 1.
    With [--strict] every message line opens with "  [ERROR] "; without it a
    line opens with "  [WARN] " exactly when the message, lowercased, has
    "warning" or "should" in it. *)
Theorem failed_file_report
  (strict : bool) (path : string) (doc : json) (messages : list string) :
  Cdx16.validate_cbom_16 doc = Ok (false, messages) ->
  Cdx16.main strict [(path, Cdx16.Loaded doc)]
  = ((("[FAIL] " ++ path ++ ":")%string :: map (message_line strict) messages), Ok 1)
  /\ (forall msg, String.prefix "  [ERROR] " (message_line true msg) = true)
  /\ (forall msg, String.prefix "  [WARN] " (message_line false msg)
                  = Cdx16.looks_like_warning msg).
Proof.
  intros H. split; [|split].
  - unfold Cdx16.main. cbn [Cdx16.report]. rewrite H, print_messages_lines. reflexivity.
  - intros msg. unfold message_line.
    destruct (Cdx16.looks_like_warning msg);
      exact (TextFacts.prefix_append "  [ERROR] " msg).
  - intros msg. unfold message_line.
    destruct (Cdx16.looks_like_warning msg); [|reflexivity].
    exact (TextFacts.prefix_append "  [WARN] " msg).
Qed.

Lemma failed_file_report_witness :
  Cdx16.main false [("a.json", Cdx16.Loaded (JDict []))]
  = (("[FAIL] a.json:"
      :: map (message_line false)
           ["Missing required field: bomFormat"; "Missing required field: specVersion";
            "Missing metadata section"]), Ok 1).
Proof.
  apply (failed_file_report false "a.json" (JDict [])
           ["Missing required field: bomFormat"; "Missing required field: specVersion";
            "Missing metadata section"]).
  reflexivity.
Defined.

End BatchFacts.

(* ================================================================= *)
(** ** Errors that are printed as warnings *)

Module ClassificationFacts.
Import Py Cdx16 TextFacts HeaderFacts BatchFacts.

Lemma map_string_append (f : ascii -> ascii) (a b : string) :
  map_string f (a ++ b) = map_string f a ++ map_string f b.
Proof.
  induction a as [|c a IH]; [reflexivity|]. cbn. rewrite IH. reflexivity.
Qed.

Lemma prefix_contains (sub s : string) :
  String.prefix sub s = true -> str_contains sub s = true.
Proof.
  intros H. destruct s; cbn [str_contains]; rewrite H; reflexivity.
Qed.

Lemma prefix_app_r (sub : string) :
  forall s t, String.prefix sub s = true -> String.prefix sub (s ++ t) = true.
Proof.
  induction sub as [|a sub IH]; intros s t H.
  - destruct (s ++ t); reflexivity.
  - destruct s as [|b s]; [discriminate H|].
    cbn in H |- *. destruct (ascii_dec a b); [exact (IH _ _ H)|discriminate H].
Qed.

Lemma str_contains_app_r (sub s t : string) :
  str_contains sub s = true -> str_contains sub (s ++ t) = true.
Proof.
  induction s as [|c s IH]; intros H.
  - cbn [str_contains] in H. rewrite orb_false_r in H.
    apply prefix_contains. exact (prefix_app_r sub "" t H).
  - cbn [str_contains] in H. apply orb_true_iff in H.
    change (String c s ++ t) with (String c (s ++ t)). cbn [str_contains].
    apply orb_true_iff. destruct H as [H|H].
    + left. exact (prefix_app_r sub (String c s) t H).
    + right. exact (IH H).
Qed.

Lemma str_contains_app_l (sub a s : string) :
  str_contains sub s = true -> str_contains sub (a ++ s) = true.
Proof.
  intros H. induction a as [|c a IH]; [exact H|].
  change (String c a ++ s) with (String c (a ++ s)). cbn [str_contains].
  rewrite IH. apply orb_true_r.
Qed.

(** A message that carries, anywhere in it, text reading "warning" or
    "should" in any letter case is taken for a warning. *)
Lemma embedded_text_looks_like_warning (before text after : string) :
  (str_contains "warning" (lower text) || str_contains "should" (lower text))%bool = true ->
  looks_like_warning (before ++ text ++ after) = true.
Proof.
  unfold looks_like_warning, lower. rewrite !map_string_append.
  intros H. apply orb_true_iff in H. apply orb_true_iff.
  destruct H as [H|H]; [left|right];
    apply str_contains_app_l, str_contains_app_r; exact H.
Qed.

(** X20. The warning test reads the whole message, the offending value
    included: when [bomFormat] (or [specVersion]) is a truthy value whose text
    has "warning" or "should" in it, in any letter case, the error reported
    for the field is taken for a warning, and without [--strict] it is printed
    under "  [WARN] ". *)
Theorem header_error_printed_as_warning (d : list (string * json)) (v : json) :
  truthy v = true ->
  (str_contains "warning" (lower (str v)) || str_contains "should" (lower (str v)))%bool
  = true ->
  (lookup "bomFormat" d = Some v ->
   exists e, validate_bom_format (JDict d) = Ok (false, [e])
             /\ looks_like_warning e = true
             /\ message_line false e = "  [WARN] " ++ e)
  /\ (lookup "specVersion" d = Some v ->
      exists e, validate_spec_version (JDict d) = Ok (false, [e])
                /\ looks_like_warning e = true
                /\ message_line false e = "  [WARN] " ++ e).
Proof.
  intros Ht Hw.
  assert (Hne : forall literal,
            (str_contains "warning" (lower literal)
             || str_contains "should" (lower literal))%bool = false ->
            eq_str v literal = false).
  { intros literal Hl. destruct (eq_str v literal) eqn:E; [|reflexivity].
    apply SchemaFacts.eq_str_true in E. subst v. cbn [str] in Hw. congruence. }
  split; intros Hv.
  - exists ("Expected bomFormat 'CycloneDX', got '" ++ str v ++ "'").
    assert (Hl := embedded_text_looks_like_warning
                    "Expected bomFormat 'CycloneDX', got '" (str v) "'" Hw).
    split; [|split; [exact Hl|unfold message_line; rewrite Hl; reflexivity]].
    unfold validate_bom_format, py_get, py_get_d. cbn [bind].
    rewrite Hv, Ht, (Hne "CycloneDX" eq_refl). reflexivity.
  - exists ("Expected specVersion '1.6', got '" ++ str v ++ "'").
    assert (Hl := embedded_text_looks_like_warning
                    "Expected specVersion '1.6', got '" (str v) "'" Hw).
    split; [|split; [exact Hl|unfold message_line; rewrite Hl; reflexivity]].
    unfold validate_spec_version, py_get, py_get_d. cbn [bind].
    rewrite Hv, Ht, (Hne "1.6" eq_refl). reflexivity.
Qed.

Lemma header_error_printed_as_warning_witness :
  exists e,
    validate_bom_format (JDict [("bomFormat", JStr "Should be CycloneDX")])
    = Ok (false, [e])
    /\ looks_like_warning e = true
    /\ message_line false e = "  [WARN] " ++ e.
Proof.
  apply (header_error_printed_as_warning
           [("bomFormat", JStr "Should be CycloneDX")] (JStr "Should be CycloneDX")
           eq_refl eq_refl).
  reflexivity.
Defined.

End ClassificationFacts.

From Stdlib Require Import Permutation.

(* ================================================================= *)
(** ** The aggregator on arbitrary arrays, on parts and on reorderings *)

Module AggregatorFacts.
Import Py Cbom DictFacts CountFacts.

Lemma count_finding_not_object (st : counts) (entry : json) :
  is_dict entry = false -> count_finding st entry = Raise AttributeError.
Proof.
  destruct entry; try reflexivity. discriminate.
Qed.

Lemma count_from_not_objects (findings : list json) :
  forallb is_dict findings = false ->
  forall st, count_from st findings = Raise AttributeError.
Proof.
  induction findings as [|entry rest IH]; [discriminate|].
  cbn [forallb]. intros H st. cbn [count_from].
  destruct entry as [| | | | | |f]; try reflexivity.
  cbn [is_dict andb] in H. rewrite count_finding_object. cbn [bind]. apply IH, H.
Qed.

Lemma objects_of (findings : list json) :
  forallb is_dict findings = true -> exists fs : list finding, findings = map JDict fs.
Proof.
  induction findings as [|entry rest IH]; intros H; [exists []; reflexivity|].
  cbn [forallb] in H. apply andb_true_iff in H as [He Hr].
  destruct (IH Hr) as (fs & ->). destruct entry as [| | | | | |f]; try discriminate He.
  exists (f :: fs). reflexivity.
Qed.

(** X21. [count_findings] returns exactly on arrays whose entries are all
    objects; one entry of another kind (a number, text, null, a nested array),
    wherever it stands, makes it raise [AttributeError], and [compare_summary]
    with it, before any message is produced. *)
Theorem count_findings_raises_on_non_object (findings : list json) :
  (forallb is_dict findings = true -> exists c, count_findings findings = Ok c)
  /\ (forallb is_dict findings = false ->
      count_findings findings = Raise AttributeError
      /\ forall d, lookup "findings" d = Some (JList findings) ->
                   compare_summary (JDict d) = Raise AttributeError).
Proof.
  split; intros H.
  - destruct (objects_of findings H) as (fs & ->).
    destruct (count_from_objects fs no_counts) as (c & Hc & _).
    exists c. exact Hc.
  - assert (Hr : count_findings findings = Raise AttributeError)
      by (apply count_from_not_objects; exact H).
    split; [exact Hr|]. intros d Hd.
    unfold compare_summary, py_get, py_get_d. cbn [bind]. rewrite Hd.
    assert (Hl : py_or (JList findings) (JList []) = JList findings).
    { destruct findings; [discriminate H|reflexivity]. }
    rewrite Hl, Hr. reflexivity.
Qed.

Lemma count_findings_raises_on_non_object_witness :
  count_findings [JDict [("risk", JStr "HIGH")]; JNull] = Raise AttributeError
  /\ compare_summary
       (JDict [("findings", JList [JDict [("risk", JStr "HIGH")]; JNull])])
     = Raise AttributeError.
Proof.
  destruct (proj2 (count_findings_raises_on_non_object
                     [JDict [("risk", JStr "HIGH")]; JNull]) eq_refl) as [Hc Hs].
  split; [exact Hc|]. apply Hs. reflexivity.
Defined.

(** X22. Counting is additive over concatenation: the counts of two arrays of
    finding objects put end to end are the sums of their counts, for the two
    totals and for every label of the two histograms. *)
Theorem count_findings_additive (fs1 fs2 : list finding) :
  exists c1 c2 c : counts,
    count_findings (map JDict fs1) = Ok c1
    /\ count_findings (map JDict fs2) = Ok c2
    /\ count_findings (map JDict (fs1 ++ fs2)) = Ok c
    /\ vuln_assets c = vuln_assets c1 + vuln_assets c2
    /\ quantum_safe c = quantum_safe c1 + quantum_safe c2
    /\ (forall k, get0 k (risk_counts c) = get0 k (risk_counts c1) + get0 k (risk_counts c2))
    /\ (forall k, get0 k (algo_counts c) = get0 k (algo_counts c1) + get0 k (algo_counts c2)).
Proof.
  destruct (count_from_objects fs1 no_counts) as (c1 & H1 & Hv1 & Hq1 & Hr1 & Ha1).
  destruct (count_from_objects fs2 no_counts) as (c2 & H2 & Hv2 & Hq2 & Hr2 & Ha2).
  destruct (count_from_objects (fs1 ++ fs2) no_counts) as (c & H & Hv & Hq & Hr & Ha).
  exists c1, c2, c. repeat (split; [assumption|]).
  cbn [no_counts vuln_assets quantum_safe risk_counts algo_counts get0 lookup] in *.
  rewrite Hv, Hq, Hv1, Hv2, Hq1, Hq2, !tally_app.
  split; [lia|]. split; [lia|].
  split; intros k.
  - rewrite Hr, Hr1, Hr2, tally_app. lia.
  - rewrite Ha, Ha1, Ha2, tally_app. lia.
Qed.

Lemma tally_permutation {A : Type} (p : A -> bool) (l l' : list A) :
  Permutation l l' -> tally p l = tally p l'.
Proof.
  induction 1 as [|a l l' _ IH|a b l|l l' l'' _ IH1 _ IH2].
  - reflexivity.
  - rewrite !tally_cons, IH. reflexivity.
  - rewrite !tally_cons. lia.
  - rewrite IH1. exact IH2.
Qed.

(** X23. The counts do not depend on the order of the findings: reordering
    the array leaves both totals and the count of every label as they were
    (only the order of the keys, and so of the messages, can change). *)
Theorem count_findings_order_independent (fs fs' : list finding) :
  Permutation fs fs' ->
  exists c c' : counts,
    count_findings (map JDict fs) = Ok c
    /\ count_findings (map JDict fs') = Ok c'
    /\ vuln_assets c = vuln_assets c'
    /\ quantum_safe c = quantum_safe c'
    /\ (forall k, get0 k (risk_counts c) = get0 k (risk_counts c'))
    /\ (forall k, get0 k (algo_counts c) = get0 k (algo_counts c')).
Proof.
  intros HP.
  destruct (count_from_objects fs no_counts) as (c & H & Hv & Hq & Hr & Ha).
  destruct (count_from_objects fs' no_counts) as (c' & H' & Hv' & Hq' & Hr' & Ha').
  exists c, c'. repeat (split; [assumption|]).
  rewrite Hv, Hq, Hv', Hq', (tally_permutation _ _ _ HP), (tally_permutation resistant _ _ HP).
  split; [reflexivity|]. split; [reflexivity|].
  split; intros k.
  - rewrite Hr, Hr', (tally_permutation _ _ _ HP). reflexivity.
  - rewrite Ha, Ha', (tally_permutation _ _ _ HP). reflexivity.
Qed.

Lemma count_findings_order_independent_witness :
  exists c c' : counts,
    count_findings [JDict [("risk", JStr "HIGH")]; JDict [("risk", JStr "LOW")]] = Ok c
    /\ count_findings [JDict [("risk", JStr "LOW")]; JDict [("risk", JStr "HIGH")]] = Ok c'
    /\ vuln_assets c = vuln_assets c'
    /\ get0 "HIGH" (risk_counts c) = get0 "HIGH" (risk_counts c').
Proof.
  destruct (count_findings_order_independent
              [[("risk", JStr "HIGH")]; [("risk", JStr "LOW")]]
              [[("risk", JStr "LOW")]; [("risk", JStr "HIGH")]]
              (perm_swap _ _ []))
    as (c & c' & H & H' & Hv & _ & Hr & _).
  exists c, c'. repeat (split; [assumption|]). exact (Hr "HIGH").
Defined.

End AggregatorFacts.

(* ================================================================= *)
(** ** The comparator on summaries of the documented types *)

Module OrderFacts.
Import Py Cbom DictFacts CountFacts CompareFacts HistogramFacts VerdictFacts.

Lemma get0_head_other (k k' : string) (v : Z) (d : list (string * Z)) :
  k' <> k -> get0 k' ((k, v) :: d) = get0 k' d.
Proof.
  intros Hne. unfold get0. cbn [lookup].
  destruct (String.eqb_spec k' k) as [E|_]; [contradiction|reflexivity].
Qed.

(** A dict with distinct keys is its keys, each with the value read back. *)
Lemma dict_from_keys (d : list (string * Z)) :
  NoDup (keys d) -> d = map (fun k => (k, get0 k d)) (keys d).
Proof.
  induction d as [|[k v] d IH]; [reflexivity|].
  cbn [keys map fst]. intros Hnd. inversion Hnd as [|? ? Hnot Hnd']; subst.
  f_equal.
  - unfold get0. cbn [lookup]. rewrite String.eqb_refl. reflexivity.
  - rewrite (IH Hnd') at 1. apply map_ext_in. intros k' Hin.
    rewrite get0_head_other; [reflexivity|]. intros ->. exact (Hnot Hin).
Qed.

(** The labels met in the findings, in first-seen order, each with its
    number of findings. *)
Definition histogram (label : finding -> string) (fs : list finding)
  : list (string * Z) :=
  map (fun k => (k, tally (fun f => String.eqb k (label f)) fs))
      (first_seen [] (map label fs)).

Lemma count_findings_as_histograms (fs : list finding) :
  exists c : counts,
    count_findings (map JDict fs) = Ok c
    /\ risk_counts c = histogram risk_of fs
    /\ algo_counts c = histogram algo_of fs
    /\ vuln_assets c = tally vulnerable fs
    /\ quantum_safe c = tally resistant fs.
Proof.
  destruct (count_from_objects fs no_counts) as (c & Hc & Hv & Hq & Hr & Ha).
  destruct (count_from_shape fs no_counts c Hc) as (Hkr & Hka & _).
  cbn [no_counts risk_counts algo_counts keys map app vuln_assets quantum_safe get0 lookup]
    in Hkr, Hka, Hv, Hq, Hr, Ha.
  exists c. split; [exact Hc|].
  assert (Hnr : NoDup (keys (risk_counts c)))
    by (rewrite Hkr; apply (first_seen_fresh []); constructor).
  assert (Hna : NoDup (keys (algo_counts c)))
    by (rewrite Hka; apply (first_seen_fresh []); constructor).
  split; [|split; [|split; [lia|lia]]].
  - rewrite (dict_from_keys _ Hnr) at 1. rewrite Hkr. unfold histogram.
    apply map_ext. intros k. rewrite Hr. reflexivity.
  - rewrite (dict_from_keys _ Hna) at 1. rewrite Hka. unfold histogram.
    apply map_ext. intros k. rewrite Ha. reflexivity.
Qed.

(** An integer, or null. *)
Definition int_or_null (v : json) : bool :=
  match v with JInt _ | JNull => true | _ => false end.

(** A total is absent or an integer; a breakdown is absent, null, or an
    object whose values are integers or null. *)
Definition total_typed (key : string) (s : list (string * json)) : bool :=
  match lookup key s with None | Some (JInt _) => true | Some _ => false end.

Definition breakdown_typed (field : string) (s : list (string * json)) : bool :=
  match lookup field s with
  | None | Some JNull => true
  | Some (JDict r) => forallb (fun kv => int_or_null (snd kv)) r
  | Some _ => false
  end.

(** The messages on a total, and on a breakdown walked over [computed]. *)
Definition total_msgs (key : string) (s : list (string * json)) (computed : Z)
  : list string :=
  match lookup key s with
  | Some (JInt n) => if Z.eqb n computed then [] else [msg_total key n computed]
  | _ => []
  end.

Definition count_msgs (field : string) (r : list (string * json))
  (computed : list (string * Z)) : list string :=
  flat_map (fun kv => match lookup (fst kv) r with
                      | Some (JInt n) =>
                          if Z.eqb n (snd kv) then []
                          else [msg_breakdown field (fst kv) n (snd kv)]
                      | _ => []
                      end) computed.

Definition breakdown_msgs (field : string) (s : list (string * json))
  (computed : list (string * Z)) : list string :=
  match lookup field s with
  | Some (JDict r) => count_msgs field r computed
  | _ => []
  end.

Definition no_message (msgs : list string) : bool :=
  match msgs with [] => true | _ => false end.

(** A step that appends [msgs] and fails the verdict if there is any. *)
Definition after (acc : verdict) (msgs : list string) : verdict :=
  ((fst acc && no_message msgs)%bool, (snd acc ++ msgs)%list).

Lemma after_nil (acc : verdict) : after acc [] = acc.
Proof.
  destruct acc as [ok errors]. unfold after. cbn [fst snd no_message].
  rewrite andb_true_r, List.app_nil_r. reflexivity.
Qed.

Lemma after_after (acc : verdict) (m1 m2 : list string) :
  after (after acc m1) m2 = after acc (m1 ++ m2).
Proof.
  unfold after. cbn [fst snd]. rewrite <- List.app_assoc. f_equal.
  destruct m1; cbn [no_message app]; [rewrite andb_true_r; reflexivity|].
  rewrite andb_false_r. reflexivity.
Qed.

Lemma compare_total_typed (key : string) (s : list (string * json)) (computed : Z)
  (acc : verdict) :
  total_typed key s = true ->
  compare_total key (JDict s) computed acc = Ok (after acc (total_msgs key s computed)).
Proof.
  unfold total_typed, total_msgs. intros Ht.
  destruct (lookup key s) as [v|] eqn:Hk.
  - destruct v; try discriminate Ht. rewrite (compare_total_int _ _ _ _ _ Hk).
    destruct (Z.eqb z computed); [rewrite after_nil; reflexivity|].
    unfold after, append. cbn [no_message]. rewrite andb_false_r. reflexivity.
  - unfold compare_total, py_in, has_key. rewrite Hk. cbn [bind].
    rewrite after_nil. reflexivity.
Qed.

Lemma compare_breakdown_typed (field : string) (r : list (string * json))
  (computed : list (string * Z)) :
  forallb (fun kv => int_or_null (snd kv)) r = true ->
  forall acc, compare_breakdown field (JDict r) computed acc
              = Ok (after acc (count_msgs field r computed)).
Proof.
  intros Hr. induction computed as [|[key count] rest IH]; intros acc.
  - cbn [compare_breakdown count_msgs flat_map]. rewrite after_nil. reflexivity.
  - cbn [compare_breakdown count_msgs flat_map fst snd py_get py_get_d bind].
    fold (count_msgs field r rest).
    destruct (lookup key r) as [v|] eqn:Hk.
    + assert (Hv : int_or_null v = true).
      { apply lookup_In in Hk. rewrite forallb_forall in Hr. exact (Hr _ Hk). }
      destruct v; try discriminate Hv; cbn [is_none py_int bind].
      * cbn [app]. apply IH.
      * destruct (Z.eqb z count); cbn [negb app].
        -- apply IH.
        -- rewrite IH. f_equal.
           transitivity (after (after acc [msg_breakdown field key z count])
                           (count_msgs field r rest)).
           ++ f_equal. unfold after, append. cbn [no_message fst snd].
              rewrite andb_false_r. reflexivity.
           ++ apply after_after.
    + cbn [is_none bind app]. apply IH.
Qed.

Lemma breakdown_of_typed (field : string) (s : list (string * json))
  (computed : list (string * Z)) (acc : verdict) :
  breakdown_typed field s = true ->
  (b <- breakdown_of (JDict s) field ;; compare_breakdown field b computed acc)
  = Ok (after acc (breakdown_msgs field s computed)).
Proof.
  unfold breakdown_typed, breakdown_msgs, breakdown_of, py_get, py_get_d.
  cbn [is_dict bind]. intros Ht.
  destruct (lookup field s) as [v|].
  - destruct v; try discriminate Ht.
    + cbn [py_or truthy]. rewrite compare_breakdown_nothing_reported, after_nil.
      reflexivity.
    + rewrite py_or_object. apply compare_breakdown_typed. exact Ht.
  - cbn [py_or truthy]. rewrite compare_breakdown_nothing_reported, after_nil.
    reflexivity.
Qed.

(** X24. With findings an array of objects and a summary of the documented
    types (totals absent or integers, breakdowns absent, null or objects of
    integers and nulls), the comparator returns; its messages are, in this
    order, the one on [quantum_safe_assets], the one on [vulnerable_assets],
    those on [risk_breakdown] in the order the labels first occur in the
    findings, then those on [algorithm_breakdown] likewise, each present
    exactly when the reported integer differs from the count; and the verdict
    is ok exactly when there is none. *)
Theorem compare_summary_messages_in_order
  (d s : list (string * json)) (fs : list finding) :
  lookup "findings" d = Some (JList (map JDict fs)) ->
  lookup "summary" d = Some (JDict s) ->
  total_typed "quantum_safe_assets" s = true ->
  total_typed "vulnerable_assets" s = true ->
  breakdown_typed "risk_breakdown" s = true ->
  breakdown_typed "algorithm_breakdown" s = true ->
  let errors :=
    (total_msgs "quantum_safe_assets" s (tally resistant fs)
     ++ total_msgs "vulnerable_assets" s (tally vulnerable fs)
     ++ breakdown_msgs "risk_breakdown" s (histogram risk_of fs)
     ++ breakdown_msgs "algorithm_breakdown" s (histogram algo_of fs))%list in
  compare_summary (JDict d) = Ok (no_message errors, errors).
Proof.
  intros Hf Hs Tq Tv Tr Ta. cbv zeta.
  destruct (compare_summary_on_objects d s fs Hf Hs) as (c & Hc & _ & _ & Hcmp).
  destruct (count_findings_as_histograms fs) as (c' & Hc' & Hr & Ha & Hv & Hq).
  rewrite Hc in Hc'. injection Hc' as <-.
  rewrite Hcmp. unfold compare_counts.
  rewrite (compare_total_typed _ _ _ _ Tq). cbn [bind].
  rewrite (compare_total_typed _ _ _ _ Tv). cbn [bind].
  assert (Hrisk := breakdown_of_typed "risk_breakdown" s (risk_counts c)
                     (after (after (true, []) (total_msgs "quantum_safe_assets" s (quantum_safe c)))
                        (total_msgs "vulnerable_assets" s (vuln_assets c))) Tr).
  destruct (breakdown_of (JDict s) "risk_breakdown") as [s_risk|x]; cbn [bind] in Hrisk |- *;
    [|discriminate Hrisk].
  rewrite Hrisk. cbn [bind].
  rewrite (breakdown_of_typed "algorithm_breakdown" s (algo_counts c) _ Ta).
  rewrite !after_after, Hr, Ha, Hv, Hq. reflexivity.
Qed.

Lemma compare_summary_messages_in_order_witness :
  compare_summary
    (JDict [("findings",
             JList [JDict [("risk", JStr "low"); ("algorithm", JStr "AES")];
                    JDict [("risk", JStr "high"); ("algorithm", JStr "RSA")];
                    JDict [("risk", JStr "LOW"); ("algorithm", JStr "RSA")]]);
            ("summary",
             JDict [("vulnerable_assets", JInt 2);
                    ("risk_breakdown", JDict [("HIGH", JInt 3); ("LOW", JInt 1)]);
                    ("algorithm_breakdown", JDict [("RSA", JInt 2); ("AES", JNull)])])])
  = Ok (false, ["summary.vulnerable_assets=2 != computed 1";
                "summary.risk_breakdown[LOW]=1 != computed 2";
                "summary.risk_breakdown[HIGH]=3 != computed 1"]).
Proof.
  apply (compare_summary_messages_in_order
           [("findings",
             JList [JDict [("risk", JStr "low"); ("algorithm", JStr "AES")];
                    JDict [("risk", JStr "high"); ("algorithm", JStr "RSA")];
                    JDict [("risk", JStr "LOW"); ("algorithm", JStr "RSA")]]);
            ("summary",
             JDict [("vulnerable_assets", JInt 2);
                    ("risk_breakdown", JDict [("HIGH", JInt 3); ("LOW", JInt 1)]);
                    ("algorithm_breakdown", JDict [("RSA", JInt 2); ("AES", JNull)])])]
           [("vulnerable_assets", JInt 2);
            ("risk_breakdown", JDict [("HIGH", JInt 3); ("LOW", JInt 1)]);
            ("algorithm_breakdown", JDict [("RSA", JInt 2); ("AES", JNull)])]
           [[("risk", JStr "low"); ("algorithm", JStr "AES")];
            [("risk", JStr "high"); ("algorithm", JStr "RSA")];
            [("risk", JStr "LOW"); ("algorithm", JStr "RSA")]]);
    reflexivity.
Defined.

End OrderFacts.

(* ================================================================= *)
(** ** Totals that are not written as integers *)

Module ConversionFacts.
Import Py Cbom DictFacts CountFacts CompareFacts HistogramFacts VerdictFacts.

(** The message on a total, showing the value as reported. *)
Definition msg_total_shown (key : string) (v : json) (computed : Z) : string :=
  "summary." ++ key ++ "=" ++ str v ++ " != computed " ++ str_of_Z computed.

Lemma compare_total_converted (key : string) (s : list (string * json)) (v : json)
  (computed : Z) (acc : verdict) :
  lookup key s = Some v ->
  compare_total key (JDict s) computed acc
  = match py_int v with
    | Ok n => Ok (if Z.eqb n computed then acc
                  else (false, append (snd acc) (msg_total_shown key v computed)))
    | Raise e => Raise e
    end.
Proof.
  intros Hk. unfold compare_total, py_in, has_key, py_get, py_get_d.
  rewrite Hk. cbn [bind]. destruct (py_int v) as [n|e]; [|reflexivity].
  cbn [bind]. destruct (Z.eqb n computed); reflexivity.
Qed.

(** X25. A reported [quantum_safe_assets] goes through [int] before it is
    compared, with findings an array of objects and a summary object: if [int]
    raises on it (null, a list, text that is no number, NaN, infinity), so
    does the comparator, with the same exception; if it converts to the
    computed count (text "3", 3.9 or true for 1 do), no message on the field
    is returned; if it converts to another number, the verdict fails with a
    message that shows the value as it was reported. *)
Theorem reported_total_converted
  (d s : list (string * json)) (fs : list finding) (v : json) :
  lookup "findings" d = Some (JList (map JDict fs)) ->
  lookup "summary" d = Some (JDict s) ->
  lookup "quantum_safe_assets" s = Some v ->
  (forall e, py_int v = Raise e -> compare_summary (JDict d) = Raise e)
  /\ (forall ok errors,
        py_int v = Ok (tally resistant fs) ->
        compare_summary (JDict d) = Ok (ok, errors) ->
        forall m, In m errors -> String.prefix "summary.quantum_safe_assets=" m = false)
  /\ (forall n ok errors,
        py_int v = Ok n -> n <> tally resistant fs ->
        compare_summary (JDict d) = Ok (ok, errors) ->
        ok = false
        /\ In (msg_total_shown "quantum_safe_assets" v (tally resistant fs)) errors).
Proof.
  intros Hf Hs Hk.
  destruct (compare_summary_on_objects d s fs Hf Hs) as (c & _ & _ & Hq & Hcmp).
  rewrite Hcmp. unfold compare_counts.
  rewrite (compare_total_converted _ _ _ _ _ Hk), Hq.
  split; [|split].
  - intros e ->. reflexivity.
  - intros ok errors -> Hres m Hm. rewrite Z.eqb_refl in Hres. cbn [bind] in Hres.
    destruct (compare_total "vulnerable_assets" (JDict s) (vuln_assets c) (true, []))
      as [acc2|x] eqn:H2; cbn [bind] in Hres; try discriminate.
    destruct (breakdown_of (JDict s) "risk_breakdown") as [s_risk|x]; cbn [bind] in Hres;
      try discriminate.
    destruct (compare_breakdown "risk_breakdown" s_risk (risk_counts c) acc2)
      as [acc3|x] eqn:H3; cbn [bind] in Hres; try discriminate.
    destruct (breakdown_of (JDict s) "algorithm_breakdown") as [s_algo|x];
      cbn [bind] in Hres; try discriminate.
    destruct (compare_breakdown_messages _ _ _ _ _ Hres m Hm)
      as [Hm3 | (key & w & count & _ & _ & ->)]; [|reflexivity].
    destruct (compare_breakdown_messages _ _ _ _ _ H3 m Hm3)
      as [Hm2 | (key & w & count & _ & _ & ->)]; [|reflexivity].
    destruct (compare_total_messages _ _ _ _ _ H2 m Hm2)
      as [[] | (_ & shown & ->)]. reflexivity.
  - intros n ok errors -> Hne Hres.
    destruct (Z.eqb_spec n (tally resistant fs)) as [E|_]; [contradiction|].
    cbn [bind] in Hres.
    destruct (compare_total "vulnerable_assets" (JDict s) (vuln_assets c) _)
      as [acc2|x] eqn:H2; cbn [bind] in Hres; try discriminate.
    destruct (breakdown_of (JDict s) "risk_breakdown") as [s_risk|x]; cbn [bind] in Hres;
      try discriminate.
    destruct (compare_breakdown "risk_breakdown" s_risk (risk_counts c) acc2)
      as [acc3|x] eqn:H3; cbn [bind] in Hres; try discriminate.
    destruct (breakdown_of (JDict s) "algorithm_breakdown") as [s_algo|x];
      cbn [bind] in Hres; try discriminate.
    assert (E := extends_trans _ _ _ (compare_total_extends _ _ _ _ _ H2)
                   (extends_trans _ _ _ (compare_breakdown_extends _ _ _ _ _ H3)
                      (compare_breakdown_extends _ _ _ _ _ Hres))).
    split; [exact (proj1 (proj2 E) eq_refl)|].
    apply (extends_In _ _ _ E). left; reflexivity.
Qed.

Lemma reported_total_converted_witness :
  compare_summary
    (JDict [("findings", JList [JDict [("quantum_resistant", JBool true)]]);
            ("summary", JDict [("quantum_safe_assets", JStr " 1 ")])])
  = Ok (true, [])
  /\ compare_summary
       (JDict [("findings", JList [JDict [("quantum_resistant", JBool true)]]);
               ("summary", JDict [("quantum_safe_assets", JNull)])])
     = Raise TypeError
  /\ In (msg_total_shown "quantum_safe_assets" (JBool false) 1)
        ["summary.quantum_safe_assets=False != computed 1"].
Proof.
  split; [reflexivity|]. split.
  - apply (proj1 (reported_total_converted
                    [("findings", JList [JDict [("quantum_resistant", JBool true)]]);
                     ("summary", JDict [("quantum_safe_assets", JNull)])]
                    [("quantum_safe_assets", JNull)]
                    [[("quantum_resistant", JBool true)]] JNull
                    eq_refl eq_refl eq_refl)).
    reflexivity.
  - apply (proj2 (proj2 (reported_total_converted
                    [("findings", JList [JDict [("quantum_resistant", JBool true)]]);
                     ("summary", JDict [("quantum_safe_assets", JBool false)])]
                    [("quantum_safe_assets", JBool false)]
                    [[("quantum_resistant", JBool true)]] (JBool false)
                    eq_refl eq_refl eq_refl)) 0 false
             ["summary.quantum_safe_assets=False != computed 1"]);
      [reflexivity|discriminate|reflexivity].
Defined.

End ConversionFacts.
